(** * NailMetrics: the interactive overlay and the calibration engine

    A shallow embedding of the geometry and calibration code of the
    NailMetrics front end:

    - [NailOverlay] (components/NailOverlay.tsx): pan / zoom / pinch and the
      drag, resize and rotate edits of the oriented boxes;
    - [CoinOverlay] (components/CoinOverlay.tsx): the reference disk;
    - [HandDetection] (hooks/useHandDetection.ts): [detect];
    - [App] (App.tsx): the session state, the implied (thumb) calibration
      effect, the manual calibration callback and [analyzeImage].

    JavaScript numbers are modelled by the real numbers [R]: the model speaks
    about finite values and exact arithmetic, and says nothing about
    rounding, NaN or infinities.  React state is passed explicitly: a handler
    is a function from the props and the component state of the render it
    closes over to the next component state, together with the callbacks it
    fires. *)

From Stdlib Require Import Reals Lra String List Bool Arith Lia.
From stdpp Require Import base list.

Open Scope R_scope.

(** ** The parts of the JavaScript runtime the code relies on *)

Module Math.

Definition max (a b : R) : R := Rmax a b.
Definition min (a b : R) : R := Rmin a b.
Definition hypot (a b : R) : R := sqrt (a * a + b * b).

(** [Math.atan2 (y, x)], the angle of the vector [(x, y)] in (-PI, PI]. *)
Definition atan2 (y x : R) : R :=
  if Rlt_dec 0 x then atan (y / x)
  else if Rlt_dec x 0 then
         (if Rle_dec 0 y then atan (y / x) + PI else atan (y / x) - PI)
  else if Rlt_dec 0 y then PI / 2
  else if Rlt_dec y 0 then - (PI / 2)
  else 0.

End Math.

(** [a > b] as a JavaScript condition. *)
Definition gtb (a b : R) : bool := if Rlt_dec b a then true else false.

(** How a handler can end.  [TypeError] is a property read on [undefined].
    [SparseArray] is a store past the end of an array, which in JavaScript
    leaves holes in it: the model stops there. *)
Inductive outcome (A : Type) : Type :=
| Returns (a : A)
| TypeError
| SparseArray.
Arguments Returns {A} a.
Arguments TypeError {A}.
Arguments SparseArray {A}.

(** [l[i] = v] on a copy of [l]. *)
Definition array_assign {A : Type} (l : list A) (i : nat) (v : A)
  : outcome (list A) :=
  if (i <? length l)%nat then Returns (<[i := v]> l)
  else if (i =? length l)%nat then Returns (l ++ [v])
  else SparseArray.

(** A JavaScript string used as a condition: the empty string is falsy. *)
Definition truthy (s : string) : bool :=
  match s with EmptyString => false | _ => true end.

(** ** Data model *)

Module Point.
Record t : Type := mk { x : R; y : R }.
End Point.

Module Size.
Record t : Type := mk { width : R; height : R }.
End Size.

Module DOMRect.
Record t : Type := mk { left : R; top : R; width : R; height : R }.
End DOMRect.

Module BoundingBox.
Record t : Type :=
  mk { x : R; y : R; width : R; height : R; rotation : R }.
End BoundingBox.

Module NailMeasurement.
Record t : Type :=
  mk { finger : string; width : R; length : R;
       boundingBox : BoundingBox.t }.

(** [{ ...m, boundingBox: bb }] *)
Definition with_boundingBox (m : t) (bb : BoundingBox.t) : t :=
  mk (finger m) (width m) (length m) bb.
End NailMeasurement.

Module Transform.
Record t : Type := mk { scale : R; x : R; y : R }.

(** [{ ...t, scale: s }] *)
Definition with_scale (t0 : t) (s : R) : t := mk s (x t0) (y t0).
(** [{ ...t, x: a, y: b }] *)
Definition with_xy (t0 : t) (a b : R) : t := mk (scale t0) a b.
End Transform.

(** ** NailOverlay *)

Module NailOverlay.

(** The content of [initialMeasurementRef]: [null], a copy of a
    measurement, or the empty object that [{ ...undefined }] is. *)
Inductive snapshot : Type :=
| SnapNull
| SnapEmpty
| SnapBox (m : NailMeasurement.t).

(** [{ ...measurements[index] }] *)
Definition snapshot_of (measurements : list NailMeasurement.t) (index : nat)
  : snapshot :=
  match measurements !! index with
  | Some m => SnapBox m
  | None => SnapEmpty
  end.

(** The state ([useState]) and the refs ([useRef]) of the component. *)
Record state : Type := mkState {
  transform : Transform.t;
  isPanning : bool;
  panStartRef : Point.t;
  panStartTransformRef : Point.t;
  activeId : option nat;
  interactionMode : option string;
  dragStartRef : Point.t;
  initialMeasurementRef : snapshot;
  pinchStartDistRef : R;
  pinchStartScaleRef : R
}.

Definition init : state :=
  mkState (Transform.mk 1 0 0) false (Point.mk 0 0) (Point.mk 0 0)
          None None (Point.mk 0 0) SnapNull 0 1.

Definition set_transform (s : state) (t : Transform.t) : state :=
  mkState t (isPanning s) (panStartRef s) (panStartTransformRef s)
          (activeId s) (interactionMode s) (dragStartRef s)
          (initialMeasurementRef s) (pinchStartDistRef s)
          (pinchStartScaleRef s).

(** [setIsPanning(false); setActiveId(null); setInteractionMode(null)] *)
Definition clear_gesture (s : state) : state :=
  mkState (transform s) false (panStartRef s) (panStartTransformRef s)
          None None (dragStartRef s) (initialMeasurementRef s)
          (pinchStartDistRef s) (pinchStartScaleRef s).

(** The pan branch of the two pointer-down handlers. *)
Definition start_pan (s : state) (p : Point.t) : state :=
  mkState (transform s) true p
          (Point.mk (Transform.x (transform s)) (Transform.y (transform s)))
          (activeId s) (interactionMode s) (dragStartRef s)
          (initialMeasurementRef s) (pinchStartDistRef s)
          (pinchStartScaleRef s).

(** The box branch of the two pointer-down handlers. *)
Definition start_edit (measurements : list NailMeasurement.t) (s : state)
           (p : Point.t) (index : nat) (mode : string) : state :=
  mkState (transform s) (isPanning s) (panStartRef s)
          (panStartTransformRef s) (Some index) (Some mode) p
          (snapshot_of measurements index) (pinchStartDistRef s)
          (pinchStartScaleRef s).

(** What a handler leaves behind: the next component state and, when it
    called [onMeasurementsChange], the list it passed. *)
Record effect : Type := mkEffect {
  next : state;
  emitted : option (list NailMeasurement.t)
}.

Definition quiet (s : state) : outcome effect := Returns (mkEffect s None).

(** *** Zoom *)

Definition handleWheel (s : state) (deltaY : R) : state :=
  let scaleAmount := - deltaY * 0.001 in
  let newScale :=
    Math.min (Math.max 0.5 (Transform.scale (transform s) * (1 + scaleAmount)))
             5 in
  set_transform s (Transform.with_scale (transform s) newScale).

(** The three buttons of the zoom controls. *)
Definition zoomOut (s : state) : state :=
  set_transform s
    (Transform.with_scale (transform s)
       (Math.max 0.5 (Transform.scale (transform s) - 0.5))).

Definition zoomIn (s : state) : state :=
  set_transform s
    (Transform.with_scale (transform s)
       (Math.min 5 (Transform.scale (transform s) + 0.5))).

Definition resetView (s : state) : state :=
  set_transform s (Transform.mk 1 0 0).

Definition getPinchDist (touches : list Point.t) : R :=
  match touches with
  | t1 :: t2 :: _ =>
      Math.hypot (Point.x t1 - Point.x t2) (Point.y t1 - Point.y t2)
  | _ => 0
  end.

(** The pinch branch of [handleTouchMove], as a function of the distance
    between the two touches. *)
Definition pinchZoom (s : state) (dist : R) : state :=
  if gtb (pinchStartDistRef s) 0 && gtb dist 0 then
    let scaleRatio := dist / pinchStartDistRef s in
    let newScale :=
      Math.min (Math.max 0.5 (pinchStartScaleRef s * scaleRatio)) 5 in
    set_transform s (Transform.with_scale (transform s) newScale)
  else s.

(** *** Box edits *)

(** The [switch] of the resize branch: the new width and height and the
    shift of the center in the frame of the box. *)
Definition resizeCase (mode : string) (bb : BoundingBox.t)
           (localDx localDy : R) : R * R * R * R :=
  let newW := BoundingBox.width bb in
  let newH := BoundingBox.height bb in
  if String.eqb mode "resize-e" then
    (Math.max 0.01 (BoundingBox.width bb + localDx), newH, localDx / 2, 0)
  else if String.eqb mode "resize-w" then
    (Math.max 0.01 (BoundingBox.width bb - localDx), newH, localDx / 2, 0)
  else if String.eqb mode "resize-s" then
    (newW, Math.max 0.01 (BoundingBox.height bb + localDy), 0, localDy / 2)
  else if String.eqb mode "resize-n" then
    (newW, Math.max 0.01 (BoundingBox.height bb - localDy), 0, localDy / 2)
  else (newW, newH, 0, 0).

(** The value the move handlers compute for [newMeasurements[activeId]]:
    [rect] is the bounding rectangle of the container, [dragStart] the
    pointer at the start of the gesture, [p] the pointer now.  [None] when
    the mode is none of rotate, drag and resize: nothing is stored.  The
    pixel deltas are divided by the width and the height of [rect]: for a
    container of width or height 0 JavaScript computes Infinity or NaN
    there, which the real numbers do not have, so the statements about the
    numbers of the result take a container of non-zero size. *)
Definition editMeasurement (mode : string) (rect : DOMRect.t)
           (initialM : NailMeasurement.t) (dragStart p : Point.t)
  : option NailMeasurement.t :=
  let bb := NailMeasurement.boundingBox initialM in
  let cxNorm := BoundingBox.x bb in
  let cyNorm := BoundingBox.y bb in
  let centerX := DOMRect.left rect + cxNorm * DOMRect.width rect in
  let centerY := DOMRect.top rect + cyNorm * DOMRect.height rect in
  let dxPx := Point.x p - Point.x dragStart in
  let dyPx := Point.y p - Point.y dragStart in
  if String.eqb mode "rotate" then
    let vecX := Point.x p - centerX in
    let vecY := Point.y p - centerY in
    let currentAngle := Math.atan2 vecY vecX in
    let startVecX := Point.x dragStart - centerX in
    let startVecY := Point.y dragStart - centerY in
    let startAngle := Math.atan2 startVecY startVecX in
    let deltaRotation := currentAngle - startAngle in
    Some (NailMeasurement.with_boundingBox initialM
            (BoundingBox.mk (BoundingBox.x bb) (BoundingBox.y bb)
               (BoundingBox.width bb) (BoundingBox.height bb)
               (BoundingBox.rotation bb + deltaRotation)))
  else if String.eqb mode "drag" then
    let dx := dxPx / DOMRect.width rect in
    let dy := dyPx / DOMRect.height rect in
    Some (NailMeasurement.with_boundingBox initialM
            (BoundingBox.mk (BoundingBox.x bb + dx) (BoundingBox.y bb + dy)
               (BoundingBox.width bb) (BoundingBox.height bb)
               (BoundingBox.rotation bb)))
  else if String.prefix "resize" mode then
    let dx := dxPx / DOMRect.width rect in
    let dy := dyPx / DOMRect.height rect in
    let rotation := BoundingBox.rotation bb in
    let cos_ := cos (- rotation) in
    let sin_ := sin (- rotation) in
    let localDx := dx * cos_ - dy * sin_ in
    let localDy := dx * sin_ + dy * cos_ in
    let '(newW, newH, shiftLocalX, shiftLocalY) :=
      resizeCase mode bb localDx localDy in
    let globalShiftX :=
      shiftLocalX * cos rotation - shiftLocalY * sin rotation in
    let globalShiftY :=
      shiftLocalX * sin rotation + shiftLocalY * cos rotation in
    Some (NailMeasurement.with_boundingBox initialM
            (BoundingBox.mk (BoundingBox.x bb + globalShiftX)
               (BoundingBox.y bb + globalShiftY) newW newH
               (BoundingBox.rotation bb)))
  else None.

(** [const newMeasurements = [...measurements]] followed by the branch
    that stores into it. *)
Definition newMeasurements (measurements : list NailMeasurement.t)
           (activeId_ : nat) (mode : string) (rect : DOMRect.t)
           (initialM : NailMeasurement.t) (dragStart p : Point.t)
  : outcome (list NailMeasurement.t) :=
  match editMeasurement mode rect initialM dragStart p with
  | Some m => array_assign measurements activeId_ m
  | None => Returns measurements
  end.


(** *** Pointer handlers *)

Definition handleMouseDown (measurements : list NailMeasurement.t)
           (s : state) (p : Point.t) (index : option nat) (mode : string)
  : state :=
  match index with
  | None => start_pan s p
  | Some i => start_edit measurements s p i mode
  end.

(** The state the move handlers need before they edit a box: the guard
    [activeId === null || !interactionMode || !containerRef.current ||
    !initialMeasurementRef.current]. *)
Inductive target : Type :=
| NoTarget
| Target (activeId_ : nat) (mode : string) (rect : DOMRect.t)
         (snap : snapshot).

Definition active_target (s : state) (container : option DOMRect.t)
  : target :=
  match activeId s, interactionMode s, container with
  | Some i, Some mode, Some rect =>
      if truthy mode then
        match initialMeasurementRef s with
        | SnapNull => NoTarget
        | snap => Target i mode rect snap
        end
      else NoTarget
  | _, _, _ => NoTarget
  end.

(** [handleMouseMove] builds [newMeasurements] like [handleTouchMove]
    does, and returns without passing it to [onMeasurementsChange]. *)
Definition handleMouseMove (measurements : list NailMeasurement.t)
           (s : state) (p : Point.t) (container : option DOMRect.t)
  : outcome effect :=
  if isPanning s then
    let dx := Point.x p - Point.x (panStartRef s) in
    let dy := Point.y p - Point.y (panStartRef s) in
    quiet (set_transform s
             (Transform.with_xy (transform s)
                (Point.x (panStartTransformRef s) + dx)
                (Point.y (panStartTransformRef s) + dy)))
  else
    match active_target s container with
    | NoTarget => quiet s
    | Target _ _ _ SnapNull => quiet s
    | Target _ _ _ SnapEmpty => TypeError
    | Target i mode rect (SnapBox initialM) =>
        let _newMeasurements :=
          newMeasurements measurements i mode rect initialM
                          (dragStartRef s) p in
        quiet s
    end.

Definition handleMouseUp (s : state) : state := clear_gesture s.

Definition handleTouchStart (measurements : list NailMeasurement.t)
           (s : state) (touches : list Point.t) (index : option nat)
           (mode : string) : outcome state :=
  if (length touches =? 2)%nat then
    let dist := getPinchDist touches in
    Returns
      (mkState (transform s) false (panStartRef s) (panStartTransformRef s)
               None None (dragStartRef s) (initialMeasurementRef s)
               dist (Transform.scale (transform s)))
  else
    match touches !! 0%nat with
    | None => TypeError
    | Some touch =>
        match index with
        | None => Returns (start_pan s touch)
        | Some i => Returns (start_edit measurements s touch i mode)
        end
    end.

Definition handleTouchMove (measurements : list NailMeasurement.t)
           (s : state) (touches : list Point.t)
           (container : option DOMRect.t) : outcome effect :=
  if (length touches =? 2)%nat then
    quiet (pinchZoom s (getPinchDist touches))
  else if isPanning s then
    match touches !! 0%nat with
    | None => TypeError
    | Some touch =>
        let dx := Point.x touch - Point.x (panStartRef s) in
        let dy := Point.y touch - Point.y (panStartRef s) in
        quiet (set_transform s
                 (Transform.with_xy (transform s)
                    (Point.x (panStartTransformRef s) + dx)
                    (Point.y (panStartTransformRef s) + dy)))
    end
  else
    match active_target s container with
    | NoTarget => quiet s
    | Target _ _ _ SnapNull => quiet s
    | Target _ _ _ SnapEmpty => TypeError
    | Target i mode rect (SnapBox initialM) =>
        match touches !! 0%nat with
        | None => TypeError
        | Some touch =>
            match newMeasurements measurements i mode rect initialM
                                  (dragStartRef s) touch with
            | Returns l => Returns (mkEffect s (Some l))
            | TypeError => TypeError
            | SparseArray => SparseArray
            end
        end
    end.

Definition handleTouchEnd (s : state) : state := clear_gesture s.

(** *** The overlay inside its parent

    The parent owns [measurements] and passes its setter as
    [onMeasurementsChange]; a session is that list and the overlay. *)

Record session : Type := mkSession {
  measurements : list NailMeasurement.t;
  ui : state
}.

Inductive event : Type :=
| Wheel (deltaY : R)
| MouseDown (p : Point.t) (index : option nat) (mode : string)
| MouseMove (p : Point.t) (container : option DOMRect.t)
| MouseUp
| TouchStart (touches : list Point.t) (index : option nat) (mode : string)
| TouchMove (touches : list Point.t) (container : option DOMRect.t)
| TouchEnd
| ZoomOut
| ZoomIn
| ResetView.

Definition commit (c : session) (r : outcome effect) : outcome session :=
  match r with
  | Returns e =>
      Returns (mkSession
                 (match emitted e with
                  | Some l => l
                  | None => measurements c
                  end)
                 (next e))
  | TypeError => TypeError
  | SparseArray => SparseArray
  end.

Definition step (c : session) (e : event) : outcome session :=
  let ms := measurements c in
  let keep (s : state) := Returns (mkSession ms s) in
  match e with
  | Wheel deltaY => keep (handleWheel (ui c) deltaY)
  | MouseDown p index mode => keep (handleMouseDown ms (ui c) p index mode)
  | MouseMove p container => commit c (handleMouseMove ms (ui c) p container)
  | MouseUp => keep (handleMouseUp (ui c))
  | TouchStart touches index mode =>
      match handleTouchStart ms (ui c) touches index mode with
      | Returns s => keep s
      | TypeError => TypeError
      | SparseArray => SparseArray
      end
  | TouchMove touches container =>
      commit c (handleTouchMove ms (ui c) touches container)
  | TouchEnd => keep (handleTouchEnd (ui c))
  | ZoomOut => keep (zoomOut (ui c))
  | ZoomIn => keep (zoomIn (ui c))
  | ResetView => keep (resetView (ui c))
  end.

Fixpoint run (c : session) (es : list event) : outcome session :=
  match es with
  | [] => Returns c
  | e :: es' =>
      match step c e with
      | Returns c' => run c' es'
      | TypeError => TypeError
      | SparseArray => SparseArray
      end
  end.

End NailOverlay.

(** ** CoinOverlay *)

Module CoinOverlay.

(** 10 NTD coin diameter, in millimeters. *)
Definition COIN_DIAMETER_MM : R := 26.0.

Record state : Type := mkState {
  diameter : R;
  position : Point.t;
  initialized : bool;
  isDragging : bool;
  isResizing : bool;
  dragStartRef : Point.t
}.

Definition init : state :=
  mkState 100 (Point.mk 0 0) false false false (Point.mk 0 0).

(** The effect on [[diameter, isVisible]]: the argument it passes to
    [onCalibrationChange], when it calls it. *)
Definition calibrationEffect (s : state) (isVisible : bool) : option R :=
  if isVisible then Some (diameter s / COIN_DIAMETER_MM) else None.

Inductive grip : Type := drag | resize.

Definition handleMouseDown (s : state) (p : Point.t) (mode : grip)
  : state :=
  mkState (diameter s) (position s) (initialized s)
          (match mode with drag => true | resize => isDragging s end)
          (match mode with resize => true | drag => isResizing s end)
          p.

(** The pointer deltas are divided by the zoom [scale] of the canvas, so
    that [diameter] and [position] stay in the frame of the unscaled
    canvas. *)
Definition handleMouseMove (s : state) (scale : R) (p : Point.t) : state :=
  if negb (isDragging s) && negb (isResizing s) then s
  else
    let dx := (Point.x p - Point.x (dragStartRef s)) / scale in
    let dy := (Point.y p - Point.y (dragStartRef s)) / scale in
    if isDragging s then
      mkState (diameter s)
              (Point.mk (Point.x (position s) + dx)
                        (Point.y (position s) + dy))
              (initialized s) (isDragging s) (isResizing s) p
    else
      let delta := Math.max dx dy in
      mkState (Math.max 20 (diameter s + delta)) (position s)
              (initialized s) (isDragging s) (isResizing s) p.

Definition handleMouseUp (s : state) : state :=
  mkState (diameter s) (position s) (initialized s) false false
          (dragStartRef s).

(** The effect on [[isVisible, initialized, diameter]] that centers the
    disk once.  [overlay] is the client size of the element behind
    [overlayRef], when there is one. *)
Definition centerEffect (s : state) (isVisible : bool)
           (overlay : option Size.t) : state :=
  match overlay with
  | Some sz =>
      if isVisible && negb (initialized s) then
        mkState (diameter s)
                (Point.mk (Size.width sz / 2 - diameter s / 2)
                          (Size.height sz / 2 - diameter s / 2))
                true (isDragging s) (isResizing s) (dragStartRef s)
      else s
  | None => s
  end.

Inductive event : Type :=
| Center (isVisible : bool) (overlay : option Size.t)
| MouseDown (p : Point.t) (mode : grip)
| MouseMove (scale : R) (p : Point.t)
| MouseUp.

Definition step (s : state) (e : event) : state :=
  match e with
  | Center isVisible overlay => centerEffect s isVisible overlay
  | MouseDown p mode => handleMouseDown s p mode
  | MouseMove scale p => handleMouseMove s scale p
  | MouseUp => handleMouseUp s
  end.

Definition run (s : state) (es : list event) : state := fold_left step es s.

End CoinOverlay.

(** ** useHandDetection *)

Module HandDetection.

Record NormalizedLandmark : Type := mkLandmark { x : R; y : R }.

Record fingerSpec : Type :=
  mkFinger { name : string; tip : nat; dip : nat }.

Definition fingers : list fingerSpec :=
  [ mkFinger "Thumb" 4 3; mkFinger "Index" 8 7; mkFinger "Middle" 12 11;
    mkFinger "Ring" 16 15; mkFinger "Pinky" 20 19 ].

(** The body of the [fingers.map] callback; reading [x] on a landmark
    that is not there is a [TypeError]. *)
Definition estimateFinger (landmarks : list NormalizedLandmark)
           (f : fingerSpec) : outcome NailMeasurement.t :=
  match landmarks !! tip f, landmarks !! dip f with
  | Some tip_, Some dip_ =>
      let dxDistal := x dip_ - x tip_ in
      let dyDistal := y dip_ - y tip_ in
      let distalLength := sqrt (dxDistal * dxDistal + dyDistal * dyDistal) in
      let fingerAngle := Math.atan2 dyDistal dxDistal in
      let rotation := fingerAngle - PI / 2 in
      let lengthR := if String.eqb (name f) "Thumb" then 0.7 else 0.85 in
      let aspectR := if String.eqb (name f) "Thumb" then 1.2 else 1.0 in
      let nailLength := distalLength * lengthR in
      let nailWidth := nailLength * aspectR in
      let nx := dxDistal / distalLength in
      let ny := dyDistal / distalLength in
      let shiftRatio := 0.1 in
      let cx := x tip_ + nx * (nailLength * shiftRatio) in
      let cy := y tip_ + ny * (nailLength * shiftRatio) in
      Returns (NailMeasurement.mk (name f) nailWidth nailLength
                 (BoundingBox.mk cx cy nailWidth nailLength rotation))
  | _, _ => TypeError
  end.

Fixpoint mapOutcome {A B : Type} (f : A -> outcome B) (l : list A)
  : outcome (list B) :=
  match l with
  | [] => Returns []
  | a :: l' =>
      match f a with
      | Returns b =>
          match mapOutcome f l' with
          | Returns bs => Returns (b :: bs)
          | TypeError => TypeError
          | SparseArray => SparseArray
          end
      | TypeError => TypeError
      | SparseArray => SparseArray
      end
  end.

Definition estimateNailBounds (landmarks : list NormalizedLandmark)
  : outcome (list NailMeasurement.t) :=
  mapOutcome (estimateFinger landmarks) fingers.

(** The state of the hook.  [landmarker] is [true] once the model is
    loaded; [error] is set by the loader alone, when loading fails. *)
Record state : Type := mkState {
  landmarker : bool;
  isLoading : bool;
  error : option string
}.

Definition init : state := mkState false true None.

Definition loaded (s : state) : state := mkState true false (error s).

Definition loadFailed (s : state) : state :=
  mkState (landmarker s) false
    (Some "Failed to load detection model. Please check your connection."%string).

(** What the external [landmarker.detect(imageElement)] answers: it
    throws, or it returns a result whose [landmarks] may be missing. *)
Inductive detectorAnswer : Type :=
| DetectorThrows (msg : string)
| DetectorResult (landmarks : option (list (list NormalizedLandmark))).

(** The promise [detect] returns, settled. *)
Inductive settled : Type :=
| Rejected (err : string)
| Resolved (measurements : list NailMeasurement.t).

Definition detect (s : state) (answer : detectorAnswer) : settled :=
  if negb (landmarker s) then Rejected "Model not loaded"%string
  else
    match answer with
    | DetectorThrows msg => Rejected msg
    | DetectorResult None => Resolved []
    | DetectorResult (Some hands) =>
        match mapOutcome estimateNailBounds hands with
        | Returns ms => Resolved (concat ms)
        | _ => Rejected "TypeError"%string
        end
    end.

End HandDetection.

(** ** App *)

Module App.

Inductive AppMode : Type := home | camera | upload | result.

(** The calls the controller makes to the outside, in order. *)
Inductive call : Type :=
| CallDetect
| ConsoleError (label err : string).

Record state : Type := mkState {
  mode : AppMode;
  imageSrc : option string;
  imageSize : Size.t;
  detection : HandDetection.state;
  measurements : list NailMeasurement.t;
  isAnalyzing : bool;
  highlightedIndex : option nat;
  pixelsPerMM : option R;
  showCoinTool : bool;
  calls : list call
}.

Definition init : state :=
  mkState home None (Size.mk 0 0) HandDetection.init [] false None None
          false [].

Definition setMode (s : state) (m : AppMode) : state :=
  mkState m (imageSrc s) (imageSize s) (detection s) (measurements s)
          (isAnalyzing s) (highlightedIndex s) (pixelsPerMM s)
          (showCoinTool s) (calls s).

Definition setImageSrc (s : state) (src : option string) : state :=
  mkState (mode s) src (imageSize s) (detection s) (measurements s)
          (isAnalyzing s) (highlightedIndex s) (pixelsPerMM s)
          (showCoinTool s) (calls s).

Definition setImageSize (s : state) (sz : Size.t) : state :=
  mkState (mode s) (imageSrc s) sz (detection s) (measurements s)
          (isAnalyzing s) (highlightedIndex s) (pixelsPerMM s)
          (showCoinTool s) (calls s).

Definition setDetection (s : state) (d : HandDetection.state) : state :=
  mkState (mode s) (imageSrc s) (imageSize s) d (measurements s)
          (isAnalyzing s) (highlightedIndex s) (pixelsPerMM s)
          (showCoinTool s) (calls s).

Definition setMeasurements (s : state) (ms : list NailMeasurement.t)
  : state :=
  mkState (mode s) (imageSrc s) (imageSize s) (detection s) ms
          (isAnalyzing s) (highlightedIndex s) (pixelsPerMM s)
          (showCoinTool s) (calls s).

Definition setIsAnalyzing (s : state) (b : bool) : state :=
  mkState (mode s) (imageSrc s) (imageSize s) (detection s)
          (measurements s) b (highlightedIndex s) (pixelsPerMM s)
          (showCoinTool s) (calls s).

Definition setHighlightedIndex (s : state) (i : option nat) : state :=
  mkState (mode s) (imageSrc s) (imageSize s) (detection s)
          (measurements s) (isAnalyzing s) i (pixelsPerMM s)
          (showCoinTool s) (calls s).

Definition setPixelsPerMM (s : state) (v : option R) : state :=
  mkState (mode s) (imageSrc s) (imageSize s) (detection s)
          (measurements s) (isAnalyzing s) (highlightedIndex s) v
          (showCoinTool s) (calls s).

Definition setShowCoinTool (s : state) (b : bool) : state :=
  mkState (mode s) (imageSrc s) (imageSize s) (detection s)
          (measurements s) (isAnalyzing s) (highlightedIndex s)
          (pixelsPerMM s) b (calls s).

Definition called (s : state) (c : call) : state :=
  mkState (mode s) (imageSrc s) (imageSize s) (detection s)
          (measurements s) (isAnalyzing s) (highlightedIndex s)
          (pixelsPerMM s) (showCoinTool s) (calls s ++ [c]).

(** [a === 0] *)
Definition is_zero (a : R) : bool :=
  if Req_dec_T a 0 then true else false.

Definition isThumb (m : NailMeasurement.t) : bool :=
  String.eqb (NailMeasurement.finger m) "Thumb".

(** Implicit calibration: thumb is 15.0 mm. *)
Definition ASSUMED_THUMB_WIDTH_MM : R := 15.0.

(** The body of the effect on
    [[measurements, imageSize.width, showCoinTool]]. *)
Definition impliedCalibration (s : state) : state :=
  if showCoinTool s then s
  else
    match pixelsPerMM s with
    | Some _ => s
    | None =>
        if (length (measurements s) =? 0)%nat
           || is_zero (Size.width (imageSize s))
        then s
        else
          match find isThumb (measurements s) with
          | Some thumb =>
              let thumbWidthPx :=
                NailMeasurement.width thumb * Size.width (imageSize s) in
              let ratio := thumbWidthPx / ASSUMED_THUMB_WIDTH_MM in
              setPixelsPerMM s (Some ratio)
          | None => s
          end
    end.

(** The part of [analyzeImage] that runs at once; the rest waits for the
    image to load. *)
Definition analyzeImage (s : state) : state :=
  setShowCoinTool (setPixelsPerMM (setIsAnalyzing s true) None) false.

Definition handleCapture (s : state) (src : string) : state :=
  analyzeImage (setMode (setImageSrc s (Some src)) result).

(** [img.onload]: the size of the image and the one call of [detect],
    inside [try ... catch ... finally].  The capture buttons are disabled
    while the model loads, so the hook state that [detect] closes over is
    the one of the state at hand. *)
Definition imgOnload (s : state) (img : Size.t)
           (answer : HandDetection.detectorAnswer) : state :=
  let s1 := called (setImageSize s img) CallDetect in
  let s2 :=
    match HandDetection.detect (detection s) answer with
    | HandDetection.Resolved ms => setMeasurements s1 ms
    | HandDetection.Rejected err =>
        called s1 (ConsoleError "Detection failed:" err)
    end in
  setIsAnalyzing s2 false.

Definition reset (s : state) : state :=
  setShowCoinTool
    (setPixelsPerMM
       (setMode (setMeasurements (setImageSrc s None) []) home) None)
    false.

Definition toggleCoinTool (s : state) : state :=
  setShowCoinTool s (negb (showCoinTool s)).

(** The [onCalibrationChange] passed to the overlay.  [container] is the
    [clientWidth] of the element behind [containerRef], when there is
    one. *)
Definition onCalibrationChange (s : state) (container : option R)
           (pxPerMM_Screen : R) : state :=
  match container with
  | Some renderWidth =>
      if gtb (Size.width (imageSize s)) 0 then
        let scaleFactor := Size.width (imageSize s) / renderWidth in
        let pxPerMM_Image := pxPerMM_Screen * scaleFactor in
        setPixelsPerMM s (Some pxPerMM_Image)
      else setPixelsPerMM s (Some pxPerMM_Screen)
  | None => setPixelsPerMM s (Some pxPerMM_Screen)
  end.

(** The calibration effect of the coin overlay, wired to
    [onCalibrationChange]. *)
Definition manualCalibration (s : state) (coin : CoinOverlay.state)
           (container : option R) : state :=
  match CoinOverlay.calibrationEffect coin (showCoinTool s) with
  | Some pxPerMM_Screen => onCalibrationChange s container pxPerMM_Screen
  | None => s
  end.

(** *** The session as a transition system *)

Inductive event : Type :=
| ModelLoaded
| ModelLoadFailed
| SetMode (m : AppMode)
| Capture (src : string)
| ImgOnload (img : Size.t) (answer : HandDetection.detectorAnswer)
| Reset
| ToggleCoinTool
| MeasurementsChange (ms : list NailMeasurement.t)
| Highlight (i : option nat)
| CalibrationChange (container : option R) (pxPerMM_Screen : R).

Definition handle (s : state) (e : event) : state :=
  match e with
  | ModelLoaded => setDetection s (HandDetection.loaded (detection s))
  | ModelLoadFailed =>
      setDetection s (HandDetection.loadFailed (detection s))
  | SetMode m => setMode s m
  | Capture src => handleCapture s src
  | ImgOnload img answer => imgOnload s img answer
  | Reset => reset s
  | ToggleCoinTool => toggleCoinTool s
  | MeasurementsChange ms => setMeasurements s ms
  | Highlight i => setHighlightedIndex s i
  | CalibrationChange container px => onCalibrationChange s container px
  end.

(** Whether the handler of [e] calls [setMeasurements]; every call passes
    a new array, so [measurements] then counts as changed. *)
Definition setsMeasurements (s : state) (e : event) : bool :=
  match e with
  | MeasurementsChange _ | Reset => true
  | ImgOnload _ answer =>
      match HandDetection.detect (detection s) answer with
      | HandDetection.Resolved _ => true
      | HandDetection.Rejected _ => false
      end
  | _ => false
  end.

(** Whether a dependency of the implied-calibration effect changed. *)
Definition depsChanged (s : state) (e : event) (s' : state) : bool :=
  setsMeasurements s e
  || negb (if Req_dec_T (Size.width (imageSize s'))
                        (Size.width (imageSize s)) then true else false)
  || negb (Bool.eqb (showCoinTool s') (showCoinTool s)).

(** One event: the handler, the render, and the effect when one of its
    dependencies changed. *)
Definition step (s : state) (e : event) : state :=
  let s' := handle s e in
  if depsChanged s e s' then impliedCalibration s' else s'.

Definition run (s : state) (es : list event) : state :=
  fold_left step es s.

End App.

(** ** MeasurementSidebar *)

Module MeasurementSidebar.

(** What a row shows for one dimension: the placeholder, or a length in
    millimeters.  [Millimeters v] stands for the text [v.toFixed(1)]: the
    number is modelled, not its formatting to one decimal. *)
Inductive cell : Type :=
| Placeholder
| Millimeters (v : R).

(** [pixelsPerMM && imageSize.width > 0]: an undefined or zero
    [pixelsPerMM] is falsy. *)
Definition calibrated (pixelsPerMM : option R) (imageSize : Size.t)
  : option R :=
  match pixelsPerMM with
  | Some v =>
      if negb (if Req_dec_T v 0 then true else false)
         && gtb (Size.width imageSize) 0
      then Some v else None
  | None => None
  end.

(** The body of the [measurements.map] callback: the label, the width and
    the height of the row. *)
Definition row (pixelsPerMM : option R) (imageSize : Size.t)
           (m : NailMeasurement.t) : string * cell * cell :=
  match calibrated pixelsPerMM imageSize with
  | Some ppm =>
      let naturalWidth := Size.width imageSize in
      let naturalHeight := Size.height imageSize in
      let trueW :=
        BoundingBox.width (NailMeasurement.boundingBox m) * naturalWidth in
      let trueH :=
        BoundingBox.height (NailMeasurement.boundingBox m) * naturalHeight in
      (NailMeasurement.finger m, Millimeters (trueW / ppm),
       Millimeters (trueH / ppm))
  | None => (NailMeasurement.finger m, Placeholder, Placeholder)
  end.

(** The component: nothing for an empty list, else the rows and whether
    the warning under them is shown ([!pixelsPerMM]). *)
Definition render (measurements : list NailMeasurement.t)
           (pixelsPerMM : option R) (imageSize : Size.t)
  : option (list (string * cell * cell) * bool) :=
  if (length measurements =? 0)%nat then None
  else
    Some (map (row pixelsPerMM imageSize) measurements,
          match pixelsPerMM with
          | Some v => if Req_dec_T v 0 then true else false
          | None => true
          end).

End MeasurementSidebar.

(** * Vocabulary of the statements *)

(** ** The overlay *)

Definition measurement_box := NailMeasurement.boundingBox.




Definition horizontal_resize (mode : string) : Prop :=
  mode = "resize-e"%string \/ mode = "resize-w"%string.

Definition vertical_resize (mode : string) : Prop :=
  mode = "resize-n"%string \/ mode = "resize-s"%string.

Definition resize_mode (mode : string) : Prop :=
  horizontal_resize mode \/ vertical_resize mode.

(** [clamp(v, lo, hi)] as the specification reads it. *)
Definition clamp (v lo hi : R) : R :=
  if Rlt_dec v lo then lo else if Rlt_dec hi v then hi else v.

Definition scale_in_range (s : NailOverlay.state) : Prop :=
  0.5 <= Transform.scale (NailOverlay.transform s) <= 5.



(** A pointer-down event: the only events that start a gesture. *)
Definition pointer_down (e : NailOverlay.event) : bool :=
  match e with
  | NailOverlay.MouseDown _ _ _ | NailOverlay.TouchStart _ _ _ => true
  | _ => false
  end.

(** The displacement of the pointer, in the frame of a box rotated by
    [rotation], along the first axis of the box. *)
Definition localDelta (rect : DOMRect.t) (rotation : R)
           (dragStart p : Point.t) : R :=
  (Point.x p - Point.x dragStart) / DOMRect.width rect * cos (- rotation)
  - (Point.y p - Point.y dragStart) / DOMRect.height rect * sin (- rotation).

(** One whole touch gesture on box [i]: finger down at [dragStart] on the
    handle of [mode], one move to [p], finger up. *)
Definition touchGesture (i : nat) (mode : string) (rect : DOMRect.t)
           (dragStart p : Point.t) : list NailOverlay.event :=
  [ NailOverlay.TouchStart [dragStart] (Some i) mode;
    NailOverlay.TouchMove [p] (Some rect);
    NailOverlay.TouchEnd ].

(** The same gesture with the mouse. *)
Definition mouseGesture (i : nat) (mode : string) (rect : DOMRect.t)
           (dragStart p : Point.t) : list NailOverlay.event :=
  [ NailOverlay.MouseDown dragStart (Some i) mode;
    NailOverlay.MouseMove p (Some rect);
    NailOverlay.MouseUp ].

(** East edge, then West edge, by the same displacement of the pointer. *)
Definition eastThenWest (i : nat) (rect : DOMRect.t) (dragStart p : Point.t)
  : list NailOverlay.event :=
  touchGesture i "resize-e" rect dragStart p
  ++ touchGesture i "resize-w" rect dragStart p.

(** The same displacement along the second axis of the box. *)
Definition localDeltaY (rect : DOMRect.t) (rotation : R)
           (dragStart p : Point.t) : R :=
  (Point.x p - Point.x dragStart) / DOMRect.width rect * sin (- rotation)
  + (Point.y p - Point.y dragStart) / DOMRect.height rect * cos (- rotation).

Definition is_horizontal (mode : string) : bool :=
  String.eqb mode "resize-e" || String.eqb mode "resize-w".

(** The extent a resize gesture drags, and the one it leaves alone. *)
Definition dragged_extent (mode : string) (bb : BoundingBox.t) : R :=
  if is_horizontal mode then BoundingBox.width bb else BoundingBox.height bb.


(** The extent the pointer asks for, before the floor is applied. *)
Definition requested_extent (mode : string) (rect : DOMRect.t)
           (bb : BoundingBox.t) (dragStart p : Point.t) : R :=
  let lx := localDelta rect (BoundingBox.rotation bb) dragStart p in
  let ly := localDeltaY rect (BoundingBox.rotation bb) dragStart p in
  if String.eqb mode "resize-e" then BoundingBox.width bb + lx
  else if String.eqb mode "resize-w" then BoundingBox.width bb - lx
  else if String.eqb mode "resize-s" then BoundingBox.height bb + ly
  else BoundingBox.height bb - ly.

(** The angle, seen from the center of the box of [m] on the screen, of the
    pointer [p]. *)
Definition pointerAngle (rect : DOMRect.t) (m : NailMeasurement.t)
           (p : Point.t) : R :=
  let bb := measurement_box m in
  let centerX := DOMRect.left rect + BoundingBox.x bb * DOMRect.width rect in
  let centerY := DOMRect.top rect + BoundingBox.y bb * DOMRect.height rect in
  Math.atan2 (Point.y p - centerY) (Point.x p - centerX).

(** ** Sample inputs *)

Definition sample_rect : DOMRect.t := DOMRect.mk 0 0 100 100.

Definition sample_box : NailMeasurement.t :=
  NailMeasurement.mk "Index" 0.2 0.2 (BoundingBox.mk 0.5 0.5 0.2 0.2 0).

(** A box as the detector makes them for a hand far from the camera: its
    height is under 0.01. *)
Definition thin_box : NailMeasurement.t :=
  NailMeasurement.mk "Index" 0.0085 0.0085
    (BoundingBox.mk 0.5 0.50085 0.0085 0.0085 0).

Definition sample_session : NailOverlay.session :=
  NailOverlay.mkSession [sample_box] NailOverlay.init.

(** The landmarks of a hand far from the camera: the tip of the index
    finger (landmark 8) and its last joint (landmark 7) are 0.01 apart. *)
Definition far_hand : list HandDetection.NormalizedLandmark :=
  replicate 7 (HandDetection.mkLandmark 0.5 0.6)
  ++ [HandDetection.mkLandmark 0.5 0.51; HandDetection.mkLandmark 0.5 0.5]
  ++ replicate 12 (HandDetection.mkLandmark 0.5 0.6).

Definition index_finger : HandDetection.fingerSpec :=
  HandDetection.mkFinger "Index" 8 7.

(** The overlay while a finger drags box 0 of [sample_session]. *)
Definition dragging_state : NailOverlay.state :=
  NailOverlay.start_edit [sample_box] NailOverlay.init (Point.mk 10 10) 0
    "drag".

(** ** The controller *)

(** Everything the render of [App] reads: the React state, without the
    log of the calls to the outside. *)
Definition presented (s : App.state) :=
  (App.mode s, App.imageSrc s, App.imageSize s, App.detection s,
   App.measurements s, App.isAnalyzing s, App.highlightedIndex s,
   App.pixelsPerMM s, App.showCoinTool s).

(** The events whose handlers call [setPixelsPerMM]. *)
Definition sets_calibration (e : App.event) : bool :=
  match e with
  | App.Capture _ | App.Reset | App.CalibrationChange _ _ => true
  | _ => false
  end.

Definition thumb_box : NailMeasurement.t :=
  NailMeasurement.mk "Thumb" 0.05 0.04 (BoundingBox.mk 0.3 0.4 0.05 0.04 0).

(** The thumb after the user has widened its box: the edit replaces
    [boundingBox] and nothing else. *)
Definition thumb_box_widened : NailMeasurement.t :=
  NailMeasurement.with_boundingBox thumb_box
    (BoundingBox.mk 0.31 0.4 0.07 0.04 0).

(** A session on a 4000 x 3000 image, the detector's boxes in place, no
    calibration yet. *)
Definition uncalibrated : App.state :=
  App.mkState App.result (Some "hand.jpg"%string) (Size.mk 4000 3000)
    (HandDetection.loaded HandDetection.init) [sample_box; thumb_box] false
    None None false [].

Definition coin_tool_open : App.state := App.toggleCoinTool uncalibrated.

(** A coin overlay whose disk is 100 pixels wide. *)
Definition coin_100 : CoinOverlay.state := CoinOverlay.init.

(** From the start: the model loads, the user uploads a picture, the
    picture loads and the detector gives [answer]. *)
Definition first_analysis (answer : HandDetection.detectorAnswer)
  : list App.event :=
  [ App.ModelLoaded; App.SetMode App.upload; App.Capture "hand.jpg";
    App.ImgOnload (Size.mk 4000 3000) answer ].

(** The model is loaded and the user is on the upload page. *)
Definition model_ready : App.state :=
  App.setMode (App.handle App.init App.ModelLoaded) App.upload.

(** * Vocabulary of the further properties *)

(** ** The overlay on the screen *)

(** A box is drawn at [left: x * 100%], [top: y * 100%] of the container,
    [width * 100%] of its width wide and [height * 100%] of its height
    high, turned by [rotation] about its center.  With the rectangle
    [rect] of the container, the midpoints of its four edges on the
    screen are these. *)
Definition screenCenter (rect : DOMRect.t) (bb : BoundingBox.t) : R * R :=
  (DOMRect.left rect + BoundingBox.x bb * DOMRect.width rect,
   DOMRect.top rect + BoundingBox.y bb * DOMRect.height rect).

Definition alongWidth (rect : DOMRect.t) (bb : BoundingBox.t) (t : R)
  : R * R :=
  ((screenCenter rect bb).1 + t * cos (BoundingBox.rotation bb),
   (screenCenter rect bb).2 + t * sin (BoundingBox.rotation bb)).

Definition alongHeight (rect : DOMRect.t) (bb : BoundingBox.t) (t : R)
  : R * R :=
  ((screenCenter rect bb).1 - t * sin (BoundingBox.rotation bb),
   (screenCenter rect bb).2 + t * cos (BoundingBox.rotation bb)).

Definition eastEdge (rect : DOMRect.t) (bb : BoundingBox.t) : R * R :=
  alongWidth rect bb (BoundingBox.width bb * DOMRect.width rect / 2).

Definition westEdge (rect : DOMRect.t) (bb : BoundingBox.t) : R * R :=
  alongWidth rect bb (- (BoundingBox.width bb * DOMRect.width rect / 2)).

Definition southEdge (rect : DOMRect.t) (bb : BoundingBox.t) : R * R :=
  alongHeight rect bb (BoundingBox.height bb * DOMRect.height rect / 2).

Definition northEdge (rect : DOMRect.t) (bb : BoundingBox.t) : R * R :=
  alongHeight rect bb (- (BoundingBox.height bb * DOMRect.height rect / 2)).

(** The edge a resize gesture drags, and the edge across from it. *)
Definition draggedEdge (mode : string) (rect : DOMRect.t)
           (bb : BoundingBox.t) : R * R :=
  if String.eqb mode "resize-e" then eastEdge rect bb
  else if String.eqb mode "resize-w" then westEdge rect bb
  else if String.eqb mode "resize-s" then southEdge rect bb
  else northEdge rect bb.

Definition oppositeEdge (mode : string) (rect : DOMRect.t)
           (bb : BoundingBox.t) : R * R :=
  if String.eqb mode "resize-e" then westEdge rect bb
  else if String.eqb mode "resize-w" then eastEdge rect bb
  else if String.eqb mode "resize-s" then northEdge rect bb
  else southEdge rect bb.

(** How far the opposite edge moves on the screen in a resize that is not
    clamped: nothing in a square container or for an unrotated box. *)
Definition anchorDrift (mode : string) (rect : DOMRect.t)
           (bb : BoundingBox.t) (dragStart p : Point.t) : R * R :=
  let k := (DOMRect.height rect - DOMRect.width rect)
           * sin (BoundingBox.rotation bb) / 2 in
  if is_horizontal mode then
    (0, localDelta rect (BoundingBox.rotation bb) dragStart p * k)
  else
    (localDeltaY rect (BoundingBox.rotation bb) dragStart p * k, 0).

(** A one-finger gesture that passes through the points [ps] before it
    ends at [p]. *)
Definition touchGestureVia (i : nat) (mode : string) (rect : DOMRect.t)
           (dragStart : Point.t) (ps : list Point.t) (p : Point.t)
  : list NailOverlay.event :=
  NailOverlay.TouchStart [dragStart] (Some i) mode
  :: map (fun q => NailOverlay.TouchMove [q] (Some rect)) (ps ++ [p])
  ++ [NailOverlay.TouchEnd].

(** A one-finger pan of the background, through [ps] to [p]. *)
Definition touchPanVia (start : Point.t) (ps : list Point.t) (p : Point.t)
           (container : option DOMRect.t) : list NailOverlay.event :=
  NailOverlay.TouchStart [start] None "pan"
  :: map (fun q => NailOverlay.TouchMove [q] container) (ps ++ [p])
  ++ [NailOverlay.TouchEnd].

(** The same pan with the mouse. *)
Definition mousePanVia (start : Point.t) (ps : list Point.t) (p : Point.t)
           (container : option DOMRect.t) : list NailOverlay.event :=
  NailOverlay.MouseDown start None "pan"
  :: map (fun q => NailOverlay.MouseMove q container) (ps ++ [p])
  ++ [NailOverlay.MouseUp].


(** The unit vector, on the screen, of the axis a resize mode works along,
    and the component of a pointer displacement along it. *)
Definition modeAxis (mode : string) (rotation : R) : R * R :=
  if is_horizontal mode then (cos rotation, sin rotation)
  else (- sin rotation, cos rotation).

Definition alongAxis (mode : string) (rotation : R) (dragStart p : Point.t)
  : R :=
  (Point.x p - Point.x dragStart) * (modeAxis mode rotation).1
  + (Point.y p - Point.y dragStart) * (modeAxis mode rotation).2.

(** How far the opposite edge of an unrotated box slides when the floor
    stops a resize that asked for the extent [requested]. *)
Definition clampSlide (mode : string) (rect : DOMRect.t) (requested : R)
  : R * R :=
  if String.eqb mode "resize-e" then
    ((requested - 0.01) / 2 * DOMRect.width rect, 0)
  else if String.eqb mode "resize-w" then
    (- ((requested - 0.01) / 2 * DOMRect.width rect), 0)
  else if String.eqb mode "resize-s" then
    (0, (requested - 0.01) / 2 * DOMRect.height rect)
  else (0, - ((requested - 0.01) / 2 * DOMRect.height rect)).

Definition translate (v d : R * R) : R * R := (v.1 + d.1, v.2 + d.2).

(** A container 500 pixels wide and 400 high. *)
Definition wide_rect : DOMRect.t := DOMRect.mk 20 30 500 400.


(** The view after a pan that started at [start] with the view [t] and
    has the pointer at [p]. *)
Definition panned (t : Transform.t) (start p : Point.t) : Transform.t :=
  Transform.mk (Transform.scale t)
    (Transform.x t + (Point.x p - Point.x start))
    (Transform.y t + (Point.y p - Point.y start)).

(** Events of the mouse, the wheel and the zoom buttons only. *)
Definition not_touch (e : NailOverlay.event) : bool :=
  match e with
  | NailOverlay.TouchStart _ _ _ | NailOverlay.TouchMove _ _
  | NailOverlay.TouchEnd => false
  | _ => true
  end.


(** ** The coin overlay *)

(** A drag of the disk with the mouse, at zoom [scale], through [ps] to
    [p]. *)
Definition coinDragVia (scale : R) (start : Point.t) (ps : list Point.t)
           (p : Point.t) : list CoinOverlay.event :=
  CoinOverlay.MouseDown start CoinOverlay.drag
  :: map (CoinOverlay.MouseMove scale) (ps ++ [p])
  ++ [CoinOverlay.MouseUp].

(** Events whose zoom is not zero: the move handler divides by it, and
    with a zero zoom JavaScript computes NaN, which the real numbers of
    this model do not have. *)
Definition zoom_defined (e : CoinOverlay.event) : Prop :=
  match e with
  | CoinOverlay.MouseMove scale _ => scale <> 0
  | _ => True
  end.


(** ** The detector *)

(** The distance between the tip of a finger and its last joint. *)
Definition distalLength (tip dip : HandDetection.NormalizedLandmark) : R :=
  sqrt ((HandDetection.x dip - HandDetection.x tip)
        * (HandDetection.x dip - HandDetection.x tip)
        + (HandDetection.y dip - HandDetection.y tip)
          * (HandDetection.y dip - HandDetection.y tip)).

(** The share of that distance a nail is long, and how wide it is for its
    length. *)
Definition nailLengthRatio (name : string) : R :=
  if String.eqb name "Thumb" then 0.7 else 0.85.

Definition nailAspect (name : string) : R :=
  if String.eqb name "Thumb" then 1.2 else 1.0.

(** A hand of 21 landmarks whose thumb tip (landmark 4) and thumb joint
    (landmark 3) are 0.05 apart, the tip straight above the joint. *)
Definition near_hand : list HandDetection.NormalizedLandmark :=
  replicate 3 (HandDetection.mkLandmark 0.5 0.6)
  ++ [HandDetection.mkLandmark 0.3 0.45; HandDetection.mkLandmark 0.3 0.4]
  ++ replicate 16 (HandDetection.mkLandmark 0.5 0.6).

Definition thumb_finger : HandDetection.fingerSpec :=
  HandDetection.mkFinger "Thumb" 4 3.


(** ** The controller and the sidebar *)

Definition is_onload (e : App.event) : bool :=
  match e with
  | App.ImgOnload _ _ => true
  | _ => false
  end.

(** Two lists of measurements that carry the same fingers and the same
    [width] fields, entry by entry. *)
Definition same_labels (l l' : list NailMeasurement.t) : Prop :=
  Forall2 (fun m m' =>
             NailMeasurement.finger m' = NailMeasurement.finger m
             /\ NailMeasurement.width m' = NailMeasurement.width m) l l'.

(** A session whose thumb entry has the [width] 0. *)
Definition flat_thumb : NailMeasurement.t :=
  NailMeasurement.mk "Thumb" 0 0 (BoundingBox.mk 0.3 0.4 0 0 0).

Definition flat_session : App.state :=
  App.setMeasurements uncalibrated [flat_thumb; sample_box].

(** * Properties of the code *)

(** ** Arithmetic of the clamps and of the angles *)

Lemma max_floor (lo v : R) : lo <= Math.max lo v.
Proof. apply Rmax_l. Qed.

Lemma max_id (lo v : R) : lo <= v -> Math.max lo v = v.
Proof. intros H. unfold Math.max. now apply Rmax_right. Qed.

Lemma min_max_range (lo hi v : R) :
  lo <= hi -> lo <= Math.min (Math.max lo v) hi <= hi.
Proof.
  intros H. unfold Math.min, Math.max, Rmin, Rmax.
  repeat destruct Rle_dec; lra.
Qed.

Lemma min_max_clamp (lo hi v : R) :
  lo <= hi -> Math.min (Math.max lo v) hi = clamp v lo hi.
Proof.
  intros H. unfold Math.min, Math.max, Rmin, Rmax, clamp.
  repeat destruct Rle_dec; repeat destruct Rlt_dec; lra.
Qed.

Lemma gtb_true (a b : R) : gtb a b = true <-> b < a.
Proof. unfold gtb. destruct Rlt_dec; split; intros; try lra; congruence. Qed.

Lemma gtb_false (a b : R) : gtb a b = false <-> a <= b.
Proof. unfold gtb. destruct Rlt_dec; split; intros; try lra; congruence. Qed.

Lemma atan2_right (y x : R) : y = 0 -> 0 < x -> Math.atan2 y x = 0.
Proof.
  intros -> Hx. unfold Math.atan2.
  destruct (Rlt_dec 0 x); [|lra].
  unfold Rdiv. rewrite Rmult_0_l. apply atan_0.
Qed.

Lemma atan2_up (y x : R) : x = 0 -> 0 < y -> Math.atan2 y x = PI / 2.
Proof.
  intros -> Hy. unfold Math.atan2.
  destruct (Rlt_dec 0 0); [lra|].
  destruct (Rlt_dec 0 y); [reflexivity | lra].
Qed.

(** ** Stores into the list of measurements *)

Lemma array_assign_in_range {A : Type} (l : list A) (i : nat) (v : A) :
  (i < length l)%nat -> array_assign l i v = Returns (<[i := v]> l).
Proof.
  intros H. unfold array_assign.
  destruct (Nat.ltb_spec i (length l)); [reflexivity | lia].
Qed.


(** ** One update of a box *)




Lemma editMeasurement_rotate (rect : DOMRect.t) (m0 : NailMeasurement.t)
      (dragStart p : Point.t) :
  exists m1,
    NailOverlay.editMeasurement "rotate" rect m0 dragStart p = Some m1
    /\ BoundingBox.rotation (measurement_box m1)
       = BoundingBox.rotation (measurement_box m0)
         + (pointerAngle rect m0 p - pointerAngle rect m0 dragStart)
    /\ BoundingBox.x (measurement_box m1) = BoundingBox.x (measurement_box m0)
    /\ BoundingBox.y (measurement_box m1) = BoundingBox.y (measurement_box m0)
    /\ BoundingBox.width (measurement_box m1)
       = BoundingBox.width (measurement_box m0)
    /\ BoundingBox.height (measurement_box m1)
       = BoundingBox.height (measurement_box m0).
Proof.
  eexists. split; [reflexivity|]. cbn. repeat split; reflexivity.
Qed.

(** Rotating from pointer [a] to pointer [b] and then from [b] back to [a]
    gives the box back. *)
Lemma rotate_back (rect : DOMRect.t) (m0 : NailMeasurement.t) (a b : Point.t) :
  exists m1 m2,
    NailOverlay.editMeasurement "rotate" rect m0 a b = Some m1
    /\ NailOverlay.editMeasurement "rotate" rect m1 b a = Some m2
    /\ measurement_box m2 = measurement_box m0.
Proof.
  destruct m0 as [f w len [x0 y0 w0 h0 r0]].
  do 2 eexists. split; [reflexivity|]. split; [reflexivity|].
  cbn. f_equal. lra.
Qed.

Lemma east_then_west_box (rect : DOMRect.t) (m0 : NailMeasurement.t)
      (dragStart p : Point.t) :
  let bb := measurement_box m0 in
  let l := localDelta rect (BoundingBox.rotation bb) dragStart p in
  0.01 <= BoundingBox.width bb ->
  0.01 <= BoundingBox.width bb + l ->
  exists m1 m2,
    NailOverlay.editMeasurement "resize-e" rect m0 dragStart p = Some m1
    /\ NailOverlay.editMeasurement "resize-w" rect m1 dragStart p = Some m2
    /\ BoundingBox.width (measurement_box m2) = BoundingBox.width bb
    /\ BoundingBox.x (measurement_box m2)
       = BoundingBox.x bb + l * cos (BoundingBox.rotation bb)
    /\ BoundingBox.y (measurement_box m2)
       = BoundingBox.y bb + l * sin (BoundingBox.rotation bb)
    /\ BoundingBox.height (measurement_box m2) = BoundingBox.height bb
    /\ BoundingBox.rotation (measurement_box m2) = BoundingBox.rotation bb.
Proof.
  intros bb l Hw Hwl. subst bb l. unfold localDelta in *.
  destruct m0 as [f w len [x0 y0 w0 h0 r0]]. cbn in *.
  do 2 eexists. split; [reflexivity|]. split; [reflexivity|]. cbn.
  rewrite (max_id _ _ Hwl).
  repeat split; try lra.
  rewrite max_id; lra.
Qed.

(** Dragging the East edge back by the opposite displacement is what
    undoes an East resize. *)
Lemma east_then_back_box (rect : DOMRect.t) (m0 : NailMeasurement.t)
      (dragStart p : Point.t) :
  let bb := measurement_box m0 in
  let l := localDelta rect (BoundingBox.rotation bb) dragStart p in
  0.01 <= BoundingBox.width bb ->
  0.01 <= BoundingBox.width bb + l ->
  exists m1 m2,
    NailOverlay.editMeasurement "resize-e" rect m0 dragStart p = Some m1
    /\ NailOverlay.editMeasurement "resize-e" rect m1 p dragStart = Some m2
    /\ measurement_box m2 = bb.
Proof.
  intros bb l Hw Hwl. subst bb l. unfold localDelta in *.
  destruct m0 as [f w len [x0 y0 w0 h0 r0]]. cbn in *.
  do 2 eexists. split; [reflexivity|]. split; [reflexivity|]. cbn.
  rewrite (max_id _ _ Hwl).
  f_equal; try lra.
  rewrite max_id; lra.
Qed.

(** ** The floor along a session *)



Lemma active_target_snapshot (s : NailOverlay.state)
      (container : option DOMRect.t) (i : nat) (mode : string)
      (rect : DOMRect.t) (snap : NailOverlay.snapshot) :
  NailOverlay.active_target s container = NailOverlay.Target i mode rect snap ->
  NailOverlay.initialMeasurementRef s = snap
  /\ NailOverlay.activeId s = Some i.
Proof.
  unfold NailOverlay.active_target.
  destruct (NailOverlay.activeId s); [|discriminate].
  destruct (NailOverlay.interactionMode s); [|discriminate].
  destruct container; [|discriminate].
  destruct (truthy s0); [|discriminate].
  destruct (NailOverlay.initialMeasurementRef s); [discriminate| |];
    intros [= -> -> -> <-]; now split.
Qed.



(** ** Whole gestures *)

Lemma run_app (es1 es2 : list NailOverlay.event) (c c1 : NailOverlay.session) :
  NailOverlay.run c es1 = Returns c1 ->
  NailOverlay.run c (es1 ++ es2) = NailOverlay.run c1 es2.
Proof.
  revert c. induction es1 as [|e es1 IH]; intros c; cbn.
  - now intros [= <-].
  - destruct (NailOverlay.step c e); try discriminate. apply IH.
Qed.

(** A one-finger gesture on box [i] stores the edited snapshot at [i]. *)
Lemma touchGesture_run (c : NailOverlay.session) (i : nat) (mode : string)
      (rect : DOMRect.t) (dragStart p : Point.t)
      (m0 m1 : NailMeasurement.t) :
  NailOverlay.measurements c !! i = Some m0 ->
  NailOverlay.isPanning (NailOverlay.ui c) = false ->
  NailOverlay.editMeasurement mode rect m0 dragStart p = Some m1 ->
  exists s',
    NailOverlay.run c (touchGesture i mode rect dragStart p)
    = Returns (NailOverlay.mkSession (<[i := m1]> (NailOverlay.measurements c)) s')
    /\ NailOverlay.isPanning s' = false.
Proof.
  destruct c as [ms s]. cbn. intros Hi Hpan Hedit.
  assert (Hmode : truthy mode = true).
  { destruct mode; [|reflexivity]. cbn in Hedit. discriminate. }
  assert (Hlt : (i < length ms)%nat) by (eapply lookup_lt_Some; eauto).
  unfold NailOverlay.handleTouchMove, NailOverlay.active_target,
    NailOverlay.start_edit, NailOverlay.snapshot_of,
    NailOverlay.newMeasurements. cbn.
  rewrite Hpan, Hmode, Hi, Hedit. cbn.
  rewrite (array_assign_in_range ms i m1 Hlt). cbn.
  eexists. split; reflexivity.
Qed.

(** On the touch path a rotate gesture stores the snapshot rotation plus the
    difference of the two pointer angles. *)
Lemma touch_rotate_run (c : NailOverlay.session) (i : nat) (rect : DOMRect.t)
      (dragStart p : Point.t) (m0 : NailMeasurement.t) :
  NailOverlay.measurements c !! i = Some m0 ->
  NailOverlay.isPanning (NailOverlay.ui c) = false ->
  exists s' m1,
    NailOverlay.run c (touchGesture i "rotate" rect dragStart p)
    = Returns (NailOverlay.mkSession (<[i := m1]> (NailOverlay.measurements c)) s')
    /\ BoundingBox.rotation (measurement_box m1)
       = BoundingBox.rotation (measurement_box m0)
         + (pointerAngle rect m0 p - pointerAngle rect m0 dragStart).
Proof.
  intros Hi Hpan.
  destruct (editMeasurement_rotate rect m0 dragStart p) as (m1 & He & Hr & _).
  destruct (touchGesture_run c i "rotate" rect dragStart p m0 m1 Hi Hpan He)
    as (s' & Hrun & _).
  exists s', m1. split; assumption.
Qed.

(** The same gesture with the mouse stores nothing. *)
Lemma handleMouseMove_quiet (ms : list NailMeasurement.t)
      (s : NailOverlay.state) (p : Point.t) (container : option DOMRect.t)
      (e : NailOverlay.effect) :
  NailOverlay.handleMouseMove ms s p container = Returns e ->
  NailOverlay.emitted e = None.
Proof.
  unfold NailOverlay.handleMouseMove.
  destruct (NailOverlay.isPanning s); [now intros [= <-]|].
  destruct NailOverlay.active_target as [|i mode rect [| |m]];
    try discriminate; now intros [= <-].
Qed.

Lemma mouseGesture_run (c : NailOverlay.session) (i : nat) (mode : string)
      (rect : DOMRect.t) (dragStart p : Point.t) (m0 : NailMeasurement.t) :
  NailOverlay.measurements c !! i = Some m0 ->
  exists s',
    NailOverlay.run c (mouseGesture i mode rect dragStart p)
    = Returns (NailOverlay.mkSession (NailOverlay.measurements c) s').
Proof.
  destruct c as [ms s]. cbn. intros Hi.
  unfold NailOverlay.handleMouseMove, NailOverlay.active_target,
    NailOverlay.start_edit, NailOverlay.snapshot_of. cbn.
  rewrite Hi.
  destruct (NailOverlay.isPanning s); cbn; [eexists; reflexivity|].
  destruct (truthy mode); cbn; eexists; reflexivity.
Qed.

(** A move event drives one gesture: it moves the view or it edits a box. *)
Lemma handleTouchMove_exclusive (ms : list NailMeasurement.t)
      (s : NailOverlay.state) (touches : list Point.t)
      (container : option DOMRect.t) (e : NailOverlay.effect) :
  NailOverlay.handleTouchMove ms s touches container = Returns e ->
  NailOverlay.emitted e = None \/ NailOverlay.next e = s.
Proof.
  unfold NailOverlay.handleTouchMove.
  destruct (length touches =? 2)%nat; [intros [= <-]; now left|].
  destruct (NailOverlay.isPanning s).
  { destruct (touches !! 0%nat); [|discriminate]. intros [= <-]. now left. }
  destruct NailOverlay.active_target as [|i mode rect [| |m]];
    try discriminate; try (intros [= <-]; now left).
  destruct (touches !! 0%nat); [|discriminate].
  destruct NailOverlay.newMeasurements; try discriminate.
  intros [= <-]. now right.
Qed.

(** ** After a cancelled gesture *)

Lemma step_no_target (c c' : NailOverlay.session) (e : NailOverlay.event) :
  pointer_down e = false ->
  NailOverlay.activeId (NailOverlay.ui c) = None ->
  NailOverlay.step c e = Returns c' ->
  NailOverlay.measurements c' = NailOverlay.measurements c
  /\ NailOverlay.activeId (NailOverlay.ui c') = None.
Proof.
  destruct c as [ms s]. cbn.
  destruct e as [dy | p index mode | p container | | touches index mode
                 | touches container | | | | ]; cbn;
    try discriminate; intros _ Hid;
    try (intros [= <-]; now split).
  - unfold NailOverlay.handleMouseMove, NailOverlay.active_target.
    rewrite Hid. destruct (NailOverlay.isPanning s); cbn;
      intros [= <-]; now split.
  - unfold NailOverlay.handleTouchMove, NailOverlay.active_target.
    rewrite Hid. destruct (length touches =? 2)%nat; cbn.
    { intros [= <-]. split; [reflexivity|]. cbn.
      unfold NailOverlay.pinchZoom. now destruct (_ && _). }
    destruct (NailOverlay.isPanning s); cbn.
    { destruct (touches !! 0%nat); [|discriminate].
      cbn. intros [= <-]. now split. }
    intros [= <-]. now split.
Qed.

Lemma run_no_target (es : list NailOverlay.event)
      (c c' : NailOverlay.session) :
  forallb (fun e => negb (pointer_down e)) es = true ->
  NailOverlay.activeId (NailOverlay.ui c) = None ->
  NailOverlay.run c es = Returns c' ->
  NailOverlay.measurements c' = NailOverlay.measurements c.
Proof.
  revert c. induction es as [|e es IH]; intros c; cbn.
  - now intros _ _ [= <-].
  - intros [He Hes]%andb_prop Hid.
    destruct (NailOverlay.step c e) as [c1| |] eqn:S; try discriminate.
    apply negb_true_iff in He.
    destruct (step_no_target c c1 e He Hid S) as [Hms Hid1].
    intros Hrun. rewrite <- Hms. now apply IH.
Qed.

(** ** The scale of the view *)

Lemma pinchZoom_range (s : NailOverlay.state) (dist : R) :
  scale_in_range s -> scale_in_range (NailOverlay.pinchZoom s dist).
Proof.
  intros H. unfold NailOverlay.pinchZoom.
  destruct (_ && _); [|exact H].
  unfold scale_in_range. cbn. apply min_max_range. lra.
Qed.

Lemma step_scale (c c' : NailOverlay.session) (e : NailOverlay.event) :
  scale_in_range (NailOverlay.ui c) ->
  NailOverlay.step c e = Returns c' ->
  scale_in_range (NailOverlay.ui c').
Proof.
  destruct c as [ms s]. unfold scale_in_range at 1. cbn. intros H.
  destruct e as [dy | p index mode | p container | | touches index mode
                 | touches container | | | | ]; cbn.
  - intros [= <-]. unfold scale_in_range. cbn. apply min_max_range. lra.
  - intros [= <-]. destruct index; exact H.
  - unfold NailOverlay.handleMouseMove.
    destruct (NailOverlay.isPanning s); cbn; [intros [= <-]; exact H|].
    destruct NailOverlay.active_target as [|i mode rect [| |m]]; cbn;
      try discriminate; intros [= <-]; exact H.
  - intros [= <-]. exact H.
  - unfold NailOverlay.handleTouchStart.
    destruct (length touches =? 2)%nat; cbn; [intros [= <-]; exact H|].
    destruct (touches !! 0%nat); [|discriminate].
    destruct index; cbn; intros [= <-]; exact H.
  - unfold NailOverlay.handleTouchMove.
    destruct (length touches =? 2)%nat; cbn.
    { intros [= <-]. now apply pinchZoom_range. }
    destruct (NailOverlay.isPanning s); cbn.
    { destruct (touches !! 0%nat); [|discriminate].
      cbn. intros [= <-]. exact H. }
    destruct NailOverlay.active_target as [|i mode rect [| |m]]; cbn;
      try discriminate; try (intros [= <-]; exact H).
    destruct (touches !! 0%nat); [|discriminate].
    destruct NailOverlay.newMeasurements; try discriminate.
    cbn. intros [= <-]. exact H.
  - intros [= <-]. exact H.
  - intros [= <-]. unfold scale_in_range. cbn.
    unfold Math.max, Rmax. destruct Rle_dec; lra.
  - intros [= <-]. unfold scale_in_range. cbn.
    unfold Math.min, Rmin. destruct Rle_dec; lra.
  - intros [= <-]. unfold scale_in_range. cbn. lra.
Qed.

Lemma run_scale (es : list NailOverlay.event) (c c' : NailOverlay.session) :
  scale_in_range (NailOverlay.ui c) ->
  NailOverlay.run c es = Returns c' ->
  scale_in_range (NailOverlay.ui c').
Proof.
  revert c. induction es as [|e es IH]; intros c Hc; cbn.
  - now intros [= <-].
  - destruct (NailOverlay.step c e) as [c1| |] eqn:S; try discriminate.
    apply IH. eapply step_scale; eauto.
Qed.

(** ** The sample inputs *)

(** The detector makes [thin_box] for the index finger of [far_hand]. *)
Lemma detector_makes_thin_box :
  HandDetection.estimateFinger far_hand index_finger = Returns thin_box.
Proof.
  unfold HandDetection.estimateFinger. cbn.
  assert (Hs : sqrt ((0.5 - 0.5) * (0.5 - 0.5) + (0.51 - 0.5) * (0.51 - 0.5))
               = 0.01).
  { replace ((0.5 - 0.5) * (0.5 - 0.5) + (0.51 - 0.5) * (0.51 - 0.5))
      with (0.01 * 0.01) by lra.
    apply sqrt_square. lra. }
  assert (Ha : Math.atan2 (0.51 - 0.5) (0.5 - 0.5) = PI / 2)
    by (apply atan2_up; lra).
  rewrite Hs, Ha. unfold thin_box.
  f_equal. f_equal; [lra | lra | f_equal; lra].
Qed.

Lemma sample_localDelta :
  localDelta sample_rect 0 (Point.mk 10 10) (Point.mk 20 10) = 0.1.
Proof.
  unfold localDelta. cbn. rewrite Ropp_0, cos_0, sin_0. lra.
Qed.

Lemma sample_start_angle :
  pointerAngle sample_rect sample_box (Point.mk 100 50) = 0.
Proof. unfold pointerAngle. cbn. apply atan2_right; lra. Qed.

Lemma sample_current_angle :
  pointerAngle sample_rect sample_box (Point.mk 50 100) = PI / 2.
Proof. unfold pointerAngle. cbn. apply atan2_up; lra. Qed.

(** ** Calibration *)

(** Resizing the disk at zoom [scale] changes its diameter by the pointer
    delta divided by [scale]: the diameter is a length of the unscaled
    canvas. *)
Lemma coin_resize_unscaled (s : CoinOverlay.state) (scale : R) (p : Point.t) :
  CoinOverlay.isDragging s = false ->
  CoinOverlay.isResizing s = true ->
  CoinOverlay.diameter (CoinOverlay.handleMouseMove s scale p)
  = Math.max 20
      (CoinOverlay.diameter s
       + Math.max
           ((Point.x p - Point.x (CoinOverlay.dragStartRef s)) / scale)
           ((Point.y p - Point.y (CoinOverlay.dragStartRef s)) / scale)).
Proof.
  intros Hd Hr. unfold CoinOverlay.handleMouseMove.
  rewrite Hd, Hr. reflexivity.
Qed.

Lemma is_zero_false (a : R) : a <> 0 -> App.is_zero a = false.
Proof. intros H. unfold App.is_zero. now destruct Req_dec_T. Qed.

Lemma impliedCalibration_defined (s : App.state) (v : R) :
  App.pixelsPerMM s = Some v -> App.impliedCalibration s = s.
Proof.
  intros H. unfold App.impliedCalibration.
  destruct (App.showCoinTool s); [reflexivity|]. now rewrite H.
Qed.

Lemma impliedCalibration_thumb (s : App.state) (thumb : NailMeasurement.t) :
  App.showCoinTool s = false ->
  App.pixelsPerMM s = None ->
  Size.width (App.imageSize s) <> 0 ->
  find App.isThumb (App.measurements s) = Some thumb ->
  App.pixelsPerMM (App.impliedCalibration s)
  = Some (NailMeasurement.width thumb * Size.width (App.imageSize s) / 15.0).
Proof.
  intros Hcoin Hpx Hw Hthumb. unfold App.impliedCalibration.
  rewrite Hcoin, Hpx, (is_zero_false _ Hw), Hthumb.
  destruct (App.measurements s); [discriminate|]. reflexivity.
Qed.

Lemma impliedCalibration_frame (s : App.state) :
  App.measurements (App.impliedCalibration s) = App.measurements s
  /\ App.detection (App.impliedCalibration s) = App.detection s
  /\ App.calls (App.impliedCalibration s) = App.calls s
  /\ App.isAnalyzing (App.impliedCalibration s) = App.isAnalyzing s.
Proof.
  unfold App.impliedCalibration.
  destruct (App.showCoinTool s); [now repeat split|].
  destruct (App.pixelsPerMM s); [now repeat split|].
  destruct (_ || _); [now repeat split|].
  destruct find; now repeat split.
Qed.

Lemma impliedCalibration_empty (s : App.state) :
  App.measurements s = [] -> App.impliedCalibration s = s.
Proof.
  intros H. unfold App.impliedCalibration. rewrite H. cbn.
  destruct (App.showCoinTool s); [reflexivity|].
  now destruct (App.pixelsPerMM s).
Qed.

(** With no measurement in the list the effect does nothing, so the step
    is the handler. *)
Lemma step_empty (s : App.state) (e : App.event) :
  App.measurements (App.handle s e) = [] -> App.step s e = App.handle s e.
Proof.
  intros H. unfold App.step.
  destruct App.depsChanged; [now apply impliedCalibration_empty | reflexivity].
Qed.

(** The handlers that leave the calibration alone. *)
Lemma handle_keeps_calibration (s : App.state) (e : App.event) :
  sets_calibration e = false ->
  App.pixelsPerMM (App.handle s e) = App.pixelsPerMM s.
Proof.
  destruct e; cbn; try discriminate; intros _; try reflexivity.
  unfold App.imgOnload. now destruct HandDetection.detect.
Qed.

Lemma step_keeps_defined (s : App.state) (e : App.event) (v : R) :
  sets_calibration e = false ->
  App.pixelsPerMM s = Some v ->
  App.pixelsPerMM (App.step s e) = Some v.
Proof.
  intros He Hv. unfold App.step.
  assert (H : App.pixelsPerMM (App.handle s e) = Some v)
    by (now rewrite handle_keeps_calibration).
  destruct App.depsChanged; [|exact H].
  now rewrite (impliedCalibration_defined _ v H).
Qed.

Lemma run_keeps_defined (es : list App.event) (s : App.state) (v : R) :
  forallb (fun e => negb (sets_calibration e)) es = true ->
  App.pixelsPerMM s = Some v ->
  App.pixelsPerMM (App.run s es) = Some v.
Proof.
  revert s. unfold App.run.
  induction es as [|e es IH]; intros s; cbn; [now intros _|].
  intros [He Hes]%andb_prop Hv. apply negb_true_iff in He.
  apply IH; [exact Hes|]. now apply step_keeps_defined.
Qed.

Lemma edits_keep_calibration (edits : list (list NailMeasurement.t)) :
  forallb (fun e => negb (sets_calibration e))
          (map App.MeasurementsChange edits) = true.
Proof. induction edits; cbn; auto. Qed.

Lemma onCalibrationChange_defined (s : App.state) (container : option R)
      (px : R) :
  exists v, App.pixelsPerMM (App.onCalibrationChange s container px) = Some v.
Proof.
  unfold App.onCalibrationChange.
  destruct container; [destruct gtb|]; eexists; reflexivity.
Qed.

(** Without a mounted container, or before the width of the image is
    known, the controller stores the display-space value as it is. *)
Lemma manual_calibration_fallback (s : App.state) (px : R) :
  App.pixelsPerMM (App.onCalibrationChange s None px) = Some px
  /\ (Size.width (App.imageSize s) <= 0 ->
      forall renderWidth,
        App.pixelsPerMM (App.onCalibrationChange s (Some renderWidth) px)
        = Some px).
Proof.
  split; [reflexivity|].
  intros Hw renderWidth. unfold App.onCalibrationChange.
  apply gtb_false in Hw. now rewrite Hw.
Qed.

(** The width the implied calibration reads is the [width] the detector
    gave the measurement, not the width of its box: after the user has
    widened the box of the thumb, the value is the same. *)
Lemma implied_calibration_reads_detector_width :
  App.pixelsPerMM
    (App.impliedCalibration
       (App.setMeasurements uncalibrated [sample_box; thumb_box_widened]))
  = Some (0.05 * 4000 / 15.0)
  /\ BoundingBox.width (measurement_box thumb_box_widened) = 0.07.
Proof.
  split; [|reflexivity].
  unfold App.impliedCalibration. cbn.
  rewrite is_zero_false by lra. reflexivity.
Qed.

(** ** The load handler *)

Lemma imgOnload_rejected (s : App.state) (img : Size.t)
      (answer : HandDetection.detectorAnswer) (err : string) :
  HandDetection.detect (App.detection s) answer = HandDetection.Rejected err ->
  App.imgOnload s img answer
  = App.setIsAnalyzing
      (App.called (App.called (App.setImageSize s img) App.CallDetect)
         (App.ConsoleError "Detection failed:" err))
      false.
Proof. intros H. unfold App.imgOnload. now rewrite H. Qed.

(** * The claims *)

(** ** Resizing (C1, C2) *)




(** C2 (as amended).  In a container of non-zero width and height, from a
    baseline box of any rotation, resizing the East edge and then the West
    edge by the same displacement of the pointer, with no clamping at
    0.01, restores the width and translates the center
    by the whole local displacement [l] along the first axis of the box:
    the center moves by [l * cos rotation] in x and [l * sin rotation] in
    y. *)
Theorem east_then_west_translates (c : NailOverlay.session) (i : nat)
        (rect : DOMRect.t) (dragStart p : Point.t)
        (m0 : NailMeasurement.t) :
  let bb := measurement_box m0 in
  let l := localDelta rect (BoundingBox.rotation bb) dragStart p in
  DOMRect.width rect <> 0 ->
  DOMRect.height rect <> 0 ->
  NailOverlay.measurements c !! i = Some m0 ->
  NailOverlay.isPanning (NailOverlay.ui c) = false ->
  0.01 <= BoundingBox.width bb ->
  0.01 <= BoundingBox.width bb + l ->
  exists c' m2,
    NailOverlay.run c (eastThenWest i rect dragStart p) = Returns c'
    /\ NailOverlay.measurements c' = <[i := m2]> (NailOverlay.measurements c)
    /\ BoundingBox.width (measurement_box m2) = BoundingBox.width bb
    /\ BoundingBox.x (measurement_box m2)
       = BoundingBox.x bb + l * cos (BoundingBox.rotation bb)
    /\ BoundingBox.y (measurement_box m2)
       = BoundingBox.y bb + l * sin (BoundingBox.rotation bb).
Proof.
  intros bb l _ _ Hi Hpan Hw Hwl.
  destruct (east_then_west_box rect m0 dragStart p Hw Hwl)
    as (m1 & m2 & He & Hw2 & Hwidth & Hx & Hy & _ & _).
  destruct (touchGesture_run c i "resize-e" rect dragStart p m0 m1 Hi Hpan He)
    as (s1 & Hrun1 & Hpan1).
  assert (Hlt : (i < length (NailOverlay.measurements c))%nat)
    by (eapply lookup_lt_Some; eauto).
  set (c1 := NailOverlay.mkSession (<[i := m1]> (NailOverlay.measurements c)) s1)
    in *.
  assert (Hi1 : NailOverlay.measurements c1 !! i = Some m1)
    by (cbn; now apply list_lookup_insert_eq).
  destruct (touchGesture_run c1 i "resize-w" rect dragStart p m1 m2 Hi1 Hpan1 Hw2)
    as (s2 & Hrun2 & _).
  eexists; exists m2. unfold eastThenWest.
  rewrite (run_app _ _ _ _ Hrun1), Hrun2. cbn.
  rewrite list_insert_insert_eq.
  repeat split; assumption.
Qed.

Lemma east_then_west_translates_witness :
  DOMRect.width sample_rect <> 0
  /\ DOMRect.height sample_rect <> 0
  /\ NailOverlay.measurements sample_session !! 0%nat = Some sample_box
  /\ NailOverlay.isPanning (NailOverlay.ui sample_session) = false
  /\ 0.01 <= 0.2
  /\ 0.01 <= 0.2 + 0.1
  /\ exists c' m2,
    NailOverlay.run sample_session
      (eastThenWest 0 sample_rect (Point.mk 10 10) (Point.mk 20 10))
    = Returns c'
    /\ NailOverlay.measurements c' = [m2]
    /\ BoundingBox.width (measurement_box m2) = 0.2
    /\ BoundingBox.x (measurement_box m2) = 0.5 + 0.1 * cos 0
    /\ BoundingBox.y (measurement_box m2) = 0.5 + 0.1 * sin 0.
Proof.
  pose proof sample_localDelta as Hl.
  assert (Hrw : DOMRect.width sample_rect <> 0) by (cbn; lra).
  assert (Hrh : DOMRect.height sample_rect <> 0) by (cbn; lra).
  split; [exact Hrw|]. split; [exact Hrh|].
  split; [reflexivity|]. split; [reflexivity|].
  split; [lra|]. split; [lra|].
  destruct (east_then_west_translates sample_session 0 sample_rect
              (Point.mk 10 10) (Point.mk 20 10) sample_box)
    as (c' & m2 & Hrun & Hms & Hw & Hx & Hy).
  - exact Hrw.
  - exact Hrh.
  - reflexivity.
  - reflexivity.
  - cbn. lra.
  - cbn in *. rewrite Hl. lra.
  - cbn in Hw, Hx, Hy. rewrite Hl in Hx, Hy.
    exists c', m2. repeat split; assumption.
Defined.

(** C2 (as stated) fails: on an unrotated box 0.2 wide centered at
    x = 0.5, in a container 100 pixels wide, East by 10 pixels and then
    West by 10 pixels gives the width 0.2 back and leaves the center at
    x = 0.6. *)
Lemma east_then_west_counterexample :
  exists c' m2,
    NailOverlay.run sample_session
      (eastThenWest 0 sample_rect (Point.mk 10 10) (Point.mk 20 10))
    = Returns c'
    /\ NailOverlay.measurements c' = [m2]
    /\ BoundingBox.width (measurement_box sample_box) = 0.2
    /\ BoundingBox.width (measurement_box m2) = 0.2
    /\ BoundingBox.x (measurement_box sample_box) = 0.5
    /\ BoundingBox.x (measurement_box m2) = 0.6.
Proof.
  do 2 eexists. split; [cbn; reflexivity|]. split; [reflexivity|].
  cbn. rewrite Ropp_0, cos_0, sin_0.
  repeat split; try lra.
  unfold Math.max, Rmax. repeat destruct Rle_dec; lra.
Qed.

(** ** Zoom (C3) *)

(** C3.  A wheel update leaves the scale in [0.5, 5] for any wheel delta.
    A touch move with two touches is the pinch update for their distance;
    for a positive start distance and a positive current distance it sets
    the scale to clamp(startScale * currentDistance / startDistance, 0.5,
    5), which lies in [0.5, 5]; when the start or the current distance is
    zero or negative it changes nothing.  The scale is in [0.5, 5] at the
    start and stays there along any sequence of events. *)
Theorem zoom_scale_clamped :
  scale_in_range NailOverlay.init
  /\ (forall s deltaY, scale_in_range (NailOverlay.handleWheel s deltaY))
  /\ (forall ms s touches container,
         length touches = 2%nat ->
         NailOverlay.handleTouchMove ms s touches container
         = NailOverlay.quiet
             (NailOverlay.pinchZoom s (NailOverlay.getPinchDist touches)))
  /\ (forall s dist,
         0 < NailOverlay.pinchStartDistRef s -> 0 < dist ->
         Transform.scale (NailOverlay.transform (NailOverlay.pinchZoom s dist))
         = clamp (NailOverlay.pinchStartScaleRef s * dist
                  / NailOverlay.pinchStartDistRef s) 0.5 5
         /\ scale_in_range (NailOverlay.pinchZoom s dist))
  /\ (forall s dist,
         NailOverlay.pinchStartDistRef s <= 0 \/ dist <= 0 ->
         NailOverlay.pinchZoom s dist = s)
  /\ (forall c es c',
         scale_in_range (NailOverlay.ui c) ->
         NailOverlay.run c es = Returns c' ->
         scale_in_range (NailOverlay.ui c')).
Proof.
  split; [unfold scale_in_range; cbn; lra|].
  split; [|split; [|split; [|split]]].
  - intros s deltaY. unfold scale_in_range. cbn. apply min_max_range. lra.
  - intros ms s touches container Hlen.
    unfold NailOverlay.handleTouchMove. now rewrite Hlen.
  - intros s dist Hstart Hdist. unfold NailOverlay.pinchZoom.
    apply gtb_true in Hstart, Hdist. rewrite Hstart, Hdist. cbn.
    split.
    + rewrite min_max_clamp by lra. f_equal. unfold Rdiv. ring.
    + unfold scale_in_range. cbn. apply min_max_range. lra.
  - intros s dist H. unfold NailOverlay.pinchZoom.
    destruct H as [H | H]; apply gtb_false in H; rewrite H;
      [reflexivity | now rewrite andb_false_r].
  - intros c es c'. apply run_scale.
Qed.

Lemma zoom_scale_clamped_witness :
  let s := NailOverlay.mkState (Transform.mk 1 0 0) false (Point.mk 0 0)
             (Point.mk 0 0) None None (Point.mk 0 0) NailOverlay.SnapNull
             100 1 in
  0 < NailOverlay.pinchStartDistRef s
  /\ 0 < 1000
  /\ Transform.scale (NailOverlay.transform (NailOverlay.pinchZoom s 1000))
     = clamp (1 * 1000 / 100) 0.5 5
  /\ (NailOverlay.pinchStartDistRef NailOverlay.init <= 0
      /\ NailOverlay.pinchZoom NailOverlay.init 1000 = NailOverlay.init)
  /\ (length [Point.mk 0 0; Point.mk 3 4] = 2%nat
      /\ NailOverlay.handleTouchMove [] s [Point.mk 0 0; Point.mk 3 4] None
         = NailOverlay.quiet
             (NailOverlay.pinchZoom s
                (NailOverlay.getPinchDist [Point.mk 0 0; Point.mk 3 4])))
  /\ (scale_in_range (NailOverlay.ui sample_session)
      /\ scale_in_range
           (NailOverlay.ui
              (NailOverlay.mkSession [sample_box]
                 (NailOverlay.handleWheel NailOverlay.init 120)))).
Proof.
  intros s.
  assert (H1 : 0 < NailOverlay.pinchStartDistRef s) by (cbn; lra).
  assert (H2 : 0 < 1000) by lra.
  assert (H3 : NailOverlay.pinchStartDistRef NailOverlay.init <= 0)
    by (cbn; lra).
  assert (H4 : scale_in_range (NailOverlay.ui sample_session))
    by (unfold scale_in_range; cbn; lra).
  destruct zoom_scale_clamped as (_ & _ & Hmove & Hpinch & Hnoop & Hrun).
  split; [exact H1|]. split; [exact H2|].
  split; [exact (proj1 (Hpinch s 1000 H1 H2))|].
  split; [split; [exact H3 | exact (Hnoop NailOverlay.init 1000 (or_introl H3))]|].
  split; [split; [reflexivity | exact (Hmove [] s [Point.mk 0 0; Point.mk 3 4] None eq_refl)]|].
  split; [exact H4|].
  exact (Hrun sample_session [NailOverlay.Wheel 120] _ H4 eq_refl).
Defined.

(** ** Calibration (C4, C5, C6) *)

(** C4.  When the coin tool is not shown, pixelsPerMM is undefined, the
    width of the image is known (not 0) and the list holds a measurement
    labelled Thumb, the implied calibration sets pixelsPerMM to the width
    of the first such measurement times the native width of the image,
    divided by 15.0.  For a native width of 4000 and a thumb width of 0.05
    that is 40/3, which is 13.33 to two decimals. *)
Theorem implied_calibration_value :
  (forall s thumb,
      App.showCoinTool s = false ->
      App.pixelsPerMM s = None ->
      Size.width (App.imageSize s) <> 0 ->
      find App.isThumb (App.measurements s) = Some thumb ->
      App.pixelsPerMM (App.impliedCalibration s)
      = Some (NailMeasurement.width thumb * Size.width (App.imageSize s)
              / 15.0))
  /\ (forall s thumb,
         App.showCoinTool s = false ->
         App.pixelsPerMM s = None ->
         find App.isThumb (App.measurements s) = Some thumb ->
         Size.width (App.imageSize s) = 4000 ->
         NailMeasurement.width thumb = 0.05 ->
         exists v,
           App.pixelsPerMM (App.impliedCalibration s) = Some v
           /\ v = 40 / 3
           /\ Rabs (v - 13.33) < 0.005).
Proof.
  split.
  - apply impliedCalibration_thumb.
  - intros s thumb Hcoin Hpx Hthumb Hw Ht.
    eexists. split.
    + apply impliedCalibration_thumb; eauto. rewrite Hw. lra.
    + rewrite Hw, Ht. split; [lra|].
      apply Rabs_def1; lra.
Qed.

Lemma implied_calibration_value_witness :
  App.showCoinTool uncalibrated = false
  /\ App.pixelsPerMM uncalibrated = None
  /\ Size.width (App.imageSize uncalibrated) <> 0
  /\ find App.isThumb (App.measurements uncalibrated) = Some thumb_box
  /\ Size.width (App.imageSize uncalibrated) = 4000
  /\ NailMeasurement.width thumb_box = 0.05
  /\ App.pixelsPerMM (App.impliedCalibration uncalibrated)
     = Some (0.05 * 4000 / 15.0)
  /\ exists v,
      App.pixelsPerMM (App.impliedCalibration uncalibrated) = Some v
      /\ v = 40 / 3
      /\ Rabs (v - 13.33) < 0.005.
Proof.
  assert (Hw : Size.width (App.imageSize uncalibrated) <> 0) by (cbn; lra).
  repeat (split; [first [reflexivity | exact Hw]|]).
  split.
  - exact (proj1 implied_calibration_value uncalibrated thumb_box
             eq_refl eq_refl Hw eq_refl).
  - exact (proj2 implied_calibration_value uncalibrated thumb_box
             eq_refl eq_refl eq_refl eq_refl eq_refl).
Defined.

(** C5.  While the coin tool is shown, the coin overlay reports the
    diameter of its disk, in the frame of the unscaled canvas, divided by
    26.0; with the container mounted and the native width of the image
    known (positive), the controller multiplies that by the native width
    over the rendered width of the container and stores the product.  A
    disk of 100 pixels in a container 500 pixels wide for an image 4000
    pixels wide gives 100/26, 3.846 to three decimals, and 400/13, 30.77
    to two decimals. *)
Theorem manual_calibration_value :
  (forall s coin renderWidth,
      App.showCoinTool s = true ->
      0 < Size.width (App.imageSize s) ->
      CoinOverlay.calibrationEffect coin (App.showCoinTool s)
      = Some (CoinOverlay.diameter coin / 26.0)
      /\ App.pixelsPerMM (App.manualCalibration s coin (Some renderWidth))
         = Some (CoinOverlay.diameter coin / 26.0
                 * (Size.width (App.imageSize s) / renderWidth)))
  /\ (forall s coin,
         App.showCoinTool s = true ->
         CoinOverlay.diameter coin = 100 ->
         Size.width (App.imageSize s) = 4000 ->
         exists display native,
           CoinOverlay.calibrationEffect coin (App.showCoinTool s)
           = Some display
           /\ Rabs (display - 3.846) < 0.0005
           /\ App.pixelsPerMM (App.manualCalibration s coin (Some 500))
              = Some native
           /\ native = display * (4000 / 500)
           /\ Rabs (native - 30.77) < 0.005).
Proof.
  assert (Hgen : forall s coin renderWidth,
             App.showCoinTool s = true ->
             0 < Size.width (App.imageSize s) ->
             CoinOverlay.calibrationEffect coin (App.showCoinTool s)
             = Some (CoinOverlay.diameter coin / 26.0)
             /\ App.pixelsPerMM (App.manualCalibration s coin (Some renderWidth))
                = Some (CoinOverlay.diameter coin / 26.0
                        * (Size.width (App.imageSize s) / renderWidth))).
  { intros s coin renderWidth Hshow Hw.
    unfold App.manualCalibration, CoinOverlay.calibrationEffect,
      App.onCalibrationChange, CoinOverlay.COIN_DIAMETER_MM.
    rewrite Hshow. apply gtb_true in Hw. rewrite Hw. split; reflexivity. }
  split; [exact Hgen|].
  intros s coin Hshow Hd Hw.
  destruct (Hgen s coin 500 Hshow) as [He Hp]; [rewrite Hw; lra|].
  rewrite Hd in He, Hp. rewrite Hw in Hp.
  exists (100 / 26.0), (100 / 26.0 * (4000 / 500)).
  split; [exact He|]. split; [apply Rabs_def1; lra|].
  split; [exact Hp|]. split; [reflexivity|].
  apply Rabs_def1; lra.
Qed.

Lemma manual_calibration_value_witness :
  App.showCoinTool coin_tool_open = true
  /\ 0 < Size.width (App.imageSize coin_tool_open)
  /\ CoinOverlay.diameter coin_100 = 100
  /\ Size.width (App.imageSize coin_tool_open) = 4000
  /\ App.pixelsPerMM (App.manualCalibration coin_tool_open coin_100 (Some 500))
     = Some (100 / 26.0 * (4000 / 500))
  /\ exists display native,
      CoinOverlay.calibrationEffect coin_100 (App.showCoinTool coin_tool_open)
      = Some display
      /\ Rabs (display - 3.846) < 0.0005
      /\ App.pixelsPerMM
           (App.manualCalibration coin_tool_open coin_100 (Some 500))
         = Some native
      /\ native = display * (4000 / 500)
      /\ Rabs (native - 30.77) < 0.005.
Proof.
  assert (Hw : 0 < Size.width (App.imageSize coin_tool_open)) by (cbn; lra).
  split; [reflexivity|]. split; [exact Hw|].
  split; [reflexivity|]. split; [reflexivity|].
  split.
  - exact (proj2 (proj1 manual_calibration_value coin_tool_open coin_100 500
                    eq_refl Hw)).
  - exact (proj2 manual_calibration_value coin_tool_open coin_100
             eq_refl eq_refl eq_refl).
Defined.

(** C6.  Once the manual calibration has set pixelsPerMM, any sequence of
    box edits, each one a new list of measurements handed to
    [setMeasurements] and followed by the implied-calibration effect,
    leaves pixelsPerMM at the value the manual calibration gave it. *)
Theorem manual_calibration_sticky
        (s : App.state) (container : option R) (pxPerMM_Screen : R)
        (edits : list (list NailMeasurement.t)) :
  let s1 := App.onCalibrationChange s container pxPerMM_Screen in
  (exists v, App.pixelsPerMM s1 = Some v)
  /\ App.pixelsPerMM (App.run s1 (map App.MeasurementsChange edits))
     = App.pixelsPerMM s1.
Proof.
  intros s1.
  destruct (onCalibrationChange_defined s container pxPerMM_Screen)
    as (v & Hv).
  fold s1 in Hv. split; [now exists v|].
  rewrite Hv. apply run_keeps_defined; [apply edits_keep_calibration | exact Hv].
Qed.

(** ** A failing detector (C7) *)

(** C7 (as amended).  When the call of the detector fails, the load handler
    returns all the same: it has called [detect] once, written the failure
    to the console, cleared the analyzing flag, and left the list of
    measurements, the error state of the detection hook and pixelsPerMM as
    they were.  The list it presents is therefore empty whenever the
    analysis began with an empty list, as it does at the start and after a
    reset. *)
Theorem detection_failure_is_logged :
  (forall s img answer err,
      HandDetection.detect (App.detection s) answer
      = HandDetection.Rejected err ->
      let s' := App.imgOnload s img answer in
      App.calls s'
      = App.calls s
        ++ [App.CallDetect; App.ConsoleError "Detection failed:" err]
      /\ App.isAnalyzing s' = false
      /\ App.measurements s' = App.measurements s
      /\ App.detection s' = App.detection s
      /\ App.pixelsPerMM s' = App.pixelsPerMM s)
  /\ (forall s src img answer err,
         App.measurements s = [] ->
         HandDetection.detect (App.detection s) answer
         = HandDetection.Rejected err ->
         App.measurements
           (App.run s [App.Capture src; App.ImgOnload img answer]) = [])
  /\ App.measurements App.init = []
  /\ (forall s, App.measurements (App.reset s) = []).
Proof.
  split; [|split; [|split; reflexivity]].
  - intros s img answer err H s'. subst s'.
    rewrite (imgOnload_rejected s img answer err H). cbn.
    rewrite <- app_assoc. repeat split; reflexivity.
  - intros s src img answer err Hms H. unfold App.run. cbn [fold_left].
    assert (H1 : App.measurements (App.step s (App.Capture src)) = []).
    { unfold App.step. destruct App.depsChanged;
        [rewrite (proj1 (impliedCalibration_frame _))|]; exact Hms. }
    assert (H2 : App.detection (App.step s (App.Capture src))
                 = App.detection s).
    { unfold App.step. destruct App.depsChanged;
        [rewrite (proj1 (proj2 (impliedCalibration_frame _)))|]; reflexivity. }
    set (s1 := App.step s (App.Capture src)) in *.
    unfold App.step. cbn [App.handle].
    rewrite <- H2 in H.
    destruct App.depsChanged;
      [rewrite (proj1 (impliedCalibration_frame _))|];
      rewrite (imgOnload_rejected s1 img answer err H); exact H1.
Qed.

Lemma detection_failure_is_logged_witness :
  let s := model_ready in
  let answer := HandDetection.DetectorThrows "WebGL context lost" in
  HandDetection.detect (App.detection s) answer
  = HandDetection.Rejected "WebGL context lost"
  /\ App.measurements s = []
  /\ App.calls (App.imgOnload s (Size.mk 4000 3000) answer)
     = [App.CallDetect;
        App.ConsoleError "Detection failed:" "WebGL context lost"]
  /\ App.measurements
       (App.run s [App.Capture "hand.jpg";
                   App.ImgOnload (Size.mk 4000 3000) answer]) = [].
Proof.
  intros s answer.
  assert (H : HandDetection.detect (App.detection s) answer
              = HandDetection.Rejected "WebGL context lost") by reflexivity.
  split; [exact H|]. split; [reflexivity|].
  destruct detection_failure_is_logged as (Hload & Hrun & _).
  split.
  - exact (proj1 (Hload s (Size.mk 4000 3000) answer _ H)).
  - exact (Hrun s "hand.jpg"%string (Size.mk 4000 3000) answer _ eq_refl H).
Defined.

(** C7 (as stated) fails twice.  After a first analysis in which the
    detector throws, the error state that the banner of the page shows is
    empty and what the page renders is what it renders when the detector
    finds no hand: the failure is in the console only.  And a failure does
    not empty a list: with a box already in the list, the list still holds
    it after the failure. *)
Lemma detection_failure_counterexample :
  let failed :=
    App.run App.init
      (first_analysis (HandDetection.DetectorThrows "WebGL context lost")) in
  let no_hands :=
    App.run App.init
      (first_analysis (HandDetection.DetectorResult (Some []))) in
  HandDetection.error (App.detection failed) = None
  /\ presented failed = presented no_hands
  /\ App.calls failed
     = [App.CallDetect;
        App.ConsoleError "Detection failed:" "WebGL context lost"]
  /\ App.measurements
       (App.imgOnload (App.setMeasurements failed [sample_box])
          (Size.mk 4000 3000)
          (HandDetection.DetectorThrows "WebGL context lost"))
     = [sample_box].
Proof.
  unfold App.run, first_analysis. cbn [fold_left].
  repeat match goal with
         | |- context [App.step ?s ?e] =>
             lazymatch s with
             | context [App.step] => fail
             | _ => rewrite (step_empty s e) by reflexivity
             end
         end.
  cbn. unfold presented. cbn.
  repeat split; reflexivity.
Qed.

(** ** A second touch (C8) *)

(** C8 (as amended).  A touch-start that reports exactly two touches, in any
    state of the overlay, clears [isPanning], [activeId] and the
    interaction mode, keeps the view, and records the current scale and
    the distance between the two touches; from there no event changes a
    box until a pointer-down starts a gesture again.  A move event drives
    one gesture: it moves the view or it edits a box, never both, and a
    mouse move never edits one. *)
Theorem second_touch_cancels :
  (forall ms s touches index mode,
      length touches = 2%nat ->
      exists s',
        NailOverlay.handleTouchStart ms s touches index mode = Returns s'
        /\ NailOverlay.isPanning s' = false
        /\ NailOverlay.activeId s' = None
        /\ NailOverlay.interactionMode s' = None
        /\ NailOverlay.transform s' = NailOverlay.transform s
        /\ NailOverlay.pinchStartScaleRef s'
           = Transform.scale (NailOverlay.transform s)
        /\ NailOverlay.pinchStartDistRef s' = NailOverlay.getPinchDist touches
        /\ forall es c',
            forallb (fun e => negb (pointer_down e)) es = true ->
            NailOverlay.run (NailOverlay.mkSession ms s') es = Returns c' ->
            NailOverlay.measurements c' = ms)
  /\ (forall ms s touches container e,
         NailOverlay.handleTouchMove ms s touches container = Returns e ->
         NailOverlay.emitted e = None \/ NailOverlay.next e = s)
  /\ (forall ms s p container e,
         NailOverlay.handleMouseMove ms s p container = Returns e ->
         NailOverlay.emitted e = None).
Proof.
  split; [|split].
  - intros ms s touches index mode Hlen.
    unfold NailOverlay.handleTouchStart. rewrite Hlen. cbn.
    eexists. split; [reflexivity|]. cbn.
    repeat (split; [reflexivity|]).
    intros es c' Hes Hrun.
    apply (run_no_target es _ c' Hes) in Hrun; [exact Hrun | reflexivity].
  - apply handleTouchMove_exclusive.
  - apply handleMouseMove_quiet.
Qed.

Lemma second_touch_cancels_witness :
  let touches := [Point.mk 20 20; Point.mk 23 24] in
  let es := [ NailOverlay.TouchMove [Point.mk 40 20; Point.mk 23 24]
                (Some sample_rect);
              NailOverlay.TouchMove [Point.mk 40 20] (Some sample_rect);
              NailOverlay.TouchEnd ] in
  length touches = 2%nat
  /\ NailOverlay.activeId dragging_state = Some 0%nat
  /\ exists s' c',
      NailOverlay.handleTouchStart [sample_box] dragging_state touches None
        "pan" = Returns s'
      /\ NailOverlay.activeId s' = None
      /\ NailOverlay.pinchStartScaleRef s' = 1
      /\ NailOverlay.run (NailOverlay.mkSession [sample_box] s') es
         = Returns c'
      /\ NailOverlay.measurements c' = [sample_box].
Proof.
  intros touches es.
  split; [reflexivity|]. split; [reflexivity|].
  destruct (proj1 second_touch_cancels [sample_box] dragging_state touches
              None "pan"%string eq_refl)
    as (s' & Hstart & _ & Hid & _ & _ & Hscale & _ & Hquiet).
  assert (Hrun : exists c',
             NailOverlay.run (NailOverlay.mkSession [sample_box] s') es
             = Returns c').
  { cbn in Hstart. injection Hstart as <-. cbn.
    unfold NailOverlay.pinchZoom. destruct (_ && _); cbn; eexists; reflexivity. }
  destruct Hrun as (c' & Hrun).
  exists s', c'. split; [exact Hstart|]. split; [exact Hid|].
  split; [exact Hscale|]. split; [exact Hrun|].
  exact (Hquiet es c' eq_refl Hrun).
Defined.

(** C8 (as stated) fails in its last sentence: a pointer-down on the
    background followed by a pointer-down on a box, with no two-touch start
    between them, leaves the pan flag and the box gesture set together.
    Two mouse buttons do it, and so does a touch-start that reports three
    touches at once. *)
Lemma second_touch_counterexample :
  (exists c',
      NailOverlay.run sample_session
        [ NailOverlay.MouseDown (Point.mk 10 10) None "pan";
          NailOverlay.MouseDown (Point.mk 50 50) (Some 0%nat) "drag" ]
      = Returns c'
      /\ NailOverlay.isPanning (NailOverlay.ui c') = true
      /\ NailOverlay.activeId (NailOverlay.ui c') = Some 0%nat
      /\ NailOverlay.interactionMode (NailOverlay.ui c') = Some "drag"%string)
  /\ (exists c',
         NailOverlay.run sample_session
           [ NailOverlay.TouchStart [Point.mk 10 10] None "pan";
             NailOverlay.TouchStart
               [Point.mk 10 10; Point.mk 50 50; Point.mk 60 60]
               (Some 0%nat) "drag" ]
         = Returns c'
         /\ NailOverlay.isPanning (NailOverlay.ui c') = true
         /\ NailOverlay.activeId (NailOverlay.ui c') = Some 0%nat
         /\ NailOverlay.interactionMode (NailOverlay.ui c')
            = Some "drag"%string).
Proof.
  split; eexists; (split; [cbn; reflexivity|]); cbn; repeat split.
Qed.

(** ** Rotation (C9) *)

(** C9, at the failing input.  Box 0 is centered on the screen at (50, 50)
    and has rotation 0; the pointer goes down at (100, 50), angle 0, and
    moves to (50, 100), angle PI / 2.  The update computes the rotation
    0 + (PI / 2 - 0).  With a finger, the list then holds the box with
    rotation PI / 2.  With the mouse, the list still holds the box with
    rotation 0: the mouse handler drops the list it built. *)
Theorem mouse_rotate_is_dropped :
  let down := Point.mk 100 50 in
  let cur := Point.mk 50 100 in
  (exists m',
      NailOverlay.editMeasurement "rotate" sample_rect sample_box down cur
      = Some m'
      /\ BoundingBox.rotation (measurement_box m') = 0 + (PI / 2 - 0))
  /\ (exists c' m',
         NailOverlay.run sample_session
           (touchGesture 0 "rotate" sample_rect down cur) = Returns c'
         /\ NailOverlay.measurements c' = [m']
         /\ BoundingBox.rotation (measurement_box m') = PI / 2)
  /\ (exists c',
         NailOverlay.run sample_session
           (mouseGesture 0 "rotate" sample_rect down cur) = Returns c'
         /\ NailOverlay.measurements c' = [sample_box]
         /\ BoundingBox.rotation (measurement_box sample_box) = 0
         /\ 0 < PI / 2).
Proof.
  intros down cur.
  destruct (editMeasurement_rotate sample_rect sample_box down cur)
    as (m1 & He & Hr & _).
  subst down cur. rewrite sample_start_angle, sample_current_angle in Hr.
  cbn in Hr.
  split; [exists m1; split; [exact He | rewrite Hr; reflexivity]|].
  split.
  - destruct (touchGesture_run sample_session 0 "rotate" sample_rect
                (Point.mk 100 50) (Point.mk 50 100) sample_box m1
                eq_refl eq_refl He) as (s' & Hrun & _).
    eexists; exists m1. split; [exact Hrun|]. split; [reflexivity|].
    rewrite Hr. lra.
  - destruct (mouseGesture_run sample_session 0 "rotate" sample_rect
                (Point.mk 100 50) (Point.mk 50 100) sample_box eq_refl)
      as (s' & Hrun).
    eexists. split; [exact Hrun|]. split; [reflexivity|].
    split; [reflexivity|]. pose proof PI_RGT_0. lra.
Qed.

(** ** The implied estimator writes once (C10) *)

(** C10.  The implied estimator changes nothing in a state where
    pixelsPerMM is defined, whichever producer defined it.  The value it
    computed from the thumb stays as it is under any later lists of
    measurements, with no manual calibration ever made.  A defined
    pixelsPerMM stays defined, with the same value, along all events but
    a capture, a reset and a manual calibration; the only events after
    which it is undefined again are a capture (the analysis of a new
    image) and a reset, whose handlers both set it to undefined. *)
Theorem implied_estimator_writes_once :
  (forall s v, App.pixelsPerMM s = Some v -> App.impliedCalibration s = s)
  /\ (forall s thumb edits,
         App.showCoinTool s = false ->
         App.pixelsPerMM s = None ->
         Size.width (App.imageSize s) <> 0 ->
         find App.isThumb (App.measurements s) = Some thumb ->
         App.pixelsPerMM
           (App.run (App.impliedCalibration s)
              (map App.MeasurementsChange edits))
         = Some (NailMeasurement.width thumb * Size.width (App.imageSize s)
                 / 15.0))
  /\ (forall s es v,
         App.pixelsPerMM s = Some v ->
         forallb (fun e => negb (sets_calibration e)) es = true ->
         App.pixelsPerMM (App.run s es) = Some v)
  /\ (forall s e v,
         App.pixelsPerMM s = Some v ->
         App.pixelsPerMM (App.step s e) = None ->
         (exists src, e = App.Capture src) \/ e = App.Reset)
  /\ (forall s src, App.pixelsPerMM (App.handleCapture s src) = None)
  /\ (forall s, App.pixelsPerMM (App.reset s) = None).
Proof.
  split; [exact impliedCalibration_defined|].
  split.
  { intros s thumb edits Hcoin Hpx Hw Hthumb.
    apply run_keeps_defined; [apply edits_keep_calibration|].
    now apply impliedCalibration_thumb. }
  split.
  { intros s es v Hv Hes. now apply run_keeps_defined. }
  split; [|split; reflexivity].
  intros s e v Hv Hnone.
  destruct (sets_calibration e) eqn:He.
  - destruct e; try discriminate He; eauto.
    exfalso. unfold App.step in Hnone.
    destruct (onCalibrationChange_defined s container pxPerMM_Screen)
      as (w & Hw).
    cbn [App.handle] in Hnone.
    destruct App.depsChanged;
      [rewrite (impliedCalibration_defined _ w Hw) in Hnone|]; congruence.
  - rewrite (step_keeps_defined s e v He Hv) in Hnone. discriminate.
Qed.

Lemma implied_estimator_writes_once_witness :
  App.showCoinTool uncalibrated = false
  /\ App.pixelsPerMM uncalibrated = None
  /\ Size.width (App.imageSize uncalibrated) <> 0
  /\ find App.isThumb (App.measurements uncalibrated) = Some thumb_box
  /\ App.pixelsPerMM
       (App.run (App.impliedCalibration uncalibrated)
          (map App.MeasurementsChange
             [[sample_box; thumb_box_widened]; [thumb_box_widened]]))
     = Some (0.05 * 4000 / 15.0)
  /\ App.pixelsPerMM coin_tool_open = None
  /\ App.pixelsPerMM
       (App.onCalibrationChange coin_tool_open (Some 500) (100 / 26.0))
     = Some (100 / 26.0 * (4000 / 500))
  /\ App.impliedCalibration
       (App.onCalibrationChange coin_tool_open (Some 500) (100 / 26.0))
     = App.onCalibrationChange coin_tool_open (Some 500) (100 / 26.0).
Proof.
  assert (Hw : Size.width (App.imageSize uncalibrated) <> 0) by (cbn; lra).
  assert (Hm : App.pixelsPerMM
                 (App.onCalibrationChange coin_tool_open (Some 500)
                    (100 / 26.0))
               = Some (100 / 26.0 * (4000 / 500))).
  { unfold App.onCalibrationChange. cbn.
    assert (Hg : gtb 4000 0 = true) by (apply gtb_true; lra).
    now rewrite Hg. }
  destruct implied_estimator_writes_once as (Hid & Hfrozen & _).
  split; [reflexivity|]. split; [reflexivity|]. split; [exact Hw|].
  split; [reflexivity|].
  split; [exact (Hfrozen uncalibrated thumb_box _ eq_refl eq_refl Hw eq_refl)|].
  split; [reflexivity|]. split; [exact Hm|].
  exact (Hid _ _ Hm).
Defined.

(** * Further properties of the overlay *)

(** ** A gesture is computed from its start *)

Lemma editMeasurement_some (mode : string) (rect : DOMRect.t)
      (m0 m1 : NailMeasurement.t) (dragStart p q : Point.t) :
  NailOverlay.editMeasurement mode rect m0 dragStart p = Some m1 ->
  exists mq, NailOverlay.editMeasurement mode rect m0 dragStart q = Some mq.
Proof.
  unfold NailOverlay.editMeasurement.
  destruct (String.eqb mode "rotate"); [eexists; reflexivity|].
  destruct (String.eqb mode "drag"); [eexists; reflexivity|].
  destruct (String.prefix "resize" mode); [|discriminate].
  intros _.
  match goal with
  | |- context [NailOverlay.resizeCase mode ?bb ?a ?b] =>
      destruct (NailOverlay.resizeCase mode bb a b) as [[[newW newH] sx] sy]
  end.
  eexists; reflexivity.
Qed.

Lemma editMeasurement_truthy (mode : string) (rect : DOMRect.t)
      (m0 m1 : NailMeasurement.t) (dragStart p : Point.t) :
  NailOverlay.editMeasurement mode rect m0 dragStart p = Some m1 ->
  truthy mode = true.
Proof. destruct mode; [discriminate | reflexivity]. Qed.

(** The labels of a measurement survive every edit. *)
Lemma editMeasurement_keeps_label (mode : string) (rect : DOMRect.t)
      (m0 m1 : NailMeasurement.t) (dragStart p : Point.t) :
  NailOverlay.editMeasurement mode rect m0 dragStart p = Some m1 ->
  NailMeasurement.finger m1 = NailMeasurement.finger m0
  /\ NailMeasurement.width m1 = NailMeasurement.width m0
  /\ NailMeasurement.length m1 = NailMeasurement.length m0.
Proof.
  unfold NailOverlay.editMeasurement.
  destruct (String.eqb mode "rotate"); [intros [= <-]; now repeat split|].
  destruct (String.eqb mode "drag"); [intros [= <-]; now repeat split|].
  destruct (String.prefix "resize" mode); [|discriminate].
  match goal with
  | |- context [NailOverlay.resizeCase mode ?bb ?a ?b] =>
      destruct (NailOverlay.resizeCase mode bb a b) as [[[newW newH] sx] sy]
  end.
  intros [= <-]; now repeat split.
Qed.

(** One move of the finger that holds box [i]. *)
Lemma touchMove_edit (l : list NailMeasurement.t) (s : NailOverlay.state)
      (i : nat) (mode : string) (rect : DOMRect.t)
      (m0 mq : NailMeasurement.t) (q : Point.t) :
  NailOverlay.isPanning s = false ->
  NailOverlay.activeId s = Some i ->
  NailOverlay.interactionMode s = Some mode ->
  NailOverlay.initialMeasurementRef s = NailOverlay.SnapBox m0 ->
  (i < length l)%nat ->
  NailOverlay.editMeasurement mode rect m0 (NailOverlay.dragStartRef s) q
  = Some mq ->
  NailOverlay.step (NailOverlay.mkSession l s)
    (NailOverlay.TouchMove [q] (Some rect))
  = Returns (NailOverlay.mkSession (<[i := mq]> l) s).
Proof.
  intros Hpan Hid Hmode Hsnap Hlt Hedit.
  pose proof (editMeasurement_truthy _ _ _ _ _ _ Hedit) as Ht.
  cbn. unfold NailOverlay.handleTouchMove, NailOverlay.active_target,
    NailOverlay.newMeasurements. cbn.
  rewrite Hpan, Hid, Hmode, Ht, Hsnap, Hedit.
  rewrite (array_assign_in_range l i mq Hlt). reflexivity.
Qed.

Lemma touchMoves_run (ps : list Point.t) (l : list NailMeasurement.t)
      (s : NailOverlay.state) (i : nat) (mode : string) (rect : DOMRect.t)
      (m0 m1 : NailMeasurement.t) (p : Point.t) :
  NailOverlay.isPanning s = false ->
  NailOverlay.activeId s = Some i ->
  NailOverlay.interactionMode s = Some mode ->
  NailOverlay.initialMeasurementRef s = NailOverlay.SnapBox m0 ->
  (i < length l)%nat ->
  NailOverlay.editMeasurement mode rect m0 (NailOverlay.dragStartRef s) p
  = Some m1 ->
  NailOverlay.run (NailOverlay.mkSession l s)
    (map (fun q => NailOverlay.TouchMove [q] (Some rect)) (ps ++ [p]))
  = Returns (NailOverlay.mkSession (<[i := m1]> l) s).
Proof.
  intros Hpan Hid Hmode Hsnap Hlt Hedit. revert l Hlt.
  induction ps as [|q ps IH]; intros l Hlt.
  - cbn [app map NailOverlay.run].
    now rewrite (touchMove_edit l s i mode rect m0 m1 p).
  - destruct (editMeasurement_some _ _ _ _ _ _ q Hedit) as (mq & Hq).
    cbn [app map NailOverlay.run].
    rewrite (touchMove_edit l s i mode rect m0 mq q) by assumption.
    rewrite IH by (now rewrite length_insert).
    now rewrite list_insert_insert_eq.
Qed.

(** X1.  Within one touch gesture on a box, whatever points the finger
    passes through, the list ends as if the finger had gone straight to its
    last position: every update is computed from the snapshot taken at
    touch-start, so nothing accumulates. *)
Theorem gesture_depends_on_last_point (c : NailOverlay.session) (i : nat)
        (mode : string) (rect : DOMRect.t) (dragStart : Point.t)
        (ps : list Point.t) (p : Point.t) (m0 m1 : NailMeasurement.t) :
  NailOverlay.measurements c !! i = Some m0 ->
  NailOverlay.isPanning (NailOverlay.ui c) = false ->
  NailOverlay.editMeasurement mode rect m0 dragStart p = Some m1 ->
  NailOverlay.run c (touchGestureVia i mode rect dragStart ps p)
  = NailOverlay.run c (touchGesture i mode rect dragStart p)
  /\ exists s',
      NailOverlay.run c (touchGestureVia i mode rect dragStart ps p)
      = Returns
          (NailOverlay.mkSession (<[i := m1]> (NailOverlay.measurements c)) s').
Proof.
  intros Hi Hpan Hedit.
  assert (Hlt : (i < length (NailOverlay.measurements c))%nat)
    by (eapply lookup_lt_Some; eauto).
  assert (Hvia : forall qs,
             NailOverlay.run c (touchGestureVia i mode rect dragStart qs p)
             = Returns
                 (NailOverlay.mkSession
                    (<[i := m1]> (NailOverlay.measurements c))
                    (NailOverlay.handleTouchEnd
                       (NailOverlay.start_edit (NailOverlay.measurements c)
                          (NailOverlay.ui c) dragStart i mode)))).
  { intros qs. destruct c as [ms s]. cbn in *.
    unfold touchGestureVia. cbn [NailOverlay.run NailOverlay.step].
    cbn [NailOverlay.handleTouchStart length Nat.eqb lookup list_lookup].
    cbn [NailOverlay.measurements NailOverlay.ui].
    rewrite (run_app _ _ _ _
               (touchMoves_run qs ms
                  (NailOverlay.start_edit ms s dragStart i mode) i mode rect
                  m0 m1 p Hpan eq_refl eq_refl
                  ltac:(cbn; unfold NailOverlay.snapshot_of; now rewrite Hi)
                  Hlt Hedit)).
    reflexivity. }
  split.
  - rewrite (Hvia ps). symmetry. exact (Hvia []).
  - eexists. exact (Hvia ps).
Qed.

Lemma gesture_depends_on_last_point_witness :
  NailOverlay.measurements sample_session !! 0%nat = Some sample_box
  /\ NailOverlay.isPanning (NailOverlay.ui sample_session) = false
  /\ NailOverlay.run sample_session
       (touchGestureVia 0 "drag" sample_rect (Point.mk 10 10)
          [Point.mk 90 15; Point.mk 3 70] (Point.mk 20 10))
     = NailOverlay.run sample_session
         (touchGesture 0 "drag" sample_rect (Point.mk 10 10) (Point.mk 20 10)).
Proof.
  split; [reflexivity|]. split; [reflexivity|].
  exact (proj1 (gesture_depends_on_last_point sample_session 0 "drag"
                  sample_rect (Point.mk 10 10)
                  [Point.mk 90 15; Point.mk 3 70] (Point.mk 20 10)
                  sample_box _ eq_refl eq_refl eq_refl)).
Defined.

(** ** What an update touches *)

Lemma array_assign_others {A : Type} (l l' : list A) (i j : nat) (v : A) :
  array_assign l i v = Returns l' ->
  j <> i -> (j < length l)%nat -> l' !! j = l !! j.
Proof.
  unfold array_assign. intros H Hne Hlt.
  destruct (i <? length l)%nat.
  - injection H as <-. now apply list_lookup_insert_ne.
  - destruct (i =? length l)%nat; [|discriminate].
    injection H as <-. now apply lookup_app_l.
Qed.

Lemma array_assign_at {A : Type} (l l' : list A) (i : nat) (v : A) :
  array_assign l i v = Returns l' -> l' !! i = Some v.
Proof.
  unfold array_assign.
  destruct (Nat.ltb_spec i (length l)).
  - intros [= <-]. now apply list_lookup_insert_eq.
  - destruct (Nat.eqb_spec i (length l)); [|discriminate].
    intros [= <-]. subst i. rewrite lookup_app_r by lia.
    now rewrite Nat.sub_diag.
Qed.

Lemma array_assign_length {A : Type} (l l' : list A) (i : nat) (v : A) :
  array_assign l i v = Returns l' ->
  (i < length l)%nat -> length l' = length l.
Proof.
  intros H Hlt. rewrite (array_assign_in_range l i v Hlt) in H.
  injection H as <-. apply length_insert.
Qed.

(** X2.  When a touch move hands a list to [onMeasurementsChange], the
    overlay itself is unchanged, every box but the active one is the one
    of the current list, the list has the same length when the active
    index is inside it, and the active entry is the gesture snapshot with
    a new bounding box: its finger, width and length are the snapshot's. *)
Theorem touch_move_replaces_active_box
        (ms : list NailMeasurement.t) (s : NailOverlay.state)
        (touches : list Point.t) (container : option DOMRect.t)
        (e : NailOverlay.effect) (l : list NailMeasurement.t) :
  NailOverlay.handleTouchMove ms s touches container = Returns e ->
  NailOverlay.emitted e = Some l ->
  NailOverlay.next e = s
  /\ exists i m0,
      NailOverlay.activeId s = Some i
      /\ NailOverlay.initialMeasurementRef s = NailOverlay.SnapBox m0
      /\ (forall j, j <> i -> (j < length ms)%nat -> l !! j = ms !! j)
      /\ ((i < length ms)%nat -> length l = length ms)
      /\ (l = ms
          \/ exists m1,
              l !! i = Some m1
              /\ NailMeasurement.finger m1 = NailMeasurement.finger m0
              /\ NailMeasurement.width m1 = NailMeasurement.width m0
              /\ NailMeasurement.length m1 = NailMeasurement.length m0).
Proof.
  unfold NailOverlay.handleTouchMove.
  destruct (length touches =? 2)%nat; [intros [= <-]; discriminate|].
  destruct (NailOverlay.isPanning s).
  { destruct (touches !! 0%nat); [|discriminate]. intros [= <-]; discriminate. }
  destruct NailOverlay.active_target as [|i mode rect [| |m0]] eqn:T;
    try discriminate; try (intros [= <-]; discriminate).
  destruct (touches !! 0%nat) as [touch|]; [|discriminate].
  destruct NailOverlay.newMeasurements as [l'| |] eqn:N; try discriminate.
  intros [= <-]. cbn. intros [= ->].
  apply active_target_snapshot in T as [Hsnap Hid].
  split; [reflexivity|]. exists i, m0.
  split; [exact Hid|]. split; [exact Hsnap|].
  unfold NailOverlay.newMeasurements in N.
  destruct NailOverlay.editMeasurement as [m1|] eqn:E.
  - split; [intros j; eapply array_assign_others; eauto|].
    split; [eapply array_assign_length; eauto|].
    right. exists m1. split; [eapply array_assign_at; eauto|].
    eapply editMeasurement_keeps_label; eauto.
  - injection N as <-. split; [reflexivity|]. split; [reflexivity|]. now left.
Qed.

Lemma touch_move_replaces_active_box_witness :
  let ms := [thumb_box; sample_box] in
  let s := NailOverlay.start_edit ms NailOverlay.init (Point.mk 10 10) 1
             "resize-e" in
  exists e l,
    NailOverlay.handleTouchMove ms s [Point.mk 30 10] (Some sample_rect)
    = Returns e
    /\ NailOverlay.emitted e = Some l
    /\ NailOverlay.next e = s
    /\ l !! 0%nat = Some thumb_box
    /\ length l = 2%nat.
Proof.
  intros ms s.
  assert (H : exists e l,
             NailOverlay.handleTouchMove ms s [Point.mk 30 10]
               (Some sample_rect) = Returns e
             /\ NailOverlay.emitted e = Some l).
  { do 2 eexists. split; [cbn; reflexivity | reflexivity]. }
  destruct H as (e & l & He & Hl).
  destruct (touch_move_replaces_active_box ms s _ _ e l He Hl)
    as (Hnext & i & m0 & Hid & _ & Hothers & Hlen & _).
  injection Hid as <-.
  exists e, l. split; [exact He|]. split; [exact Hl|]. split; [exact Hnext|].
  split.
  - rewrite (Hothers 0%nat) by (cbn; lia). reflexivity.
  - rewrite Hlen by (cbn; lia). reflexivity.
Defined.

(** ** Dragging *)

Lemma editMeasurement_drag (rect : DOMRect.t) (m0 : NailMeasurement.t)
      (a b : Point.t) :
  NailOverlay.editMeasurement "drag" rect m0 a b
  = Some (NailMeasurement.with_boundingBox m0
            (BoundingBox.mk
               (BoundingBox.x (measurement_box m0)
                + (Point.x b - Point.x a) / DOMRect.width rect)
               (BoundingBox.y (measurement_box m0)
                + (Point.y b - Point.y a) / DOMRect.height rect)
               (BoundingBox.width (measurement_box m0))
               (BoundingBox.height (measurement_box m0))
               (BoundingBox.rotation (measurement_box m0)))).
Proof. reflexivity. Qed.

(** X3.  In a container of non-zero size, a one-finger drag of box [i]
    from [a] to [b] moves its center by the displacement of the finger
    divided by the width and the height of the container, and leaves its
    size and rotation; dragging it back from [b] to [a] gives the list of
    measurements back. *)
Theorem drag_moves_center_and_back (c : NailOverlay.session) (i : nat)
        (rect : DOMRect.t) (a b : Point.t) (m0 : NailMeasurement.t) :
  DOMRect.width rect <> 0 ->
  DOMRect.height rect <> 0 ->
  NailOverlay.measurements c !! i = Some m0 ->
  NailOverlay.isPanning (NailOverlay.ui c) = false ->
  (exists s1,
      NailOverlay.run c (touchGesture i "drag" rect a b)
      = Returns
          (NailOverlay.mkSession
             (<[i := NailMeasurement.with_boundingBox m0
                       (BoundingBox.mk
                          (BoundingBox.x (measurement_box m0)
                           + (Point.x b - Point.x a) / DOMRect.width rect)
                          (BoundingBox.y (measurement_box m0)
                           + (Point.y b - Point.y a) / DOMRect.height rect)
                          (BoundingBox.width (measurement_box m0))
                          (BoundingBox.height (measurement_box m0))
                          (BoundingBox.rotation (measurement_box m0)))]>
                (NailOverlay.measurements c))
             s1))
  /\ (exists s2,
         NailOverlay.run c
           (touchGesture i "drag" rect a b ++ touchGesture i "drag" rect b a)
         = Returns (NailOverlay.mkSession (NailOverlay.measurements c) s2)).
Proof.
  intros _ _ Hi Hpan.
  destruct (touchGesture_run c i "drag" rect a b m0 _ Hi Hpan
              (editMeasurement_drag rect m0 a b)) as (s1 & Hrun1 & Hpan1).
  split; [exists s1; exact Hrun1|].
  assert (Hlt : (i < length (NailOverlay.measurements c))%nat)
    by (eapply lookup_lt_Some; eauto).
  match type of Hrun1 with
  | _ = Returns ?c1 =>
      assert (Hi1 : NailOverlay.measurements c1 !! i
                    = Some (NailMeasurement.with_boundingBox m0
                              (BoundingBox.mk
                                 (BoundingBox.x (measurement_box m0)
                                  + (Point.x b - Point.x a) / DOMRect.width rect)
                                 (BoundingBox.y (measurement_box m0)
                                  + (Point.y b - Point.y a) / DOMRect.height rect)
                                 (BoundingBox.width (measurement_box m0))
                                 (BoundingBox.height (measurement_box m0))
                                 (BoundingBox.rotation (measurement_box m0)))))
        by (cbn; now apply list_lookup_insert_eq);
      destruct (touchGesture_run c1 i "drag" rect b a _ _ Hi1 Hpan1
                  (editMeasurement_drag rect _ b a)) as (s2 & Hrun2 & _)
  end.
  exists s2. rewrite (run_app _ _ _ _ Hrun1), Hrun2. cbn.
  rewrite list_insert_insert_eq. f_equal. f_equal.
  apply list_insert_id. rewrite Hi. f_equal.
  destruct m0 as [f w len [x0 y0 w0 h0 r0]]. cbn.
  unfold NailMeasurement.with_boundingBox. cbn. f_equal. f_equal; lra.
Qed.

Lemma drag_moves_center_and_back_witness :
  DOMRect.width wide_rect <> 0
  /\ DOMRect.height wide_rect <> 0
  /\ NailOverlay.measurements sample_session !! 0%nat = Some sample_box
  /\ NailOverlay.isPanning (NailOverlay.ui sample_session) = false
  /\ (exists s1,
         NailOverlay.run sample_session
           (touchGesture 0 "drag" wide_rect (Point.mk 100 100)
              (Point.mk 150 100))
         = Returns
             (NailOverlay.mkSession
                [NailMeasurement.with_boundingBox sample_box
                   (BoundingBox.mk (0.5 + (150 - 100) / 500)
                      (0.5 + (100 - 100) / 400) 0.2 0.2 0)]
                s1))
  /\ 0.5 + (150 - 100) / 500 = 0.6
  /\ 0.5 + (100 - 100) / 400 = 0.5.
Proof.
  assert (Hw : DOMRect.width wide_rect <> 0) by (cbn; lra).
  assert (Hh : DOMRect.height wide_rect <> 0) by (cbn; lra).
  split; [exact Hw|]. split; [exact Hh|].
  split; [reflexivity|]. split; [reflexivity|].
  split; [|split; lra].
  exact (proj1 (drag_moves_center_and_back sample_session 0 wide_rect
                  (Point.mk 100 100) (Point.mk 150 100) sample_box
                  Hw Hh eq_refl eq_refl)).
Defined.

(** ** The edges of a resized box on the screen *)

Lemma pair_eq (a b c d : R) : a = c -> b = d -> (a, b) = (c, d).
Proof. now intros -> ->. Qed.

(** X4.  In a container of non-zero size and in a resize that the floor
    does not stop, the midpoint on the
    screen of the edge across from the dragged one moves by [anchorDrift]:
    by the local displacement times (height - width of the container)
    times sin(rotation) / 2, across the axis of the resize.  So that edge
    stays where it is when the container is square or the box is not
    rotated. *)
Theorem resize_opposite_edge (mode : string) (rect : DOMRect.t)
        (m0 m1 : NailMeasurement.t) (dragStart p : Point.t) :
  DOMRect.width rect <> 0 ->
  DOMRect.height rect <> 0 ->
  resize_mode mode ->
  0.01 <= requested_extent mode rect (measurement_box m0) dragStart p ->
  NailOverlay.editMeasurement mode rect m0 dragStart p = Some m1 ->
  oppositeEdge mode rect (measurement_box m1)
  = translate (oppositeEdge mode rect (measurement_box m0))
      (anchorDrift mode rect (measurement_box m0) dragStart p)
  /\ (DOMRect.width rect = DOMRect.height rect
      \/ sin (BoundingBox.rotation (measurement_box m0)) = 0 ->
      oppositeEdge mode rect (measurement_box m1)
      = oppositeEdge mode rect (measurement_box m0)).
Proof.
  intros HW HH Hmode Hreq Hedit.
  assert (Hmain : oppositeEdge mode rect (measurement_box m1)
                  = translate (oppositeEdge mode rect (measurement_box m0))
                      (anchorDrift mode rect (measurement_box m0) dragStart p)).
  { destruct m0 as [f w len [x0 y0 w0 h0 r0]].
    destruct Hmode as [[-> | ->] | [-> | ->]]; cbn in *;
      injection Hedit as <-; cbn;
      unfold localDelta, localDeltaY in *; cbn in *;
      rewrite (max_id _ _ Hreq);
      unfold translate, eastEdge, westEdge, northEdge, southEdge,
        alongWidth, alongHeight, screenCenter; cbn;
      apply pair_eq; field; now split. }
  split; [exact Hmain|].
  intros Hfix. rewrite Hmain.
  destruct (oppositeEdge mode rect (measurement_box m0)) as [ex ey].
  unfold anchorDrift, translate.
  assert (Hk : (DOMRect.height rect - DOMRect.width rect)
               * sin (BoundingBox.rotation (measurement_box m0)) / 2 = 0).
  { destruct Hfix as [-> | ->]; lra. }
  rewrite Hk. destruct (is_horizontal mode); cbn; apply pair_eq; lra.
Qed.

Lemma resize_opposite_edge_witness :
  DOMRect.width sample_rect <> 0
  /\ DOMRect.height sample_rect <> 0
  /\ resize_mode "resize-e"
  /\ 0.01 <= requested_extent "resize-e" sample_rect
               (measurement_box sample_box) (Point.mk 10 10) (Point.mk 20 10)
  /\ exists m1,
      NailOverlay.editMeasurement "resize-e" sample_rect sample_box
        (Point.mk 10 10) (Point.mk 20 10) = Some m1
      /\ westEdge sample_rect (measurement_box m1)
         = westEdge sample_rect (measurement_box sample_box).
Proof.
  assert (Hmode : resize_mode "resize-e") by (left; left; reflexivity).
  assert (Hreq : 0.01 <= requested_extent "resize-e" sample_rect
                           (measurement_box sample_box) (Point.mk 10 10)
                           (Point.mk 20 10)).
  { cbn. fold (localDelta sample_rect 0 (Point.mk 10 10) (Point.mk 20 10)).
    rewrite sample_localDelta. lra. }
  assert (HW : DOMRect.width sample_rect <> 0) by (cbn; lra).
  assert (HH : DOMRect.height sample_rect <> 0) by (cbn; lra).
  split; [exact HW|]. split; [exact HH|].
  split; [exact Hmode|]. split; [exact Hreq|].
  eexists. split; [reflexivity|].
  refine (proj2 (resize_opposite_edge "resize-e" sample_rect sample_box _
                   (Point.mk 10 10) (Point.mk 20 10) HW HH Hmode Hreq
                   eq_refl) _).
  left. reflexivity.
Defined.

(** A box turned by a quarter of a turn in a container 500 by 400: the
    finger pulls the East handle 40 pixels down, and the West edge moves 5
    pixels up. *)
Lemma resize_opposite_edge_drifts :
  let m0 := NailMeasurement.mk "Ring" 0.2 0.1
              (BoundingBox.mk 0.4 0.6 0.2 0.1 (PI / 2)) in
  exists m1,
    NailOverlay.editMeasurement "resize-e" wide_rect m0 (Point.mk 100 100)
      (Point.mk 100 140) = Some m1
    /\ westEdge wide_rect (measurement_box m1)
       = translate (westEdge wide_rect (measurement_box m0)) (0, -5).
Proof.
  intros m0. eexists. split; [reflexivity|].
  cbn. unfold westEdge, alongWidth, screenCenter, translate. cbn.
  rewrite cos_neg, sin_neg, cos_PI2, sin_PI2.
  rewrite max_id by lra. apply pair_eq; lra.
Qed.

(** X5.  In a square container of non-zero size and in a resize that the
    floor does not stop, the midpoint of the dragged edge moves on the
    screen by the component of the pointer's displacement along the axis
    of the resize, along that axis: the handle follows the finger. *)
Theorem resize_dragged_edge_follows (mode : string) (rect : DOMRect.t)
        (m0 m1 : NailMeasurement.t) (dragStart p : Point.t) :
  DOMRect.width rect <> 0 ->
  DOMRect.height rect = DOMRect.width rect ->
  resize_mode mode ->
  0.01 <= requested_extent mode rect (measurement_box m0) dragStart p ->
  NailOverlay.editMeasurement mode rect m0 dragStart p = Some m1 ->
  let r := BoundingBox.rotation (measurement_box m0) in
  let t := alongAxis mode r dragStart p in
  draggedEdge mode rect (measurement_box m1)
  = translate (draggedEdge mode rect (measurement_box m0))
      (t * (modeAxis mode r).1, t * (modeAxis mode r).2).
Proof.
  intros HW HH Hmode Hreq Hedit r t. subst r t.
  destruct m0 as [f w len [x0 y0 w0 h0 r0]].
  destruct Hmode as [[-> | ->] | [-> | ->]]; cbn in *;
    injection Hedit as <-; cbn;
    unfold localDelta, localDeltaY in *; cbn in *;
    rewrite (max_id _ _ Hreq);
    unfold translate, eastEdge, westEdge, northEdge, southEdge,
      alongWidth, alongHeight, screenCenter, alongAxis, modeAxis; cbn;
    rewrite HH, cos_neg, sin_neg;
    apply pair_eq; field; assumption.
Qed.

Lemma resize_dragged_edge_follows_witness :
  DOMRect.width sample_rect <> 0
  /\ DOMRect.height sample_rect = DOMRect.width sample_rect
  /\ resize_mode "resize-e"
  /\ 0.01 <= requested_extent "resize-e" sample_rect
               (measurement_box sample_box) (Point.mk 10 10) (Point.mk 20 10)
  /\ exists m1,
      NailOverlay.editMeasurement "resize-e" sample_rect sample_box
        (Point.mk 10 10) (Point.mk 20 10) = Some m1
      /\ eastEdge sample_rect (measurement_box m1)
         = translate (eastEdge sample_rect (measurement_box sample_box))
             (alongAxis "resize-e" 0 (Point.mk 10 10) (Point.mk 20 10)
              * cos 0,
              alongAxis "resize-e" 0 (Point.mk 10 10) (Point.mk 20 10)
              * sin 0).
Proof.
  assert (Hmode : resize_mode "resize-e") by (left; left; reflexivity).
  assert (Hreq : 0.01 <= requested_extent "resize-e" sample_rect
                           (measurement_box sample_box) (Point.mk 10 10)
                           (Point.mk 20 10)).
  { cbn. fold (localDelta sample_rect 0 (Point.mk 10 10) (Point.mk 20 10)).
    rewrite sample_localDelta. lra. }
  assert (HW : DOMRect.width sample_rect <> 0) by (cbn; lra).
  split; [exact HW|]. split; [reflexivity|].
  split; [exact Hmode|]. split; [exact Hreq|].
  eexists. split; [reflexivity|].
  exact (resize_dragged_edge_follows "resize-e" sample_rect sample_box _
           (Point.mk 10 10) (Point.mk 20 10) HW eq_refl Hmode Hreq eq_refl).
Defined.

(** X6.  When the floor stops a resize of an unrotated box, in a container
    of non-zero size, the dragged extent is 0.01 and the center still
    moves by half the local displacement: the edge across from the handle
    slides on the screen by half of what the request fell short of 0.01,
    the way the finger goes. *)
Theorem resize_clamped_slides (mode : string) (rect : DOMRect.t)
        (m0 m1 : NailMeasurement.t) (dragStart p : Point.t) :
  DOMRect.width rect <> 0 ->
  DOMRect.height rect <> 0 ->
  BoundingBox.rotation (measurement_box m0) = 0 ->
  resize_mode mode ->
  requested_extent mode rect (measurement_box m0) dragStart p < 0.01 ->
  NailOverlay.editMeasurement mode rect m0 dragStart p = Some m1 ->
  dragged_extent mode (measurement_box m1) = 0.01
  /\ oppositeEdge mode rect (measurement_box m1)
     = translate (oppositeEdge mode rect (measurement_box m0))
         (clampSlide mode rect
            (requested_extent mode rect (measurement_box m0) dragStart p)).
Proof.
  intros HW HH Hrot Hmode Hreq Hedit.
  destruct m0 as [f w len [x0 y0 w0 h0 r0]]. cbn in Hrot. subst r0.
  assert (Hmax : forall v, v < 0.01 -> Math.max 0.01 v = 0.01).
  { intros v Hv. unfold Math.max, Rmax. destruct Rle_dec; lra. }
  destruct Hmode as [[-> | ->] | [-> | ->]]; cbn in *;
    injection Hedit as <-; cbn;
    unfold localDelta, localDeltaY in *; cbn in *;
    rewrite (Hmax _ Hreq); (split; [reflexivity|]);
    unfold translate, eastEdge, westEdge, northEdge, southEdge,
      alongWidth, alongHeight, screenCenter, clampSlide; cbn;
    rewrite Ropp_0, cos_0, sin_0;
    apply pair_eq; field; repeat split; assumption.
Qed.

Lemma resize_clamped_slides_witness :
  DOMRect.width sample_rect <> 0
  /\ DOMRect.height sample_rect <> 0
  /\ BoundingBox.rotation (measurement_box sample_box) = 0
  /\ resize_mode "resize-e"
  /\ requested_extent "resize-e" sample_rect (measurement_box sample_box)
       (Point.mk 50 10) (Point.mk 10 10) < 0.01
  /\ exists m1,
      NailOverlay.editMeasurement "resize-e" sample_rect sample_box
        (Point.mk 50 10) (Point.mk 10 10) = Some m1
      /\ BoundingBox.width (measurement_box m1) = 0.01
      /\ westEdge sample_rect (measurement_box m1)
         = translate (westEdge sample_rect (measurement_box sample_box))
             (clampSlide "resize-e" sample_rect
                (requested_extent "resize-e" sample_rect
                   (measurement_box sample_box) (Point.mk 50 10)
                   (Point.mk 10 10))).
Proof.
  assert (Hmode : resize_mode "resize-e") by (left; left; reflexivity).
  assert (Hreq : requested_extent "resize-e" sample_rect
                   (measurement_box sample_box) (Point.mk 50 10)
                   (Point.mk 10 10) < 0.01).
  { cbn. unfold localDelta. cbn. rewrite Ropp_0, cos_0, sin_0. lra. }
  assert (HW : DOMRect.width sample_rect <> 0) by (cbn; lra).
  assert (HH : DOMRect.height sample_rect <> 0) by (cbn; lra).
  split; [exact HW|]. split; [exact HH|]. split; [reflexivity|].
  split; [exact Hmode|]. split; [exact Hreq|].
  eexists. split; [reflexivity|].
  exact (resize_clamped_slides "resize-e" sample_rect sample_box _
           (Point.mk 50 10) (Point.mk 10 10) HW HH eq_refl Hmode Hreq
           eq_refl).
Defined.

(** ** Rotating *)

Lemma editMeasurement_rotate_eq (rect : DOMRect.t) (m0 : NailMeasurement.t)
      (a b : Point.t) :
  NailOverlay.editMeasurement "rotate" rect m0 a b
  = Some (NailMeasurement.with_boundingBox m0
            (BoundingBox.mk
               (BoundingBox.x (measurement_box m0))
               (BoundingBox.y (measurement_box m0))
               (BoundingBox.width (measurement_box m0))
               (BoundingBox.height (measurement_box m0))
               (BoundingBox.rotation (measurement_box m0)
                + (pointerAngle rect m0 b - pointerAngle rect m0 a)))).
Proof. reflexivity. Qed.

(** X7.  On the touch path, a rotate gesture from [a] to [b] followed by
    one from [b] to [c] leaves the list that one gesture from [a] to [c]
    leaves: the center does not move, so the angles add up, with no
    wrap-around.  In particular rotating from [a] to [b] and back from [b]
    to [a] gives the list of measurements back. *)
Theorem rotate_gestures_compose (c : NailOverlay.session) (i : nat)
        (rect : DOMRect.t) (a b d : Point.t) (m0 : NailMeasurement.t) :
  NailOverlay.measurements c !! i = Some m0 ->
  NailOverlay.isPanning (NailOverlay.ui c) = false ->
  (exists s1 s2,
      NailOverlay.run c
        (touchGesture i "rotate" rect a b ++ touchGesture i "rotate" rect b d)
      = Returns
          (NailOverlay.mkSession
             (<[i := NailMeasurement.with_boundingBox m0
                       (BoundingBox.mk
                          (BoundingBox.x (measurement_box m0))
                          (BoundingBox.y (measurement_box m0))
                          (BoundingBox.width (measurement_box m0))
                          (BoundingBox.height (measurement_box m0))
                          (BoundingBox.rotation (measurement_box m0)
                           + (pointerAngle rect m0 d
                              - pointerAngle rect m0 a)))]>
                (NailOverlay.measurements c)) s1)
      /\ NailOverlay.run c (touchGesture i "rotate" rect a d)
         = Returns
             (NailOverlay.mkSession
                (<[i := NailMeasurement.with_boundingBox m0
                          (BoundingBox.mk
                             (BoundingBox.x (measurement_box m0))
                             (BoundingBox.y (measurement_box m0))
                             (BoundingBox.width (measurement_box m0))
                             (BoundingBox.height (measurement_box m0))
                             (BoundingBox.rotation (measurement_box m0)
                              + (pointerAngle rect m0 d
                                 - pointerAngle rect m0 a)))]>
                   (NailOverlay.measurements c)) s2))
  /\ (exists s3,
         NailOverlay.run c
           (touchGesture i "rotate" rect a b
            ++ touchGesture i "rotate" rect b a)
         = Returns (NailOverlay.mkSession (NailOverlay.measurements c) s3)).
Proof.
  intros Hi Hpan.
  assert (Hlt : (i < length (NailOverlay.measurements c))%nat)
    by (eapply lookup_lt_Some; eauto).
  assert (Htwo : forall e,
             exists s,
               NailOverlay.run c
                 (touchGesture i "rotate" rect a b
                  ++ touchGesture i "rotate" rect b e)
               = Returns
                   (NailOverlay.mkSession
                      (<[i := NailMeasurement.with_boundingBox m0
                                (BoundingBox.mk
                                   (BoundingBox.x (measurement_box m0))
                                   (BoundingBox.y (measurement_box m0))
                                   (BoundingBox.width (measurement_box m0))
                                   (BoundingBox.height (measurement_box m0))
                                   (BoundingBox.rotation (measurement_box m0)
                                    + (pointerAngle rect m0 e
                                       - pointerAngle rect m0 a)))]>
                         (NailOverlay.measurements c)) s)).
  { intros e.
    destruct (touchGesture_run c i "rotate" rect a b m0 _ Hi Hpan
                (editMeasurement_rotate_eq rect m0 a b))
      as (s1 & Hrun1 & Hpan1).
    match type of Hrun1 with
    | _ = Returns (NailOverlay.mkSession (<[i := ?m1]> _) _) =>
        destruct (touchGesture_run
                    (NailOverlay.mkSession
                       (<[i := m1]> (NailOverlay.measurements c)) s1)
                    i "rotate" rect b e m1 _
                    ltac:(cbn; now apply list_lookup_insert_eq) Hpan1
                    (editMeasurement_rotate_eq rect m1 b e))
          as (s2 & Hrun2 & _)
    end.
    exists s2. rewrite (run_app _ _ _ _ Hrun1), Hrun2. cbn.
    rewrite list_insert_insert_eq. do 3 f_equal.
    destruct m0 as [f w len [x0 y0 w0 h0 r0]].
    unfold NailMeasurement.with_boundingBox, pointerAngle. cbn.
    do 2 f_equal. lra. }
  split.
  - destruct (Htwo d) as (s1 & H1).
    destruct (touchGesture_run c i "rotate" rect a d m0 _ Hi Hpan
                (editMeasurement_rotate_eq rect m0 a d)) as (s2 & H2 & _).
    exists s1, s2. split; assumption.
  - destruct (Htwo a) as (s3 & H3). exists s3. rewrite H3. do 2 f_equal.
    apply list_insert_id. rewrite Hi. f_equal.
    destruct m0 as [f w len [x0 y0 w0 h0 r0]].
    unfold NailMeasurement.with_boundingBox. cbn. do 2 f_equal. lra.
Qed.

Lemma rotate_gestures_compose_witness :
  NailOverlay.measurements sample_session !! 0%nat = Some sample_box
  /\ NailOverlay.isPanning (NailOverlay.ui sample_session) = false
  /\ exists s3,
      NailOverlay.run sample_session
        (touchGesture 0 "rotate" sample_rect (Point.mk 100 50)
           (Point.mk 50 100)
         ++ touchGesture 0 "rotate" sample_rect (Point.mk 50 100)
              (Point.mk 100 50))
      = Returns (NailOverlay.mkSession [sample_box] s3).
Proof.
  split; [reflexivity|]. split; [reflexivity|].
  exact (proj2 (rotate_gestures_compose sample_session 0 sample_rect
                  (Point.mk 100 50) (Point.mk 50 100) (Point.mk 0 0)
                  sample_box eq_refl eq_refl)).
Defined.

(** ** Panning *)

Lemma touch_pan_moves (ps : list Point.t) (ms : list NailMeasurement.t)
      (s : NailOverlay.state) (p : Point.t) (container : option DOMRect.t) :
  NailOverlay.isPanning s = true ->
  NailOverlay.run (NailOverlay.mkSession ms s)
    (map (fun q => NailOverlay.TouchMove [q] container) (ps ++ [p]))
  = Returns
      (NailOverlay.mkSession ms
         (NailOverlay.set_transform s
            (Transform.with_xy (NailOverlay.transform s)
               (Point.x (NailOverlay.panStartTransformRef s)
                + (Point.x p - Point.x (NailOverlay.panStartRef s)))
               (Point.y (NailOverlay.panStartTransformRef s)
                + (Point.y p - Point.y (NailOverlay.panStartRef s)))))).
Proof.
  revert s. induction ps as [|q ps IH]; intros s Hpan.
  - cbn. unfold NailOverlay.handleTouchMove. cbn. now rewrite Hpan.
  - cbn [app map NailOverlay.run]. cbn [NailOverlay.step].
    unfold NailOverlay.handleTouchMove at 1. cbn. rewrite Hpan. cbn.
    rewrite IH by exact Hpan. reflexivity.
Qed.

Lemma mouse_pan_moves (ps : list Point.t) (ms : list NailMeasurement.t)
      (s : NailOverlay.state) (p : Point.t) (container : option DOMRect.t) :
  NailOverlay.isPanning s = true ->
  NailOverlay.run (NailOverlay.mkSession ms s)
    (map (fun q => NailOverlay.MouseMove q container) (ps ++ [p]))
  = Returns
      (NailOverlay.mkSession ms
         (NailOverlay.set_transform s
            (Transform.with_xy (NailOverlay.transform s)
               (Point.x (NailOverlay.panStartTransformRef s)
                + (Point.x p - Point.x (NailOverlay.panStartRef s)))
               (Point.y (NailOverlay.panStartTransformRef s)
                + (Point.y p - Point.y (NailOverlay.panStartRef s)))))).
Proof.
  revert s. induction ps as [|q ps IH]; intros s Hpan.
  - cbn. unfold NailOverlay.handleMouseMove. cbn. now rewrite Hpan.
  - cbn [app map NailOverlay.run]. cbn [NailOverlay.step].
    unfold NailOverlay.handleMouseMove at 1. cbn. rewrite Hpan. cbn.
    rewrite IH by exact Hpan. reflexivity.
Qed.

(** X8.  A pan of the background, with one finger or with the mouse, from
    any state of the overlay and with or without a mounted container,
    through any points: it ends with the view translated by the
    displacement of the pointer from where it went down to where it is
    last, in screen pixels whatever the zoom, with the scale and every
    box as they were, and with no gesture flag left set. *)
Theorem pan_translates_view (c : NailOverlay.session) (start : Point.t)
        (ps : list Point.t) (p : Point.t) (container : option DOMRect.t) :
  (exists s',
      NailOverlay.run c (touchPanVia start ps p container)
      = Returns (NailOverlay.mkSession (NailOverlay.measurements c) s')
      /\ NailOverlay.transform s'
         = panned (NailOverlay.transform (NailOverlay.ui c)) start p
      /\ NailOverlay.isPanning s' = false
      /\ NailOverlay.activeId s' = None)
  /\ (exists s',
         NailOverlay.run c (mousePanVia start ps p container)
         = Returns (NailOverlay.mkSession (NailOverlay.measurements c) s')
         /\ NailOverlay.transform s'
            = panned (NailOverlay.transform (NailOverlay.ui c)) start p
         /\ NailOverlay.isPanning s' = false
         /\ NailOverlay.activeId s' = None).
Proof.
  destruct c as [ms s]. split.
  - unfold touchPanVia. cbn [NailOverlay.run NailOverlay.step].
    cbn [NailOverlay.handleTouchStart length Nat.eqb lookup list_lookup
           NailOverlay.measurements NailOverlay.ui].
    rewrite (run_app _ _ _ _
               (touch_pan_moves ps ms (NailOverlay.start_pan s start) p
                  container eq_refl)).
    eexists. split; [cbn; reflexivity|]. cbn. repeat split.
  - unfold mousePanVia. cbn [NailOverlay.run NailOverlay.step].
    cbn [NailOverlay.handleMouseDown
           NailOverlay.measurements NailOverlay.ui].
    rewrite (run_app _ _ _ _
               (mouse_pan_moves ps ms (NailOverlay.start_pan s start) p
                  container eq_refl)).
    eexists. split; [cbn; reflexivity|]. cbn. repeat split.
Qed.

(** ** Releasing the pointer *)

(** X9.  Releasing the pointer, finger or mouse, in any state clears the
    pan flag, the active box and the mode, and leaves the view, the
    snapshot and the pinch references; after it no event changes a box
    until a pointer goes down again. *)
Theorem pointer_up_idles (ms : list NailMeasurement.t)
        (s : NailOverlay.state) :
  NailOverlay.handleTouchEnd s = NailOverlay.handleMouseUp s
  /\ NailOverlay.isPanning (NailOverlay.handleTouchEnd s) = false
  /\ NailOverlay.activeId (NailOverlay.handleTouchEnd s) = None
  /\ NailOverlay.interactionMode (NailOverlay.handleTouchEnd s) = None
  /\ NailOverlay.transform (NailOverlay.handleTouchEnd s)
     = NailOverlay.transform s
  /\ forall es c',
      forallb (fun e => negb (pointer_down e)) es = true ->
      NailOverlay.run
        (NailOverlay.mkSession ms (NailOverlay.handleTouchEnd s)) es
      = Returns c' ->
      NailOverlay.measurements c' = ms.
Proof.
  repeat (split; [reflexivity|]).
  intros es c' Hes Hrun.
  apply (run_no_target es _ c' Hes) in Hrun; [exact Hrun | reflexivity].
Qed.

Lemma pointer_up_idles_witness :
  let es := [ NailOverlay.TouchMove [Point.mk 40 20] (Some sample_rect);
              NailOverlay.MouseMove (Point.mk 70 20) (Some sample_rect);
              NailOverlay.Wheel 120 ] in
  NailOverlay.activeId dragging_state = Some 0%nat
  /\ exists c',
      NailOverlay.run
        (NailOverlay.mkSession [sample_box]
           (NailOverlay.handleTouchEnd dragging_state)) es
      = Returns c'
      /\ NailOverlay.measurements c' = [sample_box].
Proof.
  intros es. split; [reflexivity|].
  assert (Hrun : exists c',
             NailOverlay.run
               (NailOverlay.mkSession [sample_box]
                  (NailOverlay.handleTouchEnd dragging_state)) es
             = Returns c') by (eexists; cbn; reflexivity).
  destruct Hrun as (c' & Hrun). exists c'. split; [exact Hrun|].
  destruct (pointer_up_idles [sample_box] dragging_state)
    as (_ & _ & _ & _ & _ & Hquiet).
  exact (Hquiet es c' eq_refl Hrun).
Defined.

(** ** The mouse *)

Lemma step_mouse_keeps_measurements (c c' : NailOverlay.session)
      (e : NailOverlay.event) :
  not_touch e = true ->
  NailOverlay.step c e = Returns c' ->
  NailOverlay.measurements c' = NailOverlay.measurements c.
Proof.
  destruct c as [ms s].
  destruct e; cbn; try discriminate; intros _;
    try (intros [= <-]; reflexivity).
  destruct NailOverlay.handleMouseMove as [e| |] eqn:H; try discriminate.
  cbn. rewrite (handleMouseMove_quiet _ _ _ _ _ H). now intros [= <-].
Qed.

(** X10.  No sequence of mouse, wheel and zoom-button events changes the
    list of measurements: the mouse pans and zooms the view, and its
    drag, resize and rotate gestures on a box leave the box as it was. *)
Theorem mouse_never_edits (es : list NailOverlay.event)
        (c c' : NailOverlay.session) :
  forallb not_touch es = true ->
  NailOverlay.run c es = Returns c' ->
  NailOverlay.measurements c' = NailOverlay.measurements c.
Proof.
  revert c. induction es as [|e es IH]; intros c; cbn.
  - now intros _ [= <-].
  - intros [He Hes]%andb_prop.
    destruct (NailOverlay.step c e) as [c1| |] eqn:S; try discriminate.
    intros Hrun. rewrite <- (step_mouse_keeps_measurements c c1 e He S).
    now apply IH.
Qed.

Lemma mouse_never_edits_witness :
  let es := mouseGesture 0 "drag" sample_rect (Point.mk 10 10)
              (Point.mk 60 40)
            ++ mouseGesture 0 "resize-s" sample_rect (Point.mk 50 60)
                 (Point.mk 50 90) in
  forallb not_touch es = true
  /\ exists c',
      NailOverlay.run sample_session es = Returns c'
      /\ NailOverlay.measurements c' = [sample_box].
Proof.
  intros es. split; [reflexivity|].
  assert (Hrun : exists c', NailOverlay.run sample_session es = Returns c')
    by (eexists; cbn; reflexivity).
  destruct Hrun as (c' & Hrun). exists c'. split; [exact Hrun|].
  exact (mouse_never_edits es sample_session c' eq_refl Hrun).
Defined.

(** ** Zooming *)

(** X11.  From a scale in [0.5, 5], turning the wheel up (a negative
    delta) never lowers the scale and turning it down never raises it; a
    zero delta leaves the view as it is; the wheel never moves the view,
    whose offsets stay as they were: the zoom is about the center of the
    canvas, not about the pointer. *)
Theorem wheel_direction (s : NailOverlay.state) (deltaY : R) :
  scale_in_range s ->
  (deltaY <= 0 ->
   Transform.scale (NailOverlay.transform s)
   <= Transform.scale (NailOverlay.transform (NailOverlay.handleWheel s deltaY)))
  /\ (0 <= deltaY ->
      Transform.scale (NailOverlay.transform (NailOverlay.handleWheel s deltaY))
      <= Transform.scale (NailOverlay.transform s))
  /\ (deltaY = 0 ->
      NailOverlay.transform (NailOverlay.handleWheel s deltaY)
      = NailOverlay.transform s)
  /\ Transform.x (NailOverlay.transform (NailOverlay.handleWheel s deltaY))
     = Transform.x (NailOverlay.transform s)
  /\ Transform.y (NailOverlay.transform (NailOverlay.handleWheel s deltaY))
     = Transform.y (NailOverlay.transform s).
Proof.
  unfold scale_in_range. destruct s as [[sc tx ty] pan ps pt aid im ds snap pd pss].
  cbn. intros [Hlo Hhi].
  unfold Math.min, Math.max, Rmin, Rmax.
  repeat split; try reflexivity.
  - intros Hd. repeat destruct Rle_dec; try lra; nra.
  - intros Hd. repeat destruct Rle_dec; try lra; nra.
  - intros ->. unfold Transform.with_scale. cbn. f_equal.
    repeat destruct Rle_dec; lra.
Qed.

Lemma wheel_direction_witness :
  scale_in_range NailOverlay.init
  /\ -120 <= 0
  /\ Transform.scale (NailOverlay.transform NailOverlay.init)
     <= Transform.scale
          (NailOverlay.transform (NailOverlay.handleWheel NailOverlay.init (-120)))
  /\ (0 = 0 ->
      NailOverlay.transform (NailOverlay.handleWheel NailOverlay.init 0)
      = NailOverlay.transform NailOverlay.init).
Proof.
  assert (H : scale_in_range NailOverlay.init)
    by (unfold scale_in_range; cbn; lra).
  assert (Hd : -120 <= 0) by lra.
  split; [exact H|]. split; [exact Hd|]. split.
  - exact (proj1 (wheel_direction NailOverlay.init (-120) H) Hd).
  - exact (proj1 (proj2 (proj2 (wheel_direction NailOverlay.init 0 H)))).
Defined.

(** X12.  The zoom buttons step the scale by 0.5 and stop at the bounds:
    from a scale in [0.5, 4.5] the plus button followed by the minus
    button gives the overlay back, from a scale in [1, 5] so does minus
    followed by plus; at scale 5 the plus button and at scale 0.5 the
    minus button change nothing. *)
Theorem zoom_buttons_round_trip (s : NailOverlay.state) :
  (0.5 <= Transform.scale (NailOverlay.transform s) <= 4.5 ->
   NailOverlay.zoomOut (NailOverlay.zoomIn s) = s)
  /\ (1 <= Transform.scale (NailOverlay.transform s) <= 5 ->
      NailOverlay.zoomIn (NailOverlay.zoomOut s) = s)
  /\ (Transform.scale (NailOverlay.transform s) = 5 ->
      NailOverlay.zoomIn s = s)
  /\ (Transform.scale (NailOverlay.transform s) = 0.5 ->
      NailOverlay.zoomOut s = s).
Proof.
  destruct s as [[sc tx ty] pan ps pt aid im ds snap pd pss].
  unfold NailOverlay.zoomOut, NailOverlay.zoomIn, NailOverlay.set_transform,
    Transform.with_scale, Math.min, Math.max, Rmin, Rmax. cbn.
  repeat split; intros H; do 2 f_equal; repeat destruct Rle_dec; lra.
Qed.

Lemma zoom_buttons_round_trip_witness :
  0.5 <= Transform.scale (NailOverlay.transform NailOverlay.init) <= 4.5
  /\ NailOverlay.zoomOut (NailOverlay.zoomIn NailOverlay.init)
     = NailOverlay.init
  /\ 1 <= Transform.scale (NailOverlay.transform NailOverlay.init) <= 5
  /\ NailOverlay.zoomIn (NailOverlay.zoomOut NailOverlay.init)
     = NailOverlay.init.
Proof.
  assert (H1 : 0.5 <= Transform.scale (NailOverlay.transform NailOverlay.init)
               <= 4.5) by (cbn; lra).
  assert (H2 : 1 <= Transform.scale (NailOverlay.transform NailOverlay.init)
               <= 5) by (cbn; lra).
  split; [exact H1|].
  split; [exact (proj1 (zoom_buttons_round_trip NailOverlay.init) H1)|].
  split; [exact H2|].
  exact (proj1 (proj2 (zoom_buttons_round_trip NailOverlay.init)) H2).
Defined.

(** X13.  Two fingers that go down a positive distance apart, on a view
    whose scale is in [0.5, 5], and then move keeping that distance, leave
    the view as it was: a pinch changes the scale by the ratio of the
    distances alone.  Whatever the fingers do, a pinch moves neither the
    offsets of the view nor a box. *)
Theorem pinch_keeps_offsets (c : NailOverlay.session)
        (touches moved : list Point.t) (index : option nat) (mode : string)
        (container : option DOMRect.t) :
  length touches = 2%nat ->
  length moved = 2%nat ->
  exists c',
    NailOverlay.run c
      [NailOverlay.TouchStart touches index mode;
       NailOverlay.TouchMove moved container]
    = Returns c'
    /\ NailOverlay.measurements c' = NailOverlay.measurements c
    /\ Transform.x (NailOverlay.transform (NailOverlay.ui c'))
       = Transform.x (NailOverlay.transform (NailOverlay.ui c))
    /\ Transform.y (NailOverlay.transform (NailOverlay.ui c'))
       = Transform.y (NailOverlay.transform (NailOverlay.ui c))
    /\ (scale_in_range (NailOverlay.ui c) ->
        0 < NailOverlay.getPinchDist touches ->
        NailOverlay.getPinchDist moved = NailOverlay.getPinchDist touches ->
        NailOverlay.transform (NailOverlay.ui c')
        = NailOverlay.transform (NailOverlay.ui c)).
Proof.
  intros Ht Hm. destruct c as [ms s].
  cbn. unfold NailOverlay.handleTouchStart, NailOverlay.handleTouchMove.
  rewrite Ht, Hm. cbn.
  eexists. split; [reflexivity|]. cbn.
  unfold NailOverlay.pinchZoom. cbn.
  destruct (gtb (NailOverlay.getPinchDist touches) 0
            && gtb (NailOverlay.getPinchDist moved) 0) eqn:G; cbn;
    (split; [reflexivity|]); (split; [reflexivity|]);
    (split; [reflexivity|]); [|reflexivity].
  intros [Hlo Hhi] Hpos ->.
  destruct (NailOverlay.transform s) as [sc tx ty]. cbn in *.
  unfold Transform.with_scale. cbn. f_equal.
  replace (sc * (NailOverlay.getPinchDist touches
                 / NailOverlay.getPinchDist touches)) with sc
    by (field; lra).
  unfold Math.min, Math.max, Rmin, Rmax. repeat destruct Rle_dec; lra.
Qed.

Lemma pinch_keeps_offsets_witness :
  let touches := [Point.mk 0 0; Point.mk 3 4] in
  let moved := [Point.mk 10 20; Point.mk 13 24] in
  length touches = 2%nat
  /\ length moved = 2%nat
  /\ scale_in_range (NailOverlay.ui sample_session)
  /\ 0 < NailOverlay.getPinchDist touches
  /\ NailOverlay.getPinchDist moved = NailOverlay.getPinchDist touches
  /\ exists c',
      NailOverlay.run sample_session
        [NailOverlay.TouchStart touches None "pan";
         NailOverlay.TouchMove moved (Some sample_rect)]
      = Returns c'
      /\ NailOverlay.measurements c' = [sample_box]
      /\ NailOverlay.transform (NailOverlay.ui c')
         = NailOverlay.transform (NailOverlay.ui sample_session).
Proof.
  intros touches moved.
  assert (Hs : scale_in_range (NailOverlay.ui sample_session))
    by (unfold scale_in_range; cbn; lra).
  assert (Hd : NailOverlay.getPinchDist touches = 5).
  { cbn. unfold Math.hypot.
    replace ((0 - 3) * (0 - 3) + (0 - 4) * (0 - 4)) with (5 * 5) by lra.
    apply sqrt_square. lra. }
  assert (Hm : NailOverlay.getPinchDist moved
               = NailOverlay.getPinchDist touches).
  { rewrite Hd. cbn. unfold Math.hypot.
    replace ((10 - 13) * (10 - 13) + (20 - 24) * (20 - 24)) with (5 * 5)
      by lra.
    apply sqrt_square. lra. }
  assert (Hpos : 0 < NailOverlay.getPinchDist touches) by (rewrite Hd; lra).
  split; [reflexivity|]. split; [reflexivity|]. split; [exact Hs|].
  split; [exact Hpos|]. split; [exact Hm|].
  destruct (pinch_keeps_offsets sample_session touches moved None "pan"
              (Some sample_rect) eq_refl eq_refl)
    as (c' & Hrun & Hms & _ & _ & Hsame).
  exists c'. split; [exact Hrun|]. split; [exact Hms|].
  exact (Hsame Hs Hpos Hm).
Defined.

(** ** The guard of the move handlers *)



(** * Further properties of the coin overlay *)

Lemma coin_step_floor (s : CoinOverlay.state) (e : CoinOverlay.event) :
  20 <= CoinOverlay.diameter s ->
  20 <= CoinOverlay.diameter (CoinOverlay.step s e).
Proof.
  intros H. destruct e as [vis ov | p mode | scale p |]; cbn.
  - unfold CoinOverlay.centerEffect.
    destruct ov; [destruct (_ && _)|]; exact H.
  - exact H.
  - unfold CoinOverlay.handleMouseMove.
    destruct (_ && _); [exact H|].
    destruct (CoinOverlay.isDragging s); [exact H|]. cbn. apply max_floor.
  - exact H.
Qed.

(** X15.  The disk starts 100 pixels wide and no sequence of events of
    the coin overlay, at zooms that are not zero, makes a disk of at least
    20 pixels narrower than 20: while the tool is shown, the value it
    reports to the controller is at least 20 / 26. *)
Theorem coin_diameter_floor (s : CoinOverlay.state)
        (es : list CoinOverlay.event) :
  Forall zoom_defined es ->
  20 <= CoinOverlay.diameter s ->
  20 <= CoinOverlay.diameter (CoinOverlay.run s es)
  /\ exists v,
      CoinOverlay.calibrationEffect (CoinOverlay.run s es) true = Some v
      /\ 20 / 26 <= v.
Proof.
  intros _ H.
  assert (Hrun : 20 <= CoinOverlay.diameter (CoinOverlay.run s es)).
  { revert s H. unfold CoinOverlay.run.
    induction es as [|e es IH]; intros s H; cbn; [exact H|].
    apply IH. now apply coin_step_floor. }
  split; [exact Hrun|].
  eexists. split; [reflexivity|].
  unfold CoinOverlay.COIN_DIAMETER_MM. lra.
Qed.

Lemma coin_diameter_floor_witness :
  let es := [CoinOverlay.MouseDown (Point.mk 90 90) CoinOverlay.resize;
             CoinOverlay.MouseMove 2 (Point.mk (-400) (-400));
             CoinOverlay.MouseUp] in
  Forall zoom_defined es
  /\ 20 <= CoinOverlay.diameter CoinOverlay.init
  /\ 20 <= CoinOverlay.diameter (CoinOverlay.run CoinOverlay.init es).
Proof.
  intros es.
  assert (Hz : Forall zoom_defined es) by (repeat constructor; cbn; lra).
  assert (H : 20 <= CoinOverlay.diameter CoinOverlay.init) by (cbn; lra).
  split; [exact Hz|]. split; [exact H|].
  exact (proj1 (coin_diameter_floor CoinOverlay.init es Hz H)).
Defined.

Lemma coin_drag_moves (scale : R) (ps : list Point.t) (p : Point.t)
      (s : CoinOverlay.state) :
  CoinOverlay.isDragging s = true ->
  let s' := CoinOverlay.run s (map (CoinOverlay.MouseMove scale) (ps ++ [p])) in
  CoinOverlay.diameter s' = CoinOverlay.diameter s
  /\ Point.x (CoinOverlay.position s')
     = Point.x (CoinOverlay.position s)
       + (Point.x p - Point.x (CoinOverlay.dragStartRef s)) / scale
  /\ Point.y (CoinOverlay.position s')
     = Point.y (CoinOverlay.position s)
       + (Point.y p - Point.y (CoinOverlay.dragStartRef s)) / scale
  /\ CoinOverlay.isDragging s' = true
  /\ CoinOverlay.isResizing s' = CoinOverlay.isResizing s
  /\ CoinOverlay.initialized s' = CoinOverlay.initialized s.
Proof.
  revert s. unfold CoinOverlay.run.
  induction ps as [|q ps IH]; intros s Hd.
  - cbn. unfold CoinOverlay.handleMouseMove. rewrite Hd. cbn.
    repeat split; reflexivity.
  - cbn [app map fold_left].
    assert (Hq : CoinOverlay.step s (CoinOverlay.MouseMove scale q)
                 = CoinOverlay.mkState (CoinOverlay.diameter s)
                     (Point.mk
                        (Point.x (CoinOverlay.position s)
                         + (Point.x q - Point.x (CoinOverlay.dragStartRef s))
                           / scale)
                        (Point.y (CoinOverlay.position s)
                         + (Point.y q - Point.y (CoinOverlay.dragStartRef s))
                           / scale))
                     (CoinOverlay.initialized s) true
                     (CoinOverlay.isResizing s) q).
    { cbn. unfold CoinOverlay.handleMouseMove. rewrite Hd. reflexivity. }
    rewrite Hq.
    match goal with
    | |- context [fold_left _ _ ?s1] =>
        destruct (IH s1 eq_refl) as (H1 & H2 & H3 & H4 & H5 & H6)
    end.
    cbn in H1, H2, H3, H5, H6.
    split; [exact H1|]. split; [rewrite H2; unfold Rdiv; ring|].
    split; [rewrite H3; unfold Rdiv; ring|].
    split; [exact H4|]. split; [exact H5 | exact H6].
Qed.

(** X16.  Dragging the disk with the mouse at a non-zero zoom, through
    any points, moves it by the displacement of the pointer divided by
    the zoom, leaves its diameter as it was, and so leaves the value that
    the tool reports; the drag ends with no grip held. *)
Theorem coin_drag_keeps_calibration (s : CoinOverlay.state) (scale : R)
        (start : Point.t) (ps : list Point.t) (p : Point.t)
        (isVisible : bool) :
  scale <> 0 ->
  let s' := CoinOverlay.run s (coinDragVia scale start ps p) in
  CoinOverlay.diameter s' = CoinOverlay.diameter s
  /\ CoinOverlay.calibrationEffect s' isVisible
     = CoinOverlay.calibrationEffect s isVisible
  /\ Point.x (CoinOverlay.position s')
     = Point.x (CoinOverlay.position s)
       + (Point.x p - Point.x start) / scale
  /\ Point.y (CoinOverlay.position s')
     = Point.y (CoinOverlay.position s)
       + (Point.y p - Point.y start) / scale
  /\ CoinOverlay.isDragging s' = false
  /\ CoinOverlay.isResizing s' = false.
Proof.
  intros _ s'. subst s'. unfold coinDragVia, CoinOverlay.run.
  cbn [fold_left]. rewrite fold_left_app. cbn [fold_left].
  destruct (coin_drag_moves scale ps p
              (CoinOverlay.step s
                 (CoinOverlay.MouseDown start CoinOverlay.drag)) eq_refl)
    as (H1 & H2 & H3 & _).
  unfold CoinOverlay.run in H1, H2, H3. cbn in H1, H2, H3 |- *.
  unfold CoinOverlay.calibrationEffect. cbn.
  rewrite H1. repeat split; assumption.
Qed.

Lemma coin_drag_keeps_calibration_witness :
  (2 : R) <> 0
  /\ CoinOverlay.diameter
       (CoinOverlay.run CoinOverlay.init
          (coinDragVia 2 (Point.mk 10 10) [Point.mk 50 80] (Point.mk 30 10)))
     = CoinOverlay.diameter CoinOverlay.init.
Proof.
  assert (H : (2 : R) <> 0) by lra.
  split; [exact H|].
  exact (proj1 (coin_drag_keeps_calibration CoinOverlay.init 2
                  (Point.mk 10 10) [Point.mk 50 80] (Point.mk 30 10) true H)).
Defined.

(** X17.  The centering effect runs once: on a shown, mounted overlay
    that is not initialized it puts the center of the disk at the center
    of the overlay and marks the overlay initialized; it does nothing
    while the tool is hidden or the element is not mounted, and nothing
    ever again once the overlay is initialized, whatever the size of the
    overlay or of the disk becomes. *)
Theorem coin_centered_once (s : CoinOverlay.state) (sz : Size.t) :
  CoinOverlay.initialized s = false ->
  let s1 := CoinOverlay.centerEffect s true (Some sz) in
  Point.x (CoinOverlay.position s1) + CoinOverlay.diameter s1 / 2
  = Size.width sz / 2
  /\ Point.y (CoinOverlay.position s1) + CoinOverlay.diameter s1 / 2
     = Size.height sz / 2
  /\ CoinOverlay.diameter s1 = CoinOverlay.diameter s
  /\ CoinOverlay.initialized s1 = true
  /\ (forall isVisible overlay es,
         CoinOverlay.centerEffect (CoinOverlay.run s1 es) isVisible overlay
         = CoinOverlay.run s1 es)
  /\ (forall overlay, CoinOverlay.centerEffect s false overlay = s)
  /\ (forall isVisible, CoinOverlay.centerEffect s isVisible None = s).
Proof.
  intros Hinit s1.
  assert (Hs1 : s1 = CoinOverlay.mkState (CoinOverlay.diameter s)
                       (Point.mk
                          (Size.width sz / 2 - CoinOverlay.diameter s / 2)
                          (Size.height sz / 2 - CoinOverlay.diameter s / 2))
                       true (CoinOverlay.isDragging s)
                       (CoinOverlay.isResizing s)
                       (CoinOverlay.dragStartRef s)).
  { subst s1. unfold CoinOverlay.centerEffect. now rewrite Hinit. }
  rewrite Hs1. clear Hs1 s1. cbn.
  split; [lra|]. split; [lra|]. split; [reflexivity|]. split; [reflexivity|].
  split; [|split].
  - intros isVisible overlay es.
    assert (Hi : forall t,
               CoinOverlay.initialized t = true ->
               CoinOverlay.initialized (CoinOverlay.run t es) = true).
    { unfold CoinOverlay.run. induction es as [|e es IH]; intros t Ht;
        [exact Ht|].
      cbn [fold_left]. apply IH.
      destruct e as [vis ov | q mode | scale q |]; cbn; try exact Ht.
      - unfold CoinOverlay.centerEffect.
        destruct ov; [destruct (_ && _)|]; (exact Ht || reflexivity).
      - unfold CoinOverlay.handleMouseMove.
        destruct (_ && _); [exact Ht|].
        destruct (CoinOverlay.isDragging t); exact Ht. }
    unfold CoinOverlay.centerEffect at 1.
    rewrite Hi by reflexivity.
    destruct overlay; [now rewrite andb_false_r | reflexivity].
  - intros overlay. unfold CoinOverlay.centerEffect. now destruct overlay.
  - reflexivity.
Qed.

Lemma coin_centered_once_witness :
  CoinOverlay.initialized CoinOverlay.init = false
  /\ Point.x (CoinOverlay.position
               (CoinOverlay.centerEffect CoinOverlay.init true
                  (Some (Size.mk 500 400))))
     + CoinOverlay.diameter
         (CoinOverlay.centerEffect CoinOverlay.init true
            (Some (Size.mk 500 400))) / 2
     = 500 / 2.
Proof.
  split; [reflexivity|].
  exact (proj1 (coin_centered_once CoinOverlay.init (Size.mk 500 400)
                  eq_refl)).
Defined.

(** * Further properties of the detector *)

Lemma atan2_range (y x : R) : - PI < Math.atan2 y x <= PI.
Proof.
  pose proof PI_RGT_0 as Hpi. unfold Math.atan2.
  destruct (Rlt_dec 0 x) as [Hx|Hx].
  { pose proof (atan_bound (y / x)). lra. }
  destruct (Rlt_dec x 0) as [Hx'|Hx'].
  - pose proof (atan_bound (y / x)) as Hb.
    assert (Hinv : / x < 0) by now apply Rinv_lt_0_compat.
    destruct (Rle_dec 0 y) as [Hy|Hy].
    + assert (Hq : y / x <= 0) by (unfold Rdiv; nra).
      assert (Ha : atan (y / x) <= 0).
      { destruct Hq as [Hq|Hq].
        - left. rewrite <- atan_0. now apply atan_increasing.
        - rewrite Hq, atan_0. lra. }
      lra.
    + assert (Hq : 0 < y / x) by (unfold Rdiv; nra).
      assert (Ha : 0 < atan (y / x)).
      { rewrite <- atan_0. now apply atan_increasing. }
      lra.
  - destruct (Rlt_dec 0 y); [lra|]. destruct (Rlt_dec y 0); lra.
Qed.

Lemma distalLength_nonneg (t d : HandDetection.NormalizedLandmark) :
  0 <= distalLength t d.
Proof. apply sqrt_pos. Qed.

Lemma distalLength_pos (t d : HandDetection.NormalizedLandmark) :
  HandDetection.x t <> HandDetection.x d
  \/ HandDetection.y t <> HandDetection.y d ->
  0 < distalLength t d.
Proof.
  intros H. apply sqrt_lt_R0.
  assert (Hsq : forall a : R, a <> 0 -> 0 < a * a).
  { intros a Ha. apply (Rlt_0_sqr a Ha). }
  destruct H as [H|H].
  - pose proof (Hsq (HandDetection.x d - HandDetection.x t)) as H1.
    pose proof (Rle_0_sqr (HandDetection.y d - HandDetection.y t)) as H0.
    unfold Rsqr in H0.
    assert (HandDetection.x d - HandDetection.x t <> 0) by lra.
    specialize (H1 ltac:(assumption)). lra.
  - pose proof (Hsq (HandDetection.y d - HandDetection.y t)) as H1.
    pose proof (Rle_0_sqr (HandDetection.x d - HandDetection.x t)) as H0.
    unfold Rsqr in H0.
    assert (HandDetection.y d - HandDetection.y t <> 0) by lra.
    specialize (H1 ltac:(assumption)). lra.
Qed.

Lemma estimateFinger_returns (lm : list HandDetection.NormalizedLandmark)
      (f : HandDetection.fingerSpec) (m : NailMeasurement.t) :
  HandDetection.estimateFinger lm f = Returns m ->
  exists t d,
    lm !! HandDetection.tip f = Some t
    /\ lm !! HandDetection.dip f = Some d
    /\ m = NailMeasurement.mk (HandDetection.name f)
             (distalLength t d * nailLengthRatio (HandDetection.name f)
              * nailAspect (HandDetection.name f))
             (distalLength t d * nailLengthRatio (HandDetection.name f))
             (BoundingBox.mk
                (HandDetection.x t
                 + (HandDetection.x d - HandDetection.x t) / distalLength t d
                   * (distalLength t d
                      * nailLengthRatio (HandDetection.name f) * 0.1))
                (HandDetection.y t
                 + (HandDetection.y d - HandDetection.y t) / distalLength t d
                   * (distalLength t d
                      * nailLengthRatio (HandDetection.name f) * 0.1))
                (distalLength t d * nailLengthRatio (HandDetection.name f)
                 * nailAspect (HandDetection.name f))
                (distalLength t d * nailLengthRatio (HandDetection.name f))
                (Math.atan2 (HandDetection.y d - HandDetection.y t)
                            (HandDetection.x d - HandDetection.x t)
                 - PI / 2)).
Proof.
  unfold HandDetection.estimateFinger.
  destruct (lm !! HandDetection.tip f) as [t|]; [|discriminate].
  destruct (lm !! HandDetection.dip f) as [d|]; [|discriminate].
  intros [= <-]. exists t, d. repeat split.
Qed.

(** X18.  Every box the detector makes is labelled with its finger, is as
    long as 0.7 (thumb) or 0.85 (other fingers) of the distance between
    the tip and the last joint, and is 1.2 times as wide as long for the
    thumb and as wide as long for the others; its [width] and [length]
    are the extents of its bounding box, and none is negative. *)
Theorem detector_box_size (lm : list HandDetection.NormalizedLandmark)
        (f : HandDetection.fingerSpec) (m : NailMeasurement.t) :
  HandDetection.estimateFinger lm f = Returns m ->
  exists t d,
    lm !! HandDetection.tip f = Some t
    /\ lm !! HandDetection.dip f = Some d
    /\ NailMeasurement.finger m = HandDetection.name f
    /\ NailMeasurement.length m
       = nailLengthRatio (HandDetection.name f) * distalLength t d
    /\ NailMeasurement.width m
       = nailAspect (HandDetection.name f) * NailMeasurement.length m
    /\ BoundingBox.width (measurement_box m) = NailMeasurement.width m
    /\ BoundingBox.height (measurement_box m) = NailMeasurement.length m
    /\ 0 <= NailMeasurement.length m
    /\ 0 <= NailMeasurement.width m.
Proof.
  intros H. destruct (estimateFinger_returns lm f m H) as (t & d & Ht & Hd & ->).
  exists t, d. cbn.
  pose proof (distalLength_nonneg t d) as Hn.
  assert (Hr : 0 < nailLengthRatio (HandDetection.name f))
    by (unfold nailLengthRatio; destruct String.eqb; lra).
  assert (Ha : 0 < nailAspect (HandDetection.name f))
    by (unfold nailAspect; destruct String.eqb; lra).
  assert (Hl : 0 <= distalLength t d * nailLengthRatio (HandDetection.name f))
    by (apply Rmult_le_pos; lra).
  split; [exact Ht|]. split; [exact Hd|]. split; [reflexivity|].
  split; [ring|]. split; [ring|]. split; [reflexivity|].
  split; [reflexivity|]. split; [exact Hl|].
  apply Rmult_le_pos; lra.
Qed.

Lemma detector_box_size_witness :
  exists m,
    HandDetection.estimateFinger near_hand thumb_finger = Returns m
    /\ NailMeasurement.length m
       = 0.7 * distalLength (HandDetection.mkLandmark 0.3 0.4)
                 (HandDetection.mkLandmark 0.3 0.45)
    /\ NailMeasurement.width m = 1.2 * NailMeasurement.length m.
Proof.
  eexists. split; [reflexivity|].
  destruct (detector_box_size near_hand thumb_finger _ eq_refl)
    as (t & d & Ht & Hd & _ & Hlen & Hwid & _).
  injection Ht as <-. injection Hd as <-.
  split; [exact Hlen | exact Hwid].
Defined.

(** X19.  When the tip and the last joint are apart, the center of the
    box the detector makes lies on the segment from the tip to the joint,
    a tenth of the nail's length from the tip; and the rotation of every
    box the detector makes lies in (-3 PI / 2, PI / 2], a finger whose tip
    is straight above its joint getting the rotation 0. *)
Theorem detector_box_placement (lm : list HandDetection.NormalizedLandmark)
        (f : HandDetection.fingerSpec) (m : NailMeasurement.t) :
  HandDetection.estimateFinger lm f = Returns m ->
  exists t d,
    lm !! HandDetection.tip f = Some t
    /\ lm !! HandDetection.dip f = Some d
    /\ - (3 * PI / 2) < BoundingBox.rotation (measurement_box m) <= PI / 2
    /\ (HandDetection.x t = HandDetection.x d ->
        HandDetection.y t < HandDetection.y d ->
        BoundingBox.rotation (measurement_box m) = 0)
    /\ (HandDetection.x t <> HandDetection.x d
        \/ HandDetection.y t <> HandDetection.y d ->
        BoundingBox.x (measurement_box m)
        = HandDetection.x t
          + 0.1 * nailLengthRatio (HandDetection.name f)
            * (HandDetection.x d - HandDetection.x t)
        /\ BoundingBox.y (measurement_box m)
           = HandDetection.y t
             + 0.1 * nailLengthRatio (HandDetection.name f)
               * (HandDetection.y d - HandDetection.y t)).
Proof.
  intros H. destruct (estimateFinger_returns lm f m H) as (t & d & Ht & Hd & ->).
  exists t, d. cbn. split; [exact Ht|]. split; [exact Hd|].
  split; [|split].
  - pose proof (atan2_range (HandDetection.y d - HandDetection.y t)
                  (HandDetection.x d - HandDetection.x t)).
    pose proof PI_RGT_0. lra.
  - intros Hx Hy. rewrite atan2_up; lra.
  - intros Hne. pose proof (distalLength_pos t d Hne) as Hpos.
    split; field; lra.
Qed.

Lemma detector_box_placement_witness :
  exists m,
    HandDetection.estimateFinger near_hand thumb_finger = Returns m
    /\ BoundingBox.rotation (measurement_box m) = 0
    /\ BoundingBox.x (measurement_box m) = 0.3 + 0.1 * 0.7 * (0.3 - 0.3)
    /\ BoundingBox.y (measurement_box m) = 0.4 + 0.1 * 0.7 * (0.45 - 0.4).
Proof.
  eexists. split; [reflexivity|].
  destruct (detector_box_placement near_hand thumb_finger _ eq_refl)
    as (t & d & Ht & Hd & _ & Hup & Hcenter).
  injection Ht as <-. injection Hd as <-.
  split; [apply Hup; cbn; lra|].
  apply Hcenter. right. cbn. lra.
Defined.

Lemma estimateFinger_cases (lm : list HandDetection.NormalizedLandmark)
      (f : HandDetection.fingerSpec) :
  (exists m, HandDetection.estimateFinger lm f = Returns m)
  \/ HandDetection.estimateFinger lm f = TypeError.
Proof.
  unfold HandDetection.estimateFinger.
  destruct (lm !! HandDetection.tip f); [|now right].
  destruct (lm !! HandDetection.dip f); [|now right].
  left. eexists. reflexivity.
Qed.

Lemma estimateFinger_in_range (lm : list HandDetection.NormalizedLandmark)
      (f : HandDetection.fingerSpec) :
  (HandDetection.tip f < length lm)%nat ->
  (HandDetection.dip f < length lm)%nat ->
  exists m,
    HandDetection.estimateFinger lm f = Returns m
    /\ NailMeasurement.finger m = HandDetection.name f.
Proof.
  intros Ht Hd. unfold HandDetection.estimateFinger.
  destruct (lookup_lt_is_Some_2 lm _ Ht) as [t ->].
  destruct (lookup_lt_is_Some_2 lm _ Hd) as [d ->].
  eexists. split; reflexivity.
Qed.

Lemma estimateNailBounds_full (lm : list HandDetection.NormalizedLandmark) :
  (21 <= length lm)%nat ->
  exists ms,
    HandDetection.estimateNailBounds lm = Returns ms
    /\ map NailMeasurement.finger ms
       = ["Thumb"; "Index"; "Middle"; "Ring"; "Pinky"]%string.
Proof.
  unfold HandDetection.estimateNailBounds, HandDetection.fingers.
  intros Hlen. cbn [HandDetection.mapOutcome].
  repeat match goal with
         | |- context [HandDetection.estimateFinger lm ?f] =>
             let m := fresh "m" in
             let H := fresh "H" in
             let Hf := fresh "Hf" in
             destruct (estimateFinger_in_range lm f) as (m & H & Hf);
             [cbn; lia | cbn; lia | rewrite H; cbn in Hf]
         end.
  eexists. split; [reflexivity|]. cbn. congruence.
Qed.

Lemma estimateNailBounds_short (lm : list HandDetection.NormalizedLandmark) :
  (length lm < 21)%nat ->
  HandDetection.estimateNailBounds lm = TypeError.
Proof.
  unfold HandDetection.estimateNailBounds, HandDetection.fingers.
  intros Hlen. cbn [HandDetection.mapOutcome].
  assert (Hlast : HandDetection.estimateFinger lm
                    (HandDetection.mkFinger "Pinky" 20 19) = TypeError).
  { unfold HandDetection.estimateFinger. cbn.
    now rewrite (lookup_ge_None_2 lm 20) by lia. }
  rewrite Hlast.
  repeat match goal with
         | |- context [HandDetection.estimateFinger lm ?f] =>
             destruct (estimateFinger_cases lm f) as [[? ->] | ->];
             [|reflexivity]
         end.
  reflexivity.
Qed.

(** X20.  For a hand of at least 21 landmarks the detector makes five
    boxes, for the thumb, the index, the middle, the ring finger and the
    pinky in that order; for a hand of fewer landmarks it throws. *)
Theorem detector_five_boxes (lm : list HandDetection.NormalizedLandmark) :
  ((21 <= length lm)%nat ->
   exists ms,
     HandDetection.estimateNailBounds lm = Returns ms
     /\ map NailMeasurement.finger ms
        = ["Thumb"; "Index"; "Middle"; "Ring"; "Pinky"]%string)
  /\ ((length lm < 21)%nat ->
      HandDetection.estimateNailBounds lm = TypeError).
Proof.
  split; intros Hlen.
  - destruct (estimateNailBounds_full lm Hlen) as (ms & Hms & Hf).
    exists ms. split; [exact Hms | exact Hf].
  - exact (estimateNailBounds_short lm Hlen).
Qed.

Lemma detector_five_boxes_witness :
  (21 <= length near_hand)%nat
  /\ (exists ms,
         HandDetection.estimateNailBounds near_hand = Returns ms
         /\ map NailMeasurement.finger ms
            = ["Thumb"; "Index"; "Middle"; "Ring"; "Pinky"]%string)
  /\ (length (firstn 20 near_hand) < 21)%nat
  /\ HandDetection.estimateNailBounds (firstn 20 near_hand) = TypeError.
Proof.
  assert (H1 : (21 <= length near_hand)%nat) by (cbn; lia).
  assert (H2 : (length (firstn 20 near_hand) < 21)%nat) by (cbn; lia).
  split; [exact H1|].
  split; [exact (proj1 (detector_five_boxes near_hand) H1)|].
  split; [exact H2|].
  exact (proj2 (detector_five_boxes (firstn 20 near_hand)) H2).
Defined.

Lemma mapOutcome_hands (hands : list (list HandDetection.NormalizedLandmark)) :
  Forall (fun lm => (21 <= length lm)%nat) hands ->
  exists mss,
    HandDetection.mapOutcome HandDetection.estimateNailBounds hands
    = Returns mss
    /\ length (concat mss) = (5 * length hands)%nat
    /\ Forall2 (fun lm ms =>
                  HandDetection.estimateNailBounds lm = Returns ms) hands mss.
Proof.
  induction 1 as [|lm hands Hlm _ IH]; cbn [HandDetection.mapOutcome].
  - exists []. repeat split. constructor.
  - destruct (estimateNailBounds_full lm Hlm) as (ms & Hms & Hf).
    destruct IH as (mss & -> & Hlen & Hall). rewrite Hms.
    exists (ms :: mss). split; [reflexivity|]. split.
    + cbn. rewrite length_app, Hlen.
      apply (f_equal (@length string)) in Hf. rewrite length_map in Hf.
      cbn in Hf. lia.
    + now constructor.
Qed.

Lemma mapOutcome_short_hand
      (hands : list (list HandDetection.NormalizedLandmark)) :
  Exists (fun lm => (length lm < 21)%nat) hands ->
  HandDetection.mapOutcome HandDetection.estimateNailBounds hands = TypeError.
Proof.
  induction hands as [|lm hands IH]; intros H; [inversion H|].
  cbn [HandDetection.mapOutcome]. destruct (Nat.lt_ge_cases (length lm) 21) as [Hs|Hl].
  - now rewrite (estimateNailBounds_short lm Hs).
  - destruct (estimateNailBounds_full lm Hl) as (ms & -> & _).
    inversion H as [? ? Hs|? ? Hrest]; subst; [lia|].
    now rewrite (IH Hrest).
Qed.

(** X21.  [detect] rejects with "Model not loaded" whatever the detector
    would answer while the model is not loaded.  With the model loaded it
    rejects with the detector's own error when the detector throws,
    resolves with no box when the result has no landmarks, resolves with
    five boxes per hand, in the order of the hands, when every hand has at
    least 21 landmarks, and rejects when some hand has fewer. *)
Theorem detect_outcomes (s : HandDetection.state) :
  (HandDetection.landmarker s = false ->
   forall answer,
     HandDetection.detect s answer
     = HandDetection.Rejected "Model not loaded")
  /\ (HandDetection.landmarker s = true ->
      (forall msg,
          HandDetection.detect s (HandDetection.DetectorThrows msg)
          = HandDetection.Rejected msg)
      /\ HandDetection.detect s (HandDetection.DetectorResult None)
         = HandDetection.Resolved []
      /\ (forall hands,
             Forall (fun lm => (21 <= length lm)%nat) hands ->
             exists mss,
               HandDetection.detect s
                 (HandDetection.DetectorResult (Some hands))
               = HandDetection.Resolved (concat mss)
               /\ length (concat mss) = (5 * length hands)%nat
               /\ Forall2
                    (fun lm ms =>
                       HandDetection.estimateNailBounds lm = Returns ms)
                    hands mss)
      /\ (forall hands,
             Exists (fun lm => (length lm < 21)%nat) hands ->
             HandDetection.detect s
               (HandDetection.DetectorResult (Some hands))
             = HandDetection.Rejected "TypeError")).
Proof.
  unfold HandDetection.detect. split.
  - intros -> answer. reflexivity.
  - intros ->. cbn. split; [reflexivity|]. split; [reflexivity|]. split.
    + intros hands H. destruct (mapOutcome_hands hands H) as (mss & -> & Hl & Ha).
      exists mss. repeat split; assumption.
    + intros hands H. now rewrite (mapOutcome_short_hand hands H).
Qed.

Lemma detect_outcomes_witness :
  let s := HandDetection.loaded HandDetection.init in
  HandDetection.landmarker HandDetection.init = false
  /\ HandDetection.detect HandDetection.init
       (HandDetection.DetectorResult (Some [near_hand]))
     = HandDetection.Rejected "Model not loaded"
  /\ HandDetection.landmarker s = true
  /\ Forall (fun lm => (21 <= length lm)%nat) [near_hand; far_hand]
  /\ (exists mss,
         HandDetection.detect s
           (HandDetection.DetectorResult (Some [near_hand; far_hand]))
         = HandDetection.Resolved (concat mss)
         /\ length (concat mss) = 10%nat)
  /\ Exists (fun lm => (length lm < 21)%nat) [near_hand; firstn 5 far_hand]
  /\ HandDetection.detect s
       (HandDetection.DetectorResult (Some [near_hand; firstn 5 far_hand]))
     = HandDetection.Rejected "TypeError".
Proof.
  intros s.
  assert (H2 : Forall (fun lm => (21 <= length lm)%nat) [near_hand; far_hand])
    by (repeat constructor; cbn; lia).
  assert (H3 : Exists (fun lm => (length lm < 21)%nat)
                 [near_hand; firstn 5 far_hand])
    by (right; left; cbn; lia).
  split; [reflexivity|].
  split; [exact (proj1 (detect_outcomes HandDetection.init) eq_refl _)|].
  split; [reflexivity|]. split; [exact H2|].
  destruct (proj2 (detect_outcomes s) eq_refl) as (_ & _ & Hok & Hshort).
  split.
  - destruct (Hok _ H2) as (mss & Hd & Hl & _). exists mss. split; assumption.
  - split; [exact H3 | exact (Hshort _ H3)].
Defined.

(** * Further properties of the controller *)

Lemma impliedCalibration_rest (s : App.state) :
  App.mode (App.impliedCalibration s) = App.mode s
  /\ App.isAnalyzing (App.impliedCalibration s) = App.isAnalyzing s
  /\ App.showCoinTool (App.impliedCalibration s) = App.showCoinTool s
  /\ App.imageSize (App.impliedCalibration s) = App.imageSize s.
Proof.
  unfold App.impliedCalibration.
  destruct (App.showCoinTool s) eqn:E; [now rewrite E|].
  destruct (App.pixelsPerMM s); [now rewrite E|].
  destruct (_ || _); [now rewrite E|].
  destruct find; cbn; now rewrite ?E.
Qed.

Lemma mapOutcome_cons {A B : Type} (f : A -> outcome B) (a : A)
      (l : list A) (bs : list B) :
  HandDetection.mapOutcome f (a :: l) = Returns bs ->
  exists b bs',
    bs = b :: bs' /\ f a = Returns b
    /\ HandDetection.mapOutcome f l = Returns bs'.
Proof.
  cbn [HandDetection.mapOutcome].
  destruct (f a) as [b| |]; try discriminate.
  destruct (HandDetection.mapOutcome f l) as [bs'| |]; try discriminate.
  intros [= <-]. exists b, bs'. repeat split.
Qed.

Lemma estimateNailBounds_thumb_first
      (lm : list HandDetection.NormalizedLandmark)
      (ms : list NailMeasurement.t) :
  HandDetection.estimateNailBounds lm = Returns ms ->
  exists m rest,
    ms = m :: rest
    /\ HandDetection.estimateFinger lm thumb_finger = Returns m.
Proof.
  unfold HandDetection.estimateNailBounds, HandDetection.fingers.
  intros H. apply mapOutcome_cons in H as (m & rest & -> & Hm & _).
  exists m, rest. split; [reflexivity | exact Hm].
Qed.

(** X22.  From a session with no measurement in its list, as at the start
    and after a reset, with the model loaded: a capture followed by the
    load of an image of non-zero width in which the detector finds hands
    of at least 21 landmarks each ends in result mode, not analyzing, the
    coin tool closed, with five boxes per hand and with pixelsPerMM set
    from the thumb of the first hand to 1.2 * 0.7 * (distance between the
    thumb's tip and joint) * (width of the image) / 15. *)
Theorem first_analysis_calibrates (s : App.state) (src : string)
        (img : Size.t) (hand : list HandDetection.NormalizedLandmark)
        (hands : list (list HandDetection.NormalizedLandmark)) :
  App.measurements s = [] ->
  HandDetection.landmarker (App.detection s) = true ->
  Size.width img <> 0 ->
  Forall (fun lm => (21 <= length lm)%nat) (hand :: hands) ->
  let s' := App.run s [App.Capture src;
                       App.ImgOnload img
                         (HandDetection.DetectorResult (Some (hand :: hands)))]
  in
  exists t d,
    hand !! 4%nat = Some t
    /\ hand !! 3%nat = Some d
    /\ App.pixelsPerMM s'
       = Some (1.2 * (0.7 * distalLength t d) * Size.width img / 15.0)
    /\ length (App.measurements s') = (5 * length (hand :: hands))%nat
    /\ App.mode s' = App.result
    /\ App.isAnalyzing s' = false
    /\ App.showCoinTool s' = false
    /\ App.imageSize s' = img.
Proof.
  intros Hms Hld Hw Hall s'. subst s'.
  unfold App.run. cbn [fold_left].
  rewrite (step_empty s (App.Capture src)) by exact Hms.
  set (s1 := App.handle s (App.Capture src)).
  assert (Hd1 : App.detection s1 = App.detection s) by reflexivity.
  destruct (mapOutcome_hands _ Hall) as (mss & Hmap & Hlen & Hmss).
  assert (Hdet : HandDetection.detect (App.detection s1)
                   (HandDetection.DetectorResult (Some (hand :: hands)))
                 = HandDetection.Resolved (concat mss)).
  { unfold HandDetection.detect. rewrite Hd1, Hld. cbn zeta iota beta.
    now rewrite Hmap. }
  inversion Hmss as [|lm ms hs mss' Hhand Hrest]; subst.
  destruct (estimateNailBounds_thumb_first hand ms Hhand)
    as (m & rest & -> & Hthumb).
  destruct (estimateFinger_returns hand thumb_finger m Hthumb)
    as (t & d & Ht & Hd & Hbox).
  assert (Hf : NailMeasurement.finger m = "Thumb"%string)
    by (rewrite Hbox; reflexivity).
  assert (Hwid : NailMeasurement.width m = 1.2 * (0.7 * distalLength t d)).
  { rewrite Hbox. cbn. unfold nailAspect, nailLengthRatio. cbn. lra. }
  exists t, d. split; [exact Ht|]. split; [exact Hd|].
  unfold App.step. cbn [App.handle].
  assert (Hload : App.imgOnload s1 img
                    (HandDetection.DetectorResult (Some (hand :: hands)))
                  = App.setIsAnalyzing
                      (App.setMeasurements
                         (App.called (App.setImageSize s1 img) App.CallDetect)
                         (concat ((m :: rest) :: mss')))
                      false).
  { unfold App.imgOnload. now rewrite Hdet. }
  assert (Hdeps : App.depsChanged s1
                    (App.ImgOnload img
                       (HandDetection.DetectorResult (Some (hand :: hands))))
                    (App.imgOnload s1 img
                       (HandDetection.DetectorResult (Some (hand :: hands))))
                  = true).
  { unfold App.depsChanged, App.setsMeasurements. now rewrite Hdet. }
  rewrite Hdeps, Hload.
  split.
  - rewrite (impliedCalibration_thumb _ m); try reflexivity; try exact Hw.
    + cbn. now rewrite Hwid.
    + cbn. unfold App.isThumb. rewrite Hf. reflexivity.
  - rewrite (proj1 (impliedCalibration_frame _)).
    destruct (impliedCalibration_rest
                (App.setIsAnalyzing
                   (App.setMeasurements
                      (App.called (App.setImageSize s1 img) App.CallDetect)
                      (concat ((m :: rest) :: mss')))
                   false)) as (Hm & Ha & Hc & Hi).
    rewrite Hm, Ha, Hc, Hi. cbn.
    split; [exact Hlen|]. repeat split.
Qed.

Lemma first_analysis_calibrates_witness :
  App.measurements model_ready = []
  /\ HandDetection.landmarker (App.detection model_ready) = true
  /\ Size.width (Size.mk 4000 3000) <> 0
  /\ Forall (fun lm => (21 <= length lm)%nat) [near_hand; far_hand]
  /\ exists t d,
      near_hand !! 4%nat = Some t
      /\ near_hand !! 3%nat = Some d
      /\ App.pixelsPerMM
           (App.run model_ready
              [App.Capture "hand.jpg";
               App.ImgOnload (Size.mk 4000 3000)
                 (HandDetection.DetectorResult (Some [near_hand; far_hand]))])
         = Some (1.2 * (0.7 * distalLength t d) * 4000 / 15.0).
Proof.
  assert (Hw : Size.width (Size.mk 4000 3000) <> 0) by (cbn; lra).
  assert (Hall : Forall (fun lm => (21 <= length lm)%nat)
                   [near_hand; far_hand])
    by (repeat constructor; cbn; lia).
  split; [reflexivity|]. split; [reflexivity|]. split; [exact Hw|].
  split; [exact Hall|].
  destruct (first_analysis_calibrates model_ready "hand.jpg"
              (Size.mk 4000 3000) near_hand [far_hand] eq_refl eq_refl Hw Hall)
    as (t & d & Ht & Hd & Hp & _).
  exists t, d. split; [exact Ht|]. split; [exact Hd|]. exact Hp.
Defined.

Lemma impliedCalibration_analyzing (s : App.state) :
  App.isAnalyzing (App.impliedCalibration s) = App.isAnalyzing s.
Proof. exact (proj1 (proj2 (impliedCalibration_rest s))). Qed.

Lemma step_keeps_analyzing (s : App.state) (e : App.event) :
  is_onload e = false ->
  App.isAnalyzing s = true ->
  App.isAnalyzing (App.step s e) = true.
Proof.
  intros He Hs. unfold App.step.
  assert (H : App.isAnalyzing (App.handle s e) = true).
  { destruct e as [| | | | | | | | |container px];
      try discriminate He; cbn; auto.
    unfold App.onCalibrationChange.
    destruct container; [destruct gtb|]; exact Hs. }
  destruct App.depsChanged; [now rewrite impliedCalibration_analyzing|exact H].
Qed.

(** X23.  A capture raises the analyzing flag, and nothing but the load of
    the image lowers it: after a capture the flag stays up along any
    events that are not a load, a reset among them, and the first load
    that comes lowers it whether the detector resolves or rejects. *)
Theorem analyzing_until_load (s : App.state) (src : string)
        (es : list App.event) :
  forallb (fun e => negb (is_onload e)) es = true ->
  App.isAnalyzing (App.run (App.step s (App.Capture src)) es) = true
  /\ forall img answer,
      App.isAnalyzing
        (App.step (App.run (App.step s (App.Capture src)) es)
           (App.ImgOnload img answer)) = false.
Proof.
  intros Hes. split.
  - assert (H0 : App.isAnalyzing (App.step s (App.Capture src)) = true).
    { unfold App.step. destruct App.depsChanged;
        [rewrite impliedCalibration_analyzing|]; reflexivity. }
    revert H0. generalize (App.step s (App.Capture src)).
    unfold App.run. induction es as [|e es IH]; intros t Ht; [exact Ht|].
    cbn in Hes. apply andb_prop in Hes as [He Hes]. cbn [fold_left].
    apply (IH Hes). apply step_keeps_analyzing; [|exact Ht].
    now apply negb_true_iff.
  - intros img answer. unfold App.step at 1.
    assert (H : forall t, App.isAnalyzing (App.imgOnload t img answer) = false)
      by (intros t; unfold App.imgOnload; now destruct HandDetection.detect).
    cbn [App.handle].
    destruct App.depsChanged;
      [rewrite impliedCalibration_analyzing|]; apply H.
Qed.

Lemma analyzing_until_load_witness :
  let es := [App.Highlight (Some 0%nat); App.Reset; App.ToggleCoinTool;
             App.SetMode App.home] in
  forallb (fun e => negb (is_onload e)) es = true
  /\ App.isAnalyzing
       (App.run (App.step model_ready (App.Capture "broken.jpg")) es) = true.
Proof.
  intros es. split; [reflexivity|].
  exact (proj1 (analyzing_until_load model_ready "broken.jpg" es eq_refl)).
Defined.

(** ** Edits and the implied calibration *)

Lemma find_thumb_same_labels (l l' : list NailMeasurement.t) :
  same_labels l l' ->
  match find App.isThumb l, find App.isThumb l' with
  | Some m, Some m' => NailMeasurement.width m' = NailMeasurement.width m
  | None, None => True
  | _, _ => False
  end.
Proof.
  induction 1 as [|m m' l l' [Hf Hw] _ IH]; cbn; [exact I|].
  assert (Ht : App.isThumb m' = App.isThumb m)
    by (unfold App.isThumb; now rewrite Hf).
  rewrite Ht. destruct (App.isThumb m); [exact Hw | exact IH].
Qed.

Lemma impliedCalibration_same_labels (s : App.state)
      (l l' : list NailMeasurement.t) :
  same_labels l l' ->
  App.pixelsPerMM (App.impliedCalibration (App.setMeasurements s l'))
  = App.pixelsPerMM (App.impliedCalibration (App.setMeasurements s l)).
Proof.
  intros H. pose proof (find_thumb_same_labels l l' H) as Hfind.
  pose proof (Forall2_length _ _ _ H) as Hlen.
  unfold App.impliedCalibration. cbn.
  destruct (App.showCoinTool s); [reflexivity|].
  destruct (App.pixelsPerMM s); [reflexivity|].
  rewrite <- Hlen.
  destruct (_ || _); [reflexivity|].
  destruct (find App.isThumb l), (find App.isThumb l');
    try contradiction; cbn; [now rewrite Hfind | reflexivity].
Qed.

Lemma same_labels_refl (l : list NailMeasurement.t) : same_labels l l.
Proof. induction l; constructor; auto. Qed.

Lemma same_labels_insert (l : list NailMeasurement.t) (i : nat)
      (m0 m1 : NailMeasurement.t) :
  l !! i = Some m0 ->
  NailMeasurement.finger m1 = NailMeasurement.finger m0 ->
  NailMeasurement.width m1 = NailMeasurement.width m0 ->
  same_labels l (<[i := m1]> l).
Proof.
  revert i. induction l as [|a l IH]; intros [|i] Hi Hf Hw; cbn in *;
    try discriminate.
  - injection Hi as ->. constructor; [now split | apply same_labels_refl].
  - constructor; [now split | now apply IH].
Qed.

(** X24.  What the implied calibration computes does not depend on where
    the boxes are or how large the user has made them: in any state of the
    controller, a list in which a box was dragged, resized or rotated
    gives the same pixelsPerMM as the list before the edit.  The estimator
    reads the [width] the detector gave the thumb, which no edit
    changes. *)
Theorem edits_do_not_move_implied_calibration
        (s : App.state) (i : nat) (mode : string) (rect : DOMRect.t)
        (m0 m1 : NailMeasurement.t) (dragStart p : Point.t) :
  App.measurements s !! i = Some m0 ->
  NailOverlay.editMeasurement mode rect m0 dragStart p = Some m1 ->
  App.pixelsPerMM
    (App.impliedCalibration
       (App.setMeasurements s (<[i := m1]> (App.measurements s))))
  = App.pixelsPerMM (App.impliedCalibration s).
Proof.
  intros Hi Hedit.
  destruct (editMeasurement_keeps_label _ _ _ _ _ _ Hedit) as (Hf & Hw & _).
  rewrite (impliedCalibration_same_labels s (App.measurements s)
             (<[i := m1]> (App.measurements s))
             (same_labels_insert _ i m0 m1 Hi Hf Hw)).
  destruct s; reflexivity.
Qed.

Lemma edits_do_not_move_implied_calibration_witness :
  App.measurements uncalibrated !! 1%nat = Some thumb_box
  /\ (exists m1,
         NailOverlay.editMeasurement "resize-e" sample_rect thumb_box
           (Point.mk 10 10) (Point.mk 40 10) = Some m1
         /\ App.pixelsPerMM
              (App.impliedCalibration
                 (App.setMeasurements uncalibrated
                    (<[1%nat := m1]> (App.measurements uncalibrated))))
            = App.pixelsPerMM (App.impliedCalibration uncalibrated)).
Proof.
  split; [reflexivity|].
  eexists. split; [reflexivity|].
  exact (edits_do_not_move_implied_calibration uncalibrated 1 "resize-e"
           sample_rect thumb_box _ (Point.mk 10 10) (Point.mk 40 10)
           eq_refl eq_refl).
Defined.

(** * Properties of the sidebar *)

Lemma calibrated_some (v : R) (imageSize : Size.t) :
  v <> 0 -> 0 < Size.width imageSize ->
  MeasurementSidebar.calibrated (Some v) imageSize = Some v.
Proof.
  intros Hv Hw. unfold MeasurementSidebar.calibrated.
  destruct Req_dec_T; [contradiction|].
  apply gtb_true in Hw. now rewrite Hw.
Qed.

(** X25.  Under the implied calibration, with a thumb of non-zero width
    and an image of positive width, the sidebar shows for every box a
    width of 15 mm times the width of its box over the width the detector
    gave the thumb, whatever the size of the image; the thumb itself, as
    long as its box has the width the detector gave it, reads 15 mm. *)
Theorem sidebar_under_implied_calibration
        (s : App.state) (thumb m : NailMeasurement.t) :
  App.showCoinTool s = false ->
  App.pixelsPerMM s = None ->
  0 < Size.width (App.imageSize s) ->
  find App.isThumb (App.measurements s) = Some thumb ->
  NailMeasurement.width thumb <> 0 ->
  let s' := App.impliedCalibration s in
  exists w h,
    MeasurementSidebar.row (App.pixelsPerMM s') (App.imageSize s') m
    = (NailMeasurement.finger m, MeasurementSidebar.Millimeters w,
       MeasurementSidebar.Millimeters h)
    /\ w = 15 * BoundingBox.width (measurement_box m)
           / NailMeasurement.width thumb
    /\ h = 15 * (BoundingBox.height (measurement_box m)
                 * Size.height (App.imageSize s))
           / (NailMeasurement.width thumb * Size.width (App.imageSize s))
    /\ (BoundingBox.width (measurement_box m) = NailMeasurement.width thumb ->
        w = 15).
Proof.
  intros Hcoin Hpx Hw Hthumb Hne s'. subst s'.
  assert (Hw0 : Size.width (App.imageSize s) <> 0) by lra.
  pose proof (impliedCalibration_thumb s thumb Hcoin Hpx Hw0 Hthumb) as Hv.
  destruct (impliedCalibration_rest s) as (_ & _ & _ & Hsize).
  rewrite Hv, Hsize. unfold MeasurementSidebar.row.
  rewrite calibrated_some; [|intros H0|exact Hw].
  - cbv zeta. do 2 eexists. split; [reflexivity|]. unfold measurement_box.
    replace 15.0 with 15 by lra.
    split; [field; split; assumption|].
    split; [field; split; assumption|].
    intros ->. field. split; assumption.
  - apply Hne.
    assert (H1 : NailMeasurement.width thumb * Size.width (App.imageSize s)
                 = 0) by lra.
    apply Rmult_integral in H1. destruct H1; [assumption | contradiction].
Qed.

Lemma sidebar_under_implied_calibration_witness :
  App.showCoinTool uncalibrated = false
  /\ App.pixelsPerMM uncalibrated = None
  /\ 0 < Size.width (App.imageSize uncalibrated)
  /\ find App.isThumb (App.measurements uncalibrated) = Some thumb_box
  /\ NailMeasurement.width thumb_box <> 0
  /\ BoundingBox.width (measurement_box thumb_box)
     = NailMeasurement.width thumb_box
  /\ exists h,
      MeasurementSidebar.row
        (App.pixelsPerMM (App.impliedCalibration uncalibrated))
        (App.imageSize (App.impliedCalibration uncalibrated)) thumb_box
      = ("Thumb"%string, MeasurementSidebar.Millimeters 15,
         MeasurementSidebar.Millimeters h).
Proof.
  assert (Hw : 0 < Size.width (App.imageSize uncalibrated)) by (cbn; lra).
  assert (Hne : NailMeasurement.width thumb_box <> 0) by (cbn; lra).
  split; [reflexivity|]. split; [reflexivity|]. split; [exact Hw|].
  split; [reflexivity|]. split; [exact Hne|]. split; [reflexivity|].
  destruct (sidebar_under_implied_calibration uncalibrated thumb_box thumb_box
              eq_refl eq_refl Hw eq_refl Hne)
    as (w & h & Hrow & _ & _ & H15).
  exists h. rewrite Hrow, (H15 eq_refl). reflexivity.
Defined.

(** X26.  Under the manual calibration, with the coin tool shown, a disk
    of non-zero diameter, an image of positive width and a container of
    non-zero rendered width, the sidebar shows for every box a width of 26
    mm times the width of its box in the frame of the container over the
    diameter of the disk: a box as wide as the disk reads 26 mm. *)
Theorem sidebar_under_manual_calibration
        (s : App.state) (coin : CoinOverlay.state) (renderWidth : R)
        (m : NailMeasurement.t) :
  App.showCoinTool s = true ->
  0 < Size.width (App.imageSize s) ->
  renderWidth <> 0 ->
  CoinOverlay.diameter coin <> 0 ->
  let s' := App.manualCalibration s coin (Some renderWidth) in
  exists w h,
    MeasurementSidebar.row (App.pixelsPerMM s') (App.imageSize s') m
    = (NailMeasurement.finger m, MeasurementSidebar.Millimeters w,
       MeasurementSidebar.Millimeters h)
    /\ w = 26 * (BoundingBox.width (measurement_box m) * renderWidth)
           / CoinOverlay.diameter coin
    /\ (BoundingBox.width (measurement_box m) * renderWidth
        = CoinOverlay.diameter coin ->
        w = 26).
Proof.
  intros Hshow Hw Hr Hd s'. subst s'.
  unfold App.manualCalibration, CoinOverlay.calibrationEffect,
    App.onCalibrationChange, CoinOverlay.COIN_DIAMETER_MM.
  rewrite Hshow. pose proof Hw as Hg. apply gtb_true in Hg. rewrite Hg. cbn.
  unfold MeasurementSidebar.row.
  assert (Hv : CoinOverlay.diameter coin / 26.0
               * (Size.width (App.imageSize s) / renderWidth) <> 0).
  { intros H0. apply Rmult_integral in H0. destruct H0 as [H0|H0].
    - apply Hd. lra.
    - unfold Rdiv in H0. apply Rmult_integral in H0. destruct H0 as [H0|H0].
      + lra.
      + now apply (Rinv_neq_0_compat renderWidth Hr). }
  rewrite calibrated_some by assumption.
  cbv zeta. do 2 eexists. split; [reflexivity|]. unfold measurement_box.
  replace 26.0 with 26 in * by lra.
  assert (Hw0 : Size.width (App.imageSize s) <> 0) by lra.
  split; [field; repeat split; assumption|].
  intros Heq.
  replace (BoundingBox.width (NailMeasurement.boundingBox m)
           * Size.width (App.imageSize s)
           / (CoinOverlay.diameter coin / 26
              * (Size.width (App.imageSize s) / renderWidth)))
    with (26 * (BoundingBox.width (NailMeasurement.boundingBox m)
                * renderWidth) / CoinOverlay.diameter coin)
    by (field; repeat split; assumption).
  unfold measurement_box in Heq. rewrite Heq. field. exact Hd.
Qed.

Lemma sidebar_under_manual_calibration_witness :
  App.showCoinTool coin_tool_open = true
  /\ 0 < Size.width (App.imageSize coin_tool_open)
  /\ (500 : R) <> 0
  /\ CoinOverlay.diameter coin_100 <> 0
  /\ BoundingBox.width (measurement_box sample_box) * 500
     = CoinOverlay.diameter coin_100
  /\ exists h,
      MeasurementSidebar.row
        (App.pixelsPerMM
           (App.manualCalibration coin_tool_open coin_100 (Some 500)))
        (App.imageSize
           (App.manualCalibration coin_tool_open coin_100 (Some 500)))
        sample_box
      = ("Index"%string, MeasurementSidebar.Millimeters 26,
         MeasurementSidebar.Millimeters h).
Proof.
  assert (Hw : 0 < Size.width (App.imageSize coin_tool_open)) by (cbn; lra).
  assert (Hr : (500 : R) <> 0) by lra.
  assert (Hd : CoinOverlay.diameter coin_100 <> 0) by (cbn; lra).
  assert (Heq : BoundingBox.width (measurement_box sample_box) * 500
                = CoinOverlay.diameter coin_100) by (cbn; lra).
  split; [reflexivity|]. split; [exact Hw|]. split; [exact Hr|].
  split; [exact Hd|]. split; [exact Heq|].
  destruct (sidebar_under_manual_calibration coin_tool_open coin_100 500
              sample_box eq_refl Hw Hr Hd) as (w & h & Hrow & _ & H26).
  exists h. rewrite Hrow, (H26 Heq). reflexivity.
Defined.

(** X27.  Without a usable calibration the sidebar shows placeholders:
    when pixelsPerMM is undefined or zero, or the width of the image is
    not positive, every row is the finger name and two placeholders.
    That is what a thumb of width 0 leads to: the implied calibration
    stores 0, every row shows placeholders with the warning under them,
    and as 0 is a defined value the estimator keeps it under all later
    lists of measurements. *)
Theorem sidebar_placeholders :
  (forall pixelsPerMM imageSize m,
      pixelsPerMM = None \/ pixelsPerMM = Some 0
      \/ Size.width imageSize <= 0 ->
      MeasurementSidebar.row pixelsPerMM imageSize m
      = (NailMeasurement.finger m, MeasurementSidebar.Placeholder,
         MeasurementSidebar.Placeholder))
  /\ (forall s thumb,
         App.showCoinTool s = false ->
         App.pixelsPerMM s = None ->
         Size.width (App.imageSize s) <> 0 ->
         find App.isThumb (App.measurements s) = Some thumb ->
         NailMeasurement.width thumb = 0 ->
         let s' := App.impliedCalibration s in
         App.pixelsPerMM s' = Some 0
         /\ MeasurementSidebar.render (App.measurements s')
              (App.pixelsPerMM s') (App.imageSize s')
            = Some (map (fun m => (NailMeasurement.finger m,
                                   MeasurementSidebar.Placeholder,
                                   MeasurementSidebar.Placeholder))
                      (App.measurements s),
                    true)
         /\ forall edits,
             App.pixelsPerMM (App.run s' (map App.MeasurementsChange edits))
             = Some 0).
Proof.
  assert (Hrow : forall pixelsPerMM imageSize m,
             pixelsPerMM = None \/ pixelsPerMM = Some 0
             \/ Size.width imageSize <= 0 ->
             MeasurementSidebar.row pixelsPerMM imageSize m
             = (NailMeasurement.finger m, MeasurementSidebar.Placeholder,
                MeasurementSidebar.Placeholder)).
  { intros ppm sz m H. unfold MeasurementSidebar.row,
      MeasurementSidebar.calibrated.
    destruct H as [-> | [-> | H]]; [reflexivity| |].
    - destruct Req_dec_T; [reflexivity | lra].
    - destruct ppm; [|reflexivity]. apply gtb_false in H. rewrite H.
      now rewrite andb_false_r. }
  split; [exact Hrow|].
  intros s thumb Hcoin Hpx Hw Hthumb Hzero s'. subst s'.
  pose proof (impliedCalibration_thumb s thumb Hcoin Hpx Hw Hthumb) as Hv.
  assert (Hv0 : App.pixelsPerMM (App.impliedCalibration s) = Some 0).
  { rewrite Hv, Hzero. f_equal. lra. }
  split; [exact Hv0|]. split.
  - rewrite (proj1 (impliedCalibration_frame s)), Hv0.
    unfold MeasurementSidebar.render.
    destruct (App.measurements s) as [|a l] eqn:E; [discriminate|].
    cbn [length Nat.eqb]. f_equal. f_equal.
    + apply map_ext. intros m. apply Hrow. right; left; reflexivity.
    + destruct Req_dec_T; [reflexivity | lra].
  - intros edits.
    apply run_keeps_defined; [apply edits_keep_calibration | exact Hv0].
Qed.

Lemma sidebar_placeholders_witness :
  App.showCoinTool flat_session = false
  /\ App.pixelsPerMM flat_session = None
  /\ Size.width (App.imageSize flat_session) <> 0
  /\ find App.isThumb (App.measurements flat_session) = Some flat_thumb
  /\ NailMeasurement.width flat_thumb = 0
  /\ App.pixelsPerMM (App.impliedCalibration flat_session) = Some 0
  /\ MeasurementSidebar.row (Some 0) (Size.mk 4000 3000) sample_box
     = ("Index"%string, MeasurementSidebar.Placeholder,
        MeasurementSidebar.Placeholder).
Proof.
  assert (Hw : Size.width (App.imageSize flat_session) <> 0) by (cbn; lra).
  split; [reflexivity|]. split; [reflexivity|]. split; [exact Hw|].
  split; [reflexivity|]. split; [reflexivity|].
  destruct sidebar_placeholders as (Hrow & Hflat).
  split.
  - exact (proj1 (Hflat flat_session flat_thumb eq_refl eq_refl Hw eq_refl
                    eq_refl)).
  - exact (Hrow (Some 0) (Size.mk 4000 3000) sample_box
             (or_intror (or_introl eq_refl))).
Defined.
